(** * Agent assignment, role re-sync and permission resolution (callfairy accounts)

    A shallow embedding of
      - [callfairy/apps/accounts/models.py]   (User, Agent, AgentPermissions),
      - [callfairy/apps/accounts/signals.py]  (the pre_save / post_save /
        post_delete receivers on Agent),
      - [callfairy/apps/accounts/utils/permissions.py] (permission resolution),
      - [callfairy/apps/accounts/permissions.py] (the DRF gates),
      - [callfairy/apps/accounts/views.py], [serializers.py] (assigning and
        revoking over the API, email verification),
      - [callfairy/apps/accounts/user_management_views.py] (the template views
        on agents and the permission packages).

    The relational store is an explicit state; every ORM call is a step of a
    state-and-exception monad.  The source opens no transaction, so a raised
    exception keeps the writes made before it: the monad returns the store
    together with the outcome. *)

From Stdlib Require Import List Arith Bool Lia.
From stdpp Require Import gmap strings list fin_maps.

Set Default Proof Using "Type".
Open Scope nat_scope.

(* ===================================================================== *)
(** * Data model *)
(* ===================================================================== *)

(** [User.ROLE_CHOICES]: 'user', 'superuser', 'superadmin'. *)
Inductive Role := role_user | role_superuser | role_superadmin.

#[global] Instance Role_eq_dec : EqDecision Role.
Proof. solve_decision. Defined.

Definition role_eqb (r1 r2 : Role) : bool := bool_decide (r1 = r2).

(** A [User] instance as Python holds it: the primary key and the [role]
    field it was loaded with (or that was assigned to it since). *)
Record User := mkUser { u_id : nat; u_role : Role }.

(** The columns of an [Agent] row.  [a_pk = 0] stands for an instance that has
    not been saved (pk None): the AutoField hands out 1, 2, ... and the test
    [if instance.pk] of the receivers is false for both. *)
Record Agent := mkAgent {
  a_pk : nat;
  a_user_id : nat;
  a_organisation_id : nat;
  a_assigned_at : nat;
  a_assigned_by_id : option nat;
  a_is_active : bool;
  a_revoked_at : option nat;
  a_revoked_by_id : option nat
}.

(** An [Agent] instance: its fields and the related-object cache of
    [instance.user] (filled on first access, or by [create(user=...)]). *)
Record AgentInst := mkInst { fields : Agent; user_cache : option User }.

Record Permission := mkPermission { p_id : nat; p_key : string }.

(** The store.  [agents] is kept newest first, which is the model's
    [Meta.ordering = ['-assigned_at']]. *)
Record DB := mkDB {
  users : gmap nat Role;
  organisations : gmap nat bool;
  user_organisations : list (nat * nat);
  permissions : list Permission;
  user_permission_access : list (nat * nat);
  agents : list Agent;
  agent_permissions : list (nat * nat);
  agent_seq : nat;
  clock : nat
}.

(** Updates of one table of the store. *)
Definition set_users (f : gmap nat Role → gmap nat Role) (db : DB) : DB :=
  mkDB (f (users db)) (organisations db) (user_organisations db)
       (permissions db) (user_permission_access db) (agents db)
       (agent_permissions db) (agent_seq db) (clock db).

Definition set_agents (f : list Agent → list Agent) (db : DB) : DB :=
  mkDB (users db) (organisations db) (user_organisations db)
       (permissions db) (user_permission_access db) (f (agents db))
       (agent_permissions db) (agent_seq db) (clock db).

Definition set_agent_permissions (f : list (nat * nat) → list (nat * nat)) (db : DB) : DB :=
  mkDB (users db) (organisations db) (user_organisations db)
       (permissions db) (user_permission_access db) (agents db)
       (f (agent_permissions db)) (agent_seq db) (clock db).

Definition set_agent_seq (n : nat) (db : DB) : DB :=
  mkDB (users db) (organisations db) (user_organisations db)
       (permissions db) (user_permission_access db) (agents db)
       (agent_permissions db) n (clock db).

Definition set_clock (n : nat) (db : DB) : DB :=
  mkDB (users db) (organisations db) (user_organisations db)
       (permissions db) (user_permission_access db) (agents db)
       (agent_permissions db) (agent_seq db) n.

(* ===================================================================== *)
(** * Exceptions and the store monad *)
(* ===================================================================== *)

(** The constraints of the [Agent] table: its foreign keys and the two
    conditional unique constraints of [Agent.Meta.constraints]. *)
Inductive Constraint :=
  | fk_user | fk_organisation | fk_assigned_by | fk_revoked_by
  | unique_active_agent_per_org | unique_active_agent_per_user.

Inductive Exn :=
  | AgentDoesNotExist
  | UserDoesNotExist
  | MultipleObjectsReturned
  | IntegrityError (c : Constraint)
  | DatabaseError
  | AttributeError.

#[global] Instance Constraint_eq_dec : EqDecision Constraint.
Proof. solve_decision. Defined.

#[global] Instance Exn_eq_dec : EqDecision Exn.
Proof. solve_decision. Defined.

Inductive result (A : Type) := Ok (a : A) | Raise (e : Exn).
Arguments Ok {A} a.
Arguments Raise {A} e.

Definition M (A : Type) : Type := DB → DB * result A.

Definition ret {A} (a : A) : M A := λ db, (db, Ok a).
Definition raise {A} (e : Exn) : M A := λ db, (db, Raise e).
Definition bind {A B} (c : M A) (k : A → M B) : M B :=
  λ db, match c db with
        | (db', Ok a) => k a db'
        | (db', Raise e) => (db', Raise e)
        end.

Notation "'do' x <- c ;; k" := (bind c (λ x, k))
  (at level 10, x name, c at level 99, k at level 200).
Notation "'do' ' p <- c ;; k" := (bind c (λ x, match x with p => k end))
  (at level 10, p pattern, c at level 99, k at level 200).
Notation "'run' c ;; k" := (bind c (λ _, k))
  (at level 10, c at level 99, k at level 200).

(** [try: body except E: pass], for a body that returns its instance. *)
Definition try_except {A} (body : M A) (e : Exn) (handler : M A) : M A :=
  λ db, match body db with
        | (db', Raise e') => if bool_decide (e' = e) then handler db' else (db', Raise e')
        | r => r
        end.

(** [for x in xs: body x] *)
Fixpoint for_each {A} (xs : list A) (body : A → M unit) : M unit :=
  match xs with
  | [] => ret tt
  | x :: xs' => run body x ;; for_each xs' body
  end.

(** State and outcome of a run. *)
Definition state_of {A} (r : DB * result A) : DB := fst r.
Definition outcome {A} (r : DB * result A) : result A := snd r.

(* ===================================================================== *)
(** * The ORM calls the source makes *)
(* ===================================================================== *)

(** [timezone.now()]: reads the clock; two reads never give the same instant. *)
Definition timezone_now : M nat :=
  λ db, (set_clock (S (clock db)) db, Ok (clock db)).

(** A QuerySet evaluated against the current store. *)
Definition query {A} (f : DB → A) : M A := λ db, (db, Ok (f db)).

(** [User.objects.get(pk=uid)], which is what a first access to
    [instance.user] runs. *)
Definition User_get (uid : nat) : M User :=
  λ db, match users db !! uid with
        | Some r => (db, Ok (mkUser uid r))
        | None => (db, Raise UserDoesNotExist)
        end.

(** [user.save(update_fields=['role'])]: an UPDATE of the one column; Django
    raises DatabaseError when no row was affected. *)
Definition User_save_role (u : User) : M unit :=
  λ db, match users db !! u_id u with
        | Some _ => (set_users (<[u_id u := u_role u]>) db, Ok tt)
        | None => (db, Raise DatabaseError)
        end.

(** [Agent.objects.filter(user=u, is_active=True)] and
    [Agent.objects.filter(organisation=o, is_active=True)] as row predicates. *)
Definition by_user_active (uid : nat) (a : Agent) : bool :=
  (a_user_id a =? uid) && a_is_active a.
Definition by_org_active (oid : nat) (a : Agent) : bool :=
  (a_organisation_id a =? oid) && a_is_active a.
Definition has_pk (pk : nat) (a : Agent) : bool := a_pk a =? pk.

Definition Agent_filter (p : Agent → bool) (db : DB) : list Agent :=
  List.filter p (agents db).

(** [Agent.objects.get(id=pk)] *)
Definition Agent_get (pk : nat) : M AgentInst :=
  λ db, match List.find (has_pk pk) (agents db) with
        | Some a => (db, Ok (mkInst a None))
        | None => (db, Raise AgentDoesNotExist)
        end.

(** ** The constraints of the Agent table *)

(** The number of active rows of an organisation, and of a user. *)
Definition count_active_org (oid : nat) (tbl : list Agent) : nat :=
  length (List.filter (by_org_active oid) tbl).
Definition count_active_user (uid : nat) (tbl : list Agent) : nat :=
  length (List.filter (by_user_active uid) tbl).

(** [UniqueConstraint(fields=['organisation'], condition=Q(is_active=True))] *)
Definition check_unique_active_agent_per_org (tbl : list Agent) : bool :=
  forallb (λ a, negb (a_is_active a)
                || (count_active_org (a_organisation_id a) tbl <=? 1)) tbl.

(** [UniqueConstraint(fields=['user'], condition=Q(is_active=True))] *)
Definition check_unique_active_agent_per_user (tbl : list Agent) : bool :=
  forallb (λ a, negb (a_is_active a)
                || (count_active_user (a_user_id a) tbl <=? 1)) tbl.

(** The targets of the foreign keys: [user] and [organisation] are required,
    [assigned_by] and [revoked_by] are nullable. *)
Definition user_exists (db : DB) (uid : nat) : bool :=
  bool_decide (is_Some (users db !! uid)).
Definition organisation_exists (db : DB) (oid : nat) : bool :=
  bool_decide (is_Some (organisations db !! oid)).
Definition nullable_user_exists (db : DB) (o : option nat) : bool :=
  match o with None => true | Some uid => user_exists db uid end.

(** The constraint a write of row [a], leaving the table as [tbl'], violates. *)
Definition violated (db : DB) (a : Agent) (tbl' : list Agent) : option Constraint :=
  if negb (user_exists db (a_user_id a)) then Some fk_user
  else if negb (organisation_exists db (a_organisation_id a)) then Some fk_organisation
  else if negb (nullable_user_exists db (a_assigned_by_id a)) then Some fk_assigned_by
  else if negb (nullable_user_exists db (a_revoked_by_id a)) then Some fk_revoked_by
  else if negb (check_unique_active_agent_per_org tbl') then Some unique_active_agent_per_org
  else if negb (check_unique_active_agent_per_user tbl') then Some unique_active_agent_per_user
  else None.

(** The table with the row of primary key [a_pk a] overwritten by [a]. *)
Definition replace_row (a : Agent) (tbl : list Agent) : list Agent :=
  map (λ r, if has_pk (a_pk a) r then a else r) tbl.

(** Field updates on a row. *)
Definition set_pk (pk : nat) (a : Agent) : Agent :=
  mkAgent pk (a_user_id a) (a_organisation_id a) (a_assigned_at a)
          (a_assigned_by_id a) (a_is_active a) (a_revoked_at a) (a_revoked_by_id a).
Definition set_assigned_at (t : nat) (a : Agent) : Agent :=
  mkAgent (a_pk a) (a_user_id a) (a_organisation_id a) t
          (a_assigned_by_id a) (a_is_active a) (a_revoked_at a) (a_revoked_by_id a).

(** [agent.is_active = False; agent.revoked_at = now; agent.revoked_by = by] *)
Definition deactivated (now : nat) (by_ : option User) (a : Agent) : Agent :=
  mkAgent (a_pk a) (a_user_id a) (a_organisation_id a) (a_assigned_at a)
          (a_assigned_by_id a) false (Some now) (u_id <$> by_).

(** SQL [UPDATE accounts_agent SET ... WHERE id = pk]: the number of rows
    matched is what [save()] looks at. *)
Definition sql_update (a : Agent) : M bool :=
  λ db, if existsb (has_pk (a_pk a)) (agents db) then
          let tbl' := replace_row a (agents db) in
          match violated db a tbl' with
          | Some c => (db, Raise (IntegrityError c))
          | None => (set_agents (λ _, tbl') db, Ok true)
          end
        else (db, Ok false).

(** SQL [INSERT INTO accounts_agent ...]; an unsaved instance gets the next
    value of the sequence. *)
Definition sql_insert (a : Agent) : M Agent :=
  λ db, let a' := if a_pk a =? 0 then set_pk (S (agent_seq db)) a else a in
        let tbl' := a' :: agents db in
        match violated db a' tbl' with
        | Some c => (db, Raise (IntegrityError c))
        | None => (set_agent_seq (Nat.max (agent_seq db) (a_pk a'))
                     (set_agents (λ _, tbl') db), Ok a')
        end.

(* ===================================================================== *)
(** * models.py: User *)
(* ===================================================================== *)

(** [self.role = r] on the instance. *)
Definition with_role (r : Role) (u : User) : User := mkUser (u_id u) r.

(** [User.is_superadmin] *)
Definition is_superadmin (self : User) : bool := role_eqb (u_role self) role_superadmin.

(** [User.is_agent]: nothing in the repository sets [_is_agent_cache], so the
    [hasattr] test is false and the query decides. *)
Definition is_agent (db : DB) (self : User) : bool :=
  existsb (by_user_active (u_id self)) (agents db).

(** [User.get_managed_organisation]: the organisation (its id) of
    [Agent.objects.filter(user=self, is_active=True).first()]. *)
Definition get_managed_organisation (db : DB) (self : User) : option nat :=
  if negb (is_agent db self) then None
  else a_organisation_id <$> head (Agent_filter (by_user_active (u_id self)) db).

(** [User.sync_role_with_agent_status]; returns the instance as mutated. *)
Definition sync_role_with_agent_status (self : User) : M User :=
  do is_agent_now <- query (λ db, is_agent db self);;
  if is_agent_now && negb (role_eqb (u_role self) role_superuser) then
    let self := with_role role_superuser self in
    run User_save_role self;; ret self
  else if negb is_agent_now && role_eqb (u_role self) role_superuser then
    let self := with_role role_user self in
    run User_save_role self;; ret self
  else ret self.

(* ===================================================================== *)
(** * signals.py: the receivers on Agent *)
(* ===================================================================== *)

(** [instance.user]: the cached object, loaded on first access.  The logger
    calls of the receivers and the receiver [log_agent_assignment] only format
    fields of rows that the foreign keys keep in place and write nothing; they
    are left out. *)
Definition instance_user (instance : AgentInst) : M (User * AgentInst) :=
  match user_cache instance with
  | Some u => ret (u, instance)
  | None => do u <- User_get (a_user_id (fields instance));;
            ret (u, mkInst (fields instance) (Some u))
  end.

(** The instance with [u] as its cached [instance.user]. *)
Definition cache_user (u : User) (instance : AgentInst) : AgentInst :=
  mkInst (fields instance) (Some u).

(** [@receiver(pre_save, sender=Agent) sync_user_role_on_agent_revoke] *)
Definition sync_user_role_on_agent_revoke (instance : AgentInst) : M AgentInst :=
  if negb (a_pk (fields instance) =? 0) then
    try_except
      (do old_instance <- Agent_get (a_pk (fields instance));;
       if a_is_active (fields old_instance) && negb (a_is_active (fields instance)) then
         do '(user, instance) <- instance_user instance;;
         do other_active_agents <-
            query (λ db, existsb (λ a, by_user_active (u_id user) a
                                       && negb (has_pk (a_pk (fields instance)) a))
                                 (agents db));;
         if negb other_active_agents && role_eqb (u_role user) role_superuser then
           let user := with_role role_user user in
           run User_save_role user;; ret (cache_user user instance)
         else ret instance
       else ret instance)
      AgentDoesNotExist (ret instance)
  else ret instance.

(** [@receiver(post_save, sender=Agent) sync_user_role_on_agent_assign] *)
Definition sync_user_role_on_agent_assign (instance : AgentInst) (created : bool)
  : M AgentInst :=
  if a_is_active (fields instance) then
    do '(user, instance) <- instance_user instance;;
    if negb (role_eqb (u_role user) role_superuser) then
      let user := with_role role_superuser user in
      run User_save_role user;; ret (cache_user user instance)
    else ret instance
  else ret instance.

(** [@receiver(post_delete, sender=Agent) sync_user_role_on_agent_delete] *)
Definition sync_user_role_on_agent_delete (instance : AgentInst) : M AgentInst :=
  do '(user, instance) <- instance_user instance;;
  do has_other_agents <- query (λ db, existsb (by_user_active (u_id user)) (agents db));;
  if negb has_other_agents && role_eqb (u_role user) role_superuser then
    let user := with_role role_user user in
    run User_save_role user;; ret (cache_user user instance)
  else ret instance.

(* ===================================================================== *)
(** * models.py: Agent *)
(* ===================================================================== *)

(** [Model.save()] on an Agent: pre_save receiver, the write, post_save
    receiver.  An unsaved instance is inserted; a saved one is updated, and
    inserted when the UPDATE matched no row.  [assigned_at] is
    [auto_now_add]: stamped when the row is inserted. *)
Definition Model_save (instance : AgentInst) : M AgentInst :=
  do instance <- sync_user_role_on_agent_revoke instance;;
  do updated <- (if a_pk (fields instance) =? 0 then ret false
                 else sql_update (fields instance));;
  do row <- (if updated : bool then ret (fields instance)
             else do now <- timezone_now;;
                  sql_insert (set_assigned_at now (fields instance)));;
  sync_user_role_on_agent_assign (mkInst row (user_cache instance)) (negb updated).

(** [Agent.objects.create(user=..., organisation=..., assigned_by=...,
    is_active=True)] *)
Definition Agent_objects_create (user : User) (organisation : nat)
    (assigned_by : option User) : M AgentInst :=
  Model_save (mkInst (mkAgent 0 (u_id user) organisation 0 (u_id <$> assigned_by)
                              true None None)
                     (Some user)).

(** SQL [DELETE] of an Agent row; the rows of AgentPermissions that reference
    it go with it (on_delete=CASCADE). *)
Definition sql_delete (pk : nat) : M unit :=
  λ db, (set_agent_permissions (List.filter (λ g, negb (fst g =? pk)))
           (set_agents (List.filter (λ a, negb (has_pk pk a))) db), Ok tt).

(** [instance.delete()]: the row is deleted, then the post_delete receiver
    runs. *)
Definition Model_delete (instance : AgentInst) : M AgentInst :=
  run sql_delete (a_pk (fields instance));;
  sync_user_role_on_agent_delete instance.

(** The body of the first loop of [assign_agent]:
    [agent.is_active = False; agent.revoked_at = timezone.now();
     agent.revoked_by = assigned_by; agent.save();
     agent.user.sync_role_with_agent_status()]. *)
Definition deactivate_and_sync (assigned_by : option User) (agent : Agent) : M unit :=
  do now <- timezone_now;;
  do agent <- Model_save (mkInst (deactivated now assigned_by agent) None);;
  (* Sync old agent's role *)
  do '(agent_user, agent) <- instance_user agent;;
  run sync_role_with_agent_status agent_user;; ret tt.

(** The body of the second loop: the same without the role sync. *)
Definition deactivate_only (assigned_by : option User) (agent : Agent) : M unit :=
  do now <- timezone_now;;
  run Model_save (mkInst (deactivated now assigned_by agent) None);; ret tt.

(** [Agent.assign_agent(user, organisation, assigned_by)].  Each QuerySet is
    evaluated when its loop starts. *)
Definition assign_agent (user : User) (organisation : nat) (assigned_by : option User)
  : M AgentInst :=
  (* Deactivate existing agent for this organisation *)
  do existing_agents <- query (Agent_filter (by_org_active organisation));;
  run for_each existing_agents (deactivate_and_sync assigned_by);;
  (* Deactivate any existing agent assignment for this user *)
  do user_agents <- query (Agent_filter (by_user_active (u_id user)));;
  run for_each user_agents (deactivate_only assigned_by);;
  (* Create new agent assignment *)
  do new_agent <- Agent_objects_create user organisation assigned_by;;
  (* Update user role to superuser; [user] is the object cached on new_agent *)
  let user := with_role role_superuser user in
  run User_save_role user;;
  ret (cache_user user new_agent).

(** [Agent.revoke_agent(agent_id, revoked_by=None)]. *)
Definition revoke_agent (agent_id : nat) (revoked_by : option User) : M AgentInst :=
  do agent <- Agent_get agent_id;;
  do now <- timezone_now;;
  do agent <- Model_save (mkInst (deactivated now revoked_by (fields agent))
                                 (user_cache agent));;
  (* Sync user role *)
  do '(agent_user, agent) <- instance_user agent;;
  do agent_user <- sync_role_with_agent_status agent_user;;
  ret (cache_user agent_user agent).

(** [Agent.get_agent_for_organisation] and [Agent.get_agent_for_user] *)
Definition get_agent_for_organisation (db : DB) (organisation : nat) : option Agent :=
  head (Agent_filter (by_org_active organisation) db).
Definition get_agent_for_user (db : DB) (user : User) : option Agent :=
  head (Agent_filter (by_user_active (u_id user)) db).

(* ===================================================================== *)
(** * models.py: the permission sets of a user *)
(* ===================================================================== *)

(** A QuerySet over Permission is a WHERE clause, evaluated against the table
    when [.exists()] or an iteration asks for rows. *)
Definition PermissionQuerySet : Type := Permission → bool.

Definition qs_none : PermissionQuerySet := λ _, false.
Definition qs_or (q1 q2 : PermissionQuerySet) : PermissionQuerySet :=
  λ p, q1 p || q2 p.
Definition qs_filter_key (key : string) (q : PermissionQuerySet) : PermissionQuerySet :=
  λ p, q p && bool_decide (p_key p = key).
Definition qs_exists (db : DB) (q : PermissionQuerySet) : bool :=
  existsb q (permissions db).
Definition qs_rows (db : DB) (q : PermissionQuerySet) : list Permission :=
  List.filter q (permissions db).

(** The join of Permission with a grant table, for one holder (a user for
    UserPermissionAccess, an agent for AgentPermissions). *)
Definition granted (grants : list (nat * nat)) (holder : nat) (p : Permission) : bool :=
  existsb (λ g, (fst g =? holder) && (snd g =? p_id p)) grants.

(** [User.get_direct_permissions] *)
Definition get_direct_permissions (db : DB) (self : User) : PermissionQuerySet :=
  granted (user_permission_access db) (u_id self).

(** [Agent.objects.get(user=self, is_active=True)] *)
Definition Agent_get_active_for (db : DB) (self : User) : result Agent :=
  match Agent_filter (by_user_active (u_id self)) db with
  | [] => Raise AgentDoesNotExist
  | [a] => Ok a
  | _ => Raise MultipleObjectsReturned
  end.

(** [User.get_agent_permissions] *)
Definition get_agent_permissions (db : DB) (self : User) : result PermissionQuerySet :=
  if negb (is_agent db self) then Ok qs_none
  else match Agent_get_active_for db self with
       | Ok agent => Ok (granted (agent_permissions db) (a_pk agent))
       | Raise AgentDoesNotExist => Ok qs_none
       | Raise e => Raise e
       end.

(** [User.get_all_permissions]: [(direct_perms | agent_perms).distinct()] *)
Definition get_all_permissions (db : DB) (self : User) : result PermissionQuerySet :=
  match get_agent_permissions db self with
  | Ok agent_perms => Ok (qs_or (get_direct_permissions db self) agent_perms)
  | Raise e => Raise e
  end.

(** [User.has_permission] *)
Definition has_permission (db : DB) (self : User) (permission_key : string) : result bool :=
  if is_superadmin self then Ok true
  else match get_all_permissions db self with
       | Ok all => Ok (qs_exists db (qs_filter_key permission_key all))
       | Raise e => Raise e
       end.

(* ===================================================================== *)
(** * utils/permissions.py *)
(* ===================================================================== *)

(** [check_user_permission(user, permission_key, organisation=None)];
    an Organisation instance is truthy, [None] is not. *)
Definition check_user_permission (db : DB) (user : User) (permission_key : string)
    (organisation : option nat) : result bool :=
  if is_superadmin user then Ok true
  else match organisation with
       | Some organisation_id =>
           if is_agent db user then
             match get_managed_organisation db user with
             | Some managed_org =>
                 if managed_org =? organisation_id
                 then has_permission db user permission_key
                 else Ok false
             | None => Ok false
             end
           else has_permission db user permission_key
       | None => has_permission db user permission_key
       end.

(** The rows of [Organisation.objects.filter(is_active=True)], as the set of
    their ids. *)
Definition active_organisations (db : DB) : gset nat :=
  dom (filter (λ kv, kv.2 = true) (organisations db)).

(** [userorganisation__user=user]: a UserOrganisation row joins them. *)
Definition is_member (db : DB) (uid oid : nat) : bool :=
  existsb (λ m, (fst m =? uid) && (snd m =? oid)) (user_organisations db).

(** [get_user_accessible_organisations(user)] *)
Definition get_user_accessible_organisations (db : DB) (user : User) : gset nat :=
  if is_superadmin user then active_organisations db
  else if is_agent db user then
    match get_managed_organisation db user with
    | Some managed_org => active_organisations db ∩ {[managed_org]}
    | None => ∅
    end
  else filter (λ oid, is_member db (u_id user) oid) (active_organisations db).

(** [can_user_access_organisation(user, organisation)] *)
Definition can_user_access_organisation (db : DB) (user : User) (organisation : nat) : bool :=
  bool_decide (organisation ∈ get_user_accessible_organisations db user).

(** [can_user_manage_organisation(user, organisation)] *)
Definition can_user_manage_organisation (db : DB) (user : User) (organisation : nat) : bool :=
  if is_superadmin user then true
  else if is_agent db user then
    match get_managed_organisation db user with
    | Some managed_org => managed_org =? organisation
    | None => false
    end
  else false.

(** [organisation.id] on the argument as Python has it: an Organisation, or
    [None], on which the attribute access raises AttributeError. *)
Definition organisation_id (organisation : option nat) : result nat :=
  match organisation with
  | Some oid => Ok oid
  | None => Raise AttributeError
  end.

(** [can_user_access_organisation(user, organisation)] on any argument:
    [organisation.id] is evaluated once the accessible set has been built.
    On an Organisation this is [can_user_access_organisation] above. *)
Definition can_user_access_organisation_obj (db : DB) (user : User)
    (organisation : option nat) : result bool :=
  let accessible_orgs := get_user_accessible_organisations db user in
  match organisation_id organisation with
  | Ok oid => Ok (bool_decide (oid ∈ accessible_orgs))
  | Raise e => Raise e
  end.

(** [can_user_manage_organisation(user, organisation)] on any argument:
    [managed_org and managed_org.id == organisation.id] reads
    [organisation.id] only when [managed_org] is there.  On an Organisation
    this is [can_user_manage_organisation] above. *)
Definition can_user_manage_organisation_obj (db : DB) (user : User)
    (organisation : option nat) : result bool :=
  if is_superadmin user then Ok true
  else if is_agent db user then
    match get_managed_organisation db user with
    | Some managed_org =>
        match organisation_id organisation with
        | Ok oid => Ok (managed_org =? oid)
        | Raise e => Raise e
        end
    | None => Ok false
    end
  else Ok false.

(** [is_user_agent_of_organisation(user, organisation)] *)
Definition is_user_agent_of_organisation (db : DB) (user : User) (organisation : nat) : bool :=
  if negb (is_agent db user) then false
  else match get_managed_organisation db user with
       | Some managed_org => managed_org =? organisation
       | None => false
       end.

(* ===================================================================== *)
(** * permissions.py: the gates *)
(* ===================================================================== *)

(** [request.user]: absent, the anonymous user, or an authenticated User. *)
Inductive RequestUser := NoUser | AnonymousUser | AuthUser (u : User).

(** [getattr(view, 'permission_required', None)] *)
Record View := mkView { permission_required : option string }.

(** What the gates can tell about the object they are given: it has an
    [organisation] attribute, whose value is an Organisation (Agent,
    UserOrganisation) or [None]; it is an Organisation; or neither. *)
Inductive Obj :=
  | ObjWithOrganisation (organisation : option nat)
  | ObjOrganisation (organisation : nat)
  | ObjOther.

(** [if hasattr(obj, 'organisation'): org = obj.organisation
     elif isinstance(obj, Organisation): org = obj
     else: return False]: the value bound to [org] (an Organisation or
    [None]), or no value when the gate returns in the [else] branch. *)
Definition resolve_organisation (obj : Obj) : option (option nat) :=
  match obj with
  | ObjWithOrganisation org => Some org
  | ObjOrganisation org => Some (Some org)
  | ObjOther => None
  end.

(** [request.user and request.user.is_authenticated] *)
Definition is_authenticated (ru : RequestUser) : bool :=
  match ru with AuthUser _ => true | _ => false end.

(** [not permission_key]: no attribute, [None], or the empty string. *)
Definition key_of (view : View) : option string :=
  match permission_required view with
  | Some k => if bool_decide (k = ""%string) then None else Some k
  | None => None
  end.

(** [IsAgentOfOrganisation.has_object_permission] *)
Definition IsAgentOfOrganisation_has_object_permission
    (db : DB) (user : User) (view : View) (obj : Obj) : result bool :=
  if is_superadmin user then Ok true
  else match resolve_organisation obj with
       | None => Ok false
       | Some org =>
           if is_agent db user then
             match get_managed_organisation db user with
             | Some managed_org =>
                 (* managed_org and managed_org.id == org.id *)
                 match organisation_id org with
                 | Ok oid => Ok (managed_org =? oid)
                 | Raise e => Raise e
                 end
             | None => Ok false
             end
           else Ok false
       end.

(** [HasPermissionKey.has_permission] *)
Definition HasPermissionKey_has_permission
    (db : DB) (request_user : RequestUser) (view : View) : result bool :=
  match request_user with
  | AuthUser user =>
      if is_superadmin user then Ok true
      else match key_of view with
           | None => Ok true
           | Some permission_key => has_permission db user permission_key
           end
  | _ => Ok false
  end.

(** [CanManageOrganisation.has_object_permission] *)
Definition CanManageOrganisation_has_object_permission
    (db : DB) (user : User) (view : View) (obj : Obj) : result bool :=
  if is_superadmin user then Ok true
  else match resolve_organisation obj with
       | None => Ok false
       | Some org => can_user_manage_organisation_obj db user org
       end.


(** [HasOrganisationPermission.has_permission] *)
Definition HasOrganisationPermission_has_permission
    (request_user : RequestUser) (view : View) : bool :=
  is_authenticated request_user.

(** [HasOrganisationPermission.has_object_permission] *)
Definition HasOrganisationPermission_has_object_permission
    (db : DB) (user : User) (view : View) (obj : Obj) : result bool :=
  if is_superadmin user then Ok true
  else match resolve_organisation obj with
       | None => Ok false
       | Some org =>
           match key_of view with
           | None => can_user_access_organisation_obj db user org
           | Some permission_key =>
               check_user_permission db user permission_key org
           end
       end.

(* ===================================================================== *)
(** * Vocabulary of the properties *)
(* ===================================================================== *)

(** A computation preserves [P] when every run from a store in [P] ends in
    [P], whether it returns or raises. *)
Definition preserves {A} (P : DB → Prop) (c : M A) : Prop :=
  ∀ db, P db → P (state_of (c db)).

(** The two invariants of the Agent table, as counts of rows. *)
Definition one_active_agent_per_org (tbl : list Agent) : Prop :=
  ∀ O, count_active_org O tbl ≤ 1.

Definition one_active_agent_per_user (tbl : list Agent) : Prop :=
  ∀ U, count_active_user U tbl ≤ 1.

Definition uniqueness (db : DB) : Prop :=
  one_active_agent_per_org (agents db) ∧ one_active_agent_per_user (agents db).

(** One call of a mutator, whatever its arguments and whether it returns or
    raises: the store it leaves. *)
Inductive mutator_step : DB → DB → Prop :=
  | step_assign_agent db user organisation assigned_by :
      mutator_step db (state_of (assign_agent user organisation assigned_by db))
  | step_revoke_agent db agent_id revoked_by :
      mutator_step db (state_of (revoke_agent agent_id revoked_by db)).

(** Any number of calls of the mutators. *)
Definition reachable (db0 db : DB) : Prop := rtc mutator_step db0 db.

(** Primary key, foreign keys and the two unique constraints of the Agent
    table: what the database guarantees of every store it holds. *)
Record consistent (db : DB) : Prop := mkConsistent {
  c_fk_user : ∀ a, In a (agents db) → user_exists db (a_user_id a) = true;
  c_fk_org : ∀ a, In a (agents db) → organisation_exists db (a_organisation_id a) = true;
  c_fk_assigned_by : ∀ a, In a (agents db) → nullable_user_exists db (a_assigned_by_id a) = true;
  c_fk_revoked_by : ∀ a, In a (agents db) → nullable_user_exists db (a_revoked_by_id a) = true;
  c_pk : NoDup (map a_pk (agents db));
  c_pk_seq : ∀ a, In a (agents db) → 0 < a_pk a ≤ agent_seq db;
  c_unique : uniqueness db
}.

(** [user.role = r; user.save(update_fields=['role'])] on the store. *)
Definition set_role (uid : nat) (r : Role) (db : DB) : DB :=
  set_users (<[uid := r]>) db.

(** The role [sync_role_with_agent_status] settles on. *)
Definition resynced (db : DB) (u : User) : Role :=
  if is_agent db u then role_superuser
  else if role_eqb (u_role u) role_superuser then role_user
  else u_role u.

(** Another active assignment of the user of row [a]. *)
Definition other_active_agents (db : DB) (a : Agent) : bool :=
  existsb (λ r, by_user_active (a_user_id a) r && negb (has_pk (a_pk a) r)) (agents db).

(** Whether the pre_save receiver downgrades the user of row [a] when [a] is
    saved inactive. *)
Definition downgrades (db : DB) (a : Agent) : bool :=
  a_is_active a && negb (other_active_agents db a)
  && bool_decide (users db !! a_user_id a = Some role_superuser).

(** The store after [agent.save()] of row [a] deactivated. *)
Definition deactivate_row (now : nat) (by_ : option User) (a : Agent) (db : DB) : DB :=
  set_agents (replace_row (deactivated now by_ a))
    (if downgrades db a then set_role (a_user_id a) role_user db else db).

(** The related-object cache agrees with the store. *)
Definition cache_fresh (db : DB) (instance : AgentInst) : Prop :=
  ∀ u, user_cache instance = Some u →
       u_id u = a_user_id (fields instance) ∧ users db !! u_id u = Some (u_role u).

(** The store one clock read later. *)
Definition tick (db : DB) : DB := set_clock (S (clock db)) db.

(** The store and the user instance after [revoke_agent] of row [a]. *)
Definition revoked_store (by_ : option User) (a : Agent) (db : DB) : DB :=
  let db1 := deactivate_row (clock db) by_ a (tick db) in
  match users db1 !! a_user_id a with
  | Some r => set_role (a_user_id a) (resynced db1 (mkUser (a_user_id a) r)) db1
  | None => db1
  end.

(** The row [Agent.objects.create] inserts. *)
Definition new_agent_row (user : User) (organisation : nat) (assigned_by : option User)
    (db : DB) : Agent :=
  mkAgent (S (agent_seq db)) (u_id user) organisation (clock db)
          (u_id <$> assigned_by) true None None.

(** The store after the INSERT of the new row and the last
    [user.save(update_fields=['role'])] of [assign_agent]. *)
Definition created_store (user : User) (organisation : nat) (assigned_by : option User)
    (db : DB) : DB :=
  set_role (u_id user) role_superuser
    (set_agent_seq (S (agent_seq db))
       (set_agents (cons (new_agent_row user organisation assigned_by db)) (tick db))).

(** The store after the first loop: at most one row is there to deactivate. *)
Definition evicted_store (by_ : option User) (organisation : nat) (db : DB) : DB :=
  match Agent_filter (by_org_active organisation) db with
  | a :: _ => revoked_store by_ a db
  | [] => db
  end.

(** The store after the second loop. *)
Definition released_store (by_ : option User) (uid : nat) (db : DB) : DB :=
  match Agent_filter (by_user_active uid) db with
  | a :: _ => deactivate_row (clock db) by_ a (tick db)
  | [] => db
  end.

(** The store after a call of [assign_agent] that returns. *)
Definition assigned_store (user : User) (organisation : nat) (by_ : option User)
    (db : DB) : DB :=
  created_store user organisation by_
    (released_store by_ (u_id user) (evicted_store by_ organisation db)).

(** [consistent], decided. *)
Definition consistentb (db : DB) : bool :=
  forallb (λ a, user_exists db (a_user_id a)
                && organisation_exists db (a_organisation_id a)
                && nullable_user_exists db (a_assigned_by_id a)
                && nullable_user_exists db (a_revoked_by_id a)
                && (0 <? a_pk a) && (a_pk a <=? agent_seq db)) (agents db)
  && bool_decide (NoDup (map a_pk (agents db)))
  && check_unique_active_agent_per_org (agents db)
  && check_unique_active_agent_per_user (agents db).

(** The foreign-key constraints, as opposed to the two unique ones. *)
Definition is_foreign_key (c : Constraint) : bool :=
  match c with
  | unique_active_agent_per_org | unique_active_agent_per_user => false
  | _ => true
  end.

(** The outcome is an IntegrityError raised by one of the unique constraints. *)
Definition rejected_as_duplicate {A} (r : result A) : Prop :=
  ∃ c, r = Raise (IntegrityError c) ∧ is_foreign_key c = false.

(** No run of [c] raises [e]. *)
Definition never_raises {A} (e : Exn) (c : M A) : Prop :=
  ∀ db, outcome (c db) ≠ Raise e.

(* ===================================================================== *)
(** * Sample stores *)
(* ===================================================================== *)

Module Sample.
(** An administrator (1), two users (2, 3), two active organisations
    (10, 11) and a disabled one (12). *)
Definition admin : User := mkUser 1 role_superadmin.
Definition u1 : User := mkUser 2 role_user.
Definition u2 : User := mkUser 3 role_user.

Definition empty_store : DB :=
  mkDB (list_to_map [(1, role_superadmin); (2, role_user); (3, role_user)])
       (list_to_map [(10, true); (11, true); (12, false)])
       [] [mkPermission 1 "view_reports"; mkPermission 2 "view_contacts"] [] [] [] 0 100.

(** Scenario 1: [u1] manages organisation 10. *)
Definition scenario1 : DB := state_of (assign_agent u1 10 (Some admin) empty_store).

(** Scenario 2: organisation 10 is reassigned to [u2]. *)
Definition scenario2 : DB := state_of (assign_agent u2 10 (Some admin) scenario1).

(** Scenario 3: the agent row of [u2] (pk 2) is granted "view_reports". *)
Definition scenario3 : DB := set_agent_permissions (cons (2, 1)) scenario2.

(** [u2] as loaded from the store of scenarios 2 and 3, and its agent row. *)
Definition u2_agent : User := mkUser 3 role_superuser.
Definition u2_row : Agent := mkAgent 2 3 10 102 (Some 1) true None None.

(** The store of scenario 2 after [u2] was made a superadmin by hand. *)
Definition promoted : DB := set_role 3 role_superadmin scenario2.

(** A 'superuser' made by [setup_roles --create-superuser] (4): no Agent
    row, a member of organisation 10. *)
Definition with_superuser : DB :=
  mkDB (<[4 := role_superuser]> (users empty_store)) (organisations empty_store)
       [(4, 10)] (permissions empty_store) [] [] [] 0 100.

(** [u1], moved from organisation 10 to 11, holds an inactive row (pk 1)
    and an active one (pk 2); the stored role was then set back to 'user'
    by hand. *)
Definition drifted : DB :=
  set_role 2 role_user
    (state_of (assign_agent (mkUser 2 role_superuser) 11 (Some admin) scenario1)).

(** [u2] manages the disabled organisation 12. *)
Definition manages_disabled : DB :=
  state_of (assign_agent u2 12 (Some admin) empty_store).
End Sample.

(* ===================================================================== *)
(** * models.py: AgentPermissions *)
(* ===================================================================== *)

(** The foreign keys of an [AgentPermissions] row; [granted_by] is nullable.
    [get_or_create] inserts only when no row holds the pair, so
    [unique_together = ['agent', 'permission']] has nothing to reject. *)
Inductive GrantConstraint := fk_agent | fk_permission | fk_granted_by.

(** What the calls on the permission tables raise. *)
Inductive GrantExn :=
  | PermissionDoesNotExist
  | PermissionMultipleObjectsReturned
  | AgentPermissionsMultipleObjectsReturned
  | GrantIntegrityError (c : GrantConstraint).

Inductive GResult (A : Type) := GOk (a : A) | GRaise (e : GrantExn).
Arguments GOk {A} a.
Arguments GRaise {A} e.

(** The [permission] argument of [grant_permission] and [revoke_permission]:
    a Permission instance or a permission key ([isinstance(permission, str)]). *)
Inductive PermissionArg :=
  | PermissionInstance (p : Permission)
  | PermissionKey (key : string).

(** [Permission.objects.get(key=key)] *)
Definition Permission_get (db : DB) (key : string) : GResult Permission :=
  match List.filter (λ p, bool_decide (p_key p = key)) (permissions db) with
  | [] => GRaise PermissionDoesNotExist
  | [p] => GOk p
  | _ => GRaise PermissionMultipleObjectsReturned
  end.

(** [if isinstance(permission, str): permission = Permission.objects.get(key=permission)] *)
Definition resolve_permission (db : DB) (permission : PermissionArg) : GResult Permission :=
  match permission with
  | PermissionInstance p => GOk p
  | PermissionKey key => Permission_get db key
  end.

(** [filter(agent=agent, permission=permission)] as a row predicate.  The
    store keeps the pair (agent, permission) of a row; [granted_at] and
    [granted_by] are written once and read by none of the code embedded
    here. *)
Definition same_grant (agent_pk permission_id : nat) (g : nat * nat) : bool :=
  (fst g =? agent_pk) && (snd g =? permission_id).

Definition agent_exists (db : DB) (pk : nat) : bool := existsb (has_pk pk) (agents db).
Definition permission_exists (db : DB) (pid : nat) : bool :=
  existsb (λ p, p_id p =? pid) (permissions db).

(** [AgentPermissions.objects.create(agent=..., permission=..., granted_by=...)]:
    [granted_at] is [auto_now_add], so the clock is read before the INSERT. *)
Definition AgentPermissions_create (agent_pk permission_id : nat)
    (granted_by : option User) (db : DB) : DB * GResult (nat * nat) :=
  let db := tick db in
  if negb (agent_exists db agent_pk) then (db, GRaise (GrantIntegrityError fk_agent))
  else if negb (permission_exists db permission_id)
       then (db, GRaise (GrantIntegrityError fk_permission))
  else if negb (nullable_user_exists db (u_id <$> granted_by))
       then (db, GRaise (GrantIntegrityError fk_granted_by))
  else (set_agent_permissions (cons (agent_pk, permission_id)) db,
        GOk (agent_pk, permission_id)).

(** [AgentPermissions.objects.get_or_create(agent=agent, permission=permission,
    defaults={'granted_by': granted_by})]: the row and whether it was created. *)
Definition AgentPermissions_get_or_create (agent : Agent) (permission : Permission)
    (granted_by : option User) (db : DB) : DB * GResult ((nat * nat) * bool) :=
  match List.filter (same_grant (a_pk agent) (p_id permission)) (agent_permissions db) with
  | [g] => (db, GOk (g, false))
  | [] => match AgentPermissions_create (a_pk agent) (p_id permission) granted_by db with
          | (db', GOk g) => (db', GOk (g, true))
          | (db', GRaise e) => (db', GRaise e)
          end
  | _ => (db, GRaise AgentPermissionsMultipleObjectsReturned)
  end.

(** [AgentPermissions.grant_permission(agent, permission, granted_by=None)] *)
Definition grant_permission (agent : Agent) (permission : PermissionArg)
    (granted_by : option User) (db : DB) : DB * GResult (nat * nat) :=
  match resolve_permission db permission with
  | GRaise e => (db, GRaise e)
  | GOk permission =>
      match AgentPermissions_get_or_create agent permission granted_by db with
      | (db', GOk (agent_perm, created)) => (db', GOk agent_perm)
      | (db', GRaise e) => (db', GRaise e)
      end
  end.

(** [AgentPermissions.revoke_permission(agent, permission)] *)
Definition revoke_permission (agent : Agent) (permission : PermissionArg)
    (db : DB) : DB * GResult unit :=
  match resolve_permission db permission with
  | GRaise e => (db, GRaise e)
  | GOk permission =>
      (set_agent_permissions
         (List.filter (λ g, negb (same_grant (a_pk agent) (p_id permission) g))) db,
       GOk tt)
  end.

(** [Agent.get_permissions] *)
Definition Agent_get_permissions (db : DB) (self : Agent) : PermissionQuerySet :=
  granted (agent_permissions db) (a_pk self).

(* ===================================================================== *)
(** * utils/permissions.py: the remaining helpers *)
(* ===================================================================== *)

(** [Permission.objects.all()] *)
Definition qs_all : PermissionQuerySet := λ _, true.

(** [get_user_permissions_for_organisation(user, organisation)] *)
Definition get_user_permissions_for_organisation (db : DB) (user : User)
    (organisation : nat) : result PermissionQuerySet :=
  if is_superadmin user then Ok qs_all
  else if is_agent db user then
    match get_managed_organisation db user with
    | Some managed_org =>
        if managed_org =? organisation then get_agent_permissions db user
        else Ok qs_none
    | None => Ok qs_none
    end
  else Ok (get_direct_permissions db user).

(** [get_organisation_agent(organisation)]: [agent_assignment.user] loads the
    user row. *)
Definition get_organisation_agent (db : DB) (organisation : nat) : result (option User) :=
  match get_agent_for_organisation db organisation with
  | Some agent_assignment =>
      match users db !! a_user_id agent_assignment with
      | Some r => Ok (Some (mkUser (a_user_id agent_assignment) r))
      | None => Raise UserDoesNotExist
      end
  | None => Ok None
  end.

(* ===================================================================== *)
(** * permissions.py: the role gates *)
(* ===================================================================== *)

Record Request := mkRequest { req_user : RequestUser; req_method : string }.

(** [rest_framework.permissions.SAFE_METHODS] *)
Definition SAFE_METHODS : list string := ["GET"; "HEAD"; "OPTIONS"]%string.

(** [request.user.role == 'superadmin'] and the like, on [request.user]. *)
Definition role_in (roles : list Role) (ru : RequestUser) : bool :=
  match ru with
  | AuthUser u => bool_decide (u_role u ∈ roles)
  | _ => false
  end.

(** [IsSuperAdmin.has_permission] *)
Definition IsSuperAdmin_has_permission (request : Request) : bool :=
  is_authenticated (req_user request) && role_in [role_superadmin] (req_user request).

(** [IsSuperUser.has_permission] *)
Definition IsSuperUser_has_permission (request : Request) : bool :=
  is_authenticated (req_user request)
  && role_in [role_superadmin; role_superuser] (req_user request).

(** [IsUser.has_permission] *)
Definition IsUser_has_permission (request : Request) : bool :=
  is_authenticated (req_user request).

(** [IsSuperAdminOrReadOnly.has_permission] *)
Definition IsSuperAdminOrReadOnly_has_permission (request : Request) : bool :=
  if bool_decide (req_method request ∈ SAFE_METHODS)
  then is_authenticated (req_user request)
  else is_authenticated (req_user request) && role_in [role_superadmin] (req_user request).

(* ===================================================================== *)
(** * views.py and serializers.py: assigning and revoking over the API *)
(* ===================================================================== *)

(** What a view answers.  [NotPermitted] is the 401 or 403 that
    [APIView.check_permissions] answers with when a class of
    [permission_classes] refuses the request; an exception that no handler
    catches is the [Raise] of the store monad. *)
Inductive Response (A : Type) :=
  | HTTP_200_OK (data : A)
  | HTTP_201_CREATED (data : A)
  | HTTP_400_BAD_REQUEST (field : string)
  | NotPermitted
  | HTTP_404_NOT_FOUND
  | HTTP_405_METHOD_NOT_ALLOWED.
Arguments HTTP_200_OK {A} data.
Arguments HTTP_201_CREATED {A} data.
Arguments HTTP_400_BAD_REQUEST {A} field.
Arguments NotPermitted {A}.
Arguments HTTP_404_NOT_FOUND {A}.
Arguments HTTP_405_METHOD_NOT_ALLOWED {A}.

(** [AssignAgentSerializer.validate] on parsed ids: the field a
    ValidationError names, or the user and the organisation. *)
Definition AssignAgentSerializer_validate (db : DB) (user_id organisation_id : nat)
  : string + (User * nat) :=
  match users db !! user_id with
  | None => inl "user_id"%string
  | Some r =>
      let user := mkUser user_id r in
      match organisations db !! organisation_id with
      | None => inl "organisation_id"%string
      | Some _ =>
          match get_agent_for_user db user with
          | Some existing_agent =>
              if a_is_active existing_agent
                 && negb (a_organisation_id existing_agent =? organisation_id)
              then inl "user_id"%string
              else inr (user, organisation_id)
          | None => inr (user, organisation_id)
          end
      end
  end.

(** [AssignAgentView.post]; the body of the answer is the new Agent row. *)
Definition AssignAgentView_post (request_user : User) (user_id organisation_id : nat)
  : M (Response Agent) :=
  do validated <- query (λ db, AssignAgentSerializer_validate db user_id organisation_id);;
  match validated with
  | inl field => ret (HTTP_400_BAD_REQUEST field)
  | inr (user, org) =>
      do agent <- assign_agent user org (Some request_user);;
      ret (HTTP_201_CREATED (fields agent))
  end.

(** [get_object_or_404(Agent, <filter>, is_active=True)] *)
Definition get_active_agent_or_404 (p : Agent → bool) : M (option Agent) :=
  do rows <- query (Agent_filter (λ a, p a && a_is_active a));;
  match rows with
  | [] => ret None
  | [a] => ret (Some a)
  | _ => raise MultipleObjectsReturned
  end.

(** [RevokeAgentView.post]; the body of the answer is ['user_role'].  The
    reads of [agent.organisation.name] load a row the foreign key keeps in
    place and are left out, as in the receivers. *)
Definition RevokeAgentView_post (request_user : User) (agent_id : nat)
  : M (Response Role) :=
  do found <- get_active_agent_or_404 (has_pk agent_id);;
  match found with
  | None => ret HTTP_404_NOT_FOUND
  | Some agent =>
      (* user_name = agent.user.name *)
      run instance_user (mkInst agent None);;
      (* Revoke agent *)
      run revoke_agent agent_id (Some request_user);;
      (* agent.refresh_from_db(); agent.user.refresh_from_db() *)
      do agent <- Agent_get agent_id;;
      do user <- User_get (a_user_id (fields agent));;
      ret (HTTP_200_OK (u_role user))
  end.

(** An APIView with [permission_classes = [IsSuperAdmin]] and a [post]
    handler: the permission check comes first, then the handler of the
    method. *)
Definition superadmin_post_view {A} (post : User → M (Response A)) (request : Request)
  : M (Response A) :=
  if IsSuperAdmin_has_permission request then
    match req_user request with
    | AuthUser user =>
        if bool_decide (req_method request = "POST"%string) then post user
        else ret HTTP_405_METHOD_NOT_ALLOWED
    | _ => ret NotPermitted
    end
  else ret NotPermitted.

Definition AssignAgentView (request : Request) (user_id organisation_id : nat)
  : M (Response Agent) :=
  superadmin_post_view (λ user, AssignAgentView_post user user_id organisation_id) request.

Definition RevokeAgentView (request : Request) (agent_id : nat) : M (Response Role) :=
  superadmin_post_view (λ user, RevokeAgentView_post user agent_id) request.

(* ===================================================================== *)
(** * user_management_views.py: the template views on agents *)
(* ===================================================================== *)

(** What a template view answers: the redirect of [@login_required] to the
    login page, [redirect(name)], [render(request, template, ...)], or the
    404 of [get_object_or_404]. *)
Inductive TemplateResponse :=
  | RedirectToLogin
  | Redirect (to : string)
  | Render (template : string)
  | Http404.

(** [agent.is_active = False; agent.revoked_by = request.user]: the fields
    [agent_revoke_view] sets before [agent.save()]. *)
Definition marked_inactive (by_ : User) (a : Agent) : Agent :=
  mkAgent (a_pk a) (a_user_id a) (a_organisation_id a) (a_assigned_at a)
          (a_assigned_by_id a) false (a_revoked_at a) (Some (u_id by_)).

(** [agent_revoke_view(request, agent_id)] under [@login_required] and
    [@require_superadmin]; the Agent is looked up by [user__id=agent_id]. *)
Definition agent_revoke_view (request : Request) (agent_id : nat) : M TemplateResponse :=
  match req_user request with
  | AuthUser user =>
      if negb (role_eqb (u_role user) role_superadmin) then ret (Redirect "dashboard")
      else
        do found <- get_active_agent_or_404 (λ a, a_user_id a =? agent_id);;
        match found with
        | None => ret Http404
        | Some agent =>
            if bool_decide (req_method request = "POST"%string) then
              do agent <- Model_save (mkInst (marked_inactive user agent) None);;
              (* messages.success(request, f'{agent.user.name} ...') *)
              run instance_user agent;;
              ret (Redirect "agents_list")
            else ret (Render "user_management/agent_revoke_confirm.html")
        end
  | _ => ret RedirectToLogin
  end.

(** The loop of the three [grant_*_agent_permissions] functions:
    [try: permission = Permission.objects.get(key=perm_key);
          AgentPermissions.objects.get_or_create(agent=agent, permission=permission)
     except Permission.DoesNotExist: pass]. *)
Fixpoint grant_each (keys : list string) (agent : Agent) (db : DB) : DB * GResult unit :=
  match keys with
  | [] => (db, GOk tt)
  | perm_key :: keys' =>
      match Permission_get db perm_key with
      | GOk permission =>
          match AgentPermissions_get_or_create agent permission None db with
          | (db', GOk _) => grant_each keys' agent db'
          | (db', GRaise e) => (db', GRaise e)
          end
      | GRaise PermissionDoesNotExist => grant_each keys' agent db
      | GRaise e => (db, GRaise e)
      end
  end.

Definition basic_permissions : list string :=
  ["manage_organisation"; "view_users"; "view_reports"]%string.
Definition standard_permissions : list string :=
  ["manage_organisation"; "view_users"; "view_reports"; "view_contacts"; "view_calls";
   "create_contacts"]%string.
Definition advanced_permissions : list string :=
  ["manage_organisation"; "view_users"; "create_users"; "edit_users"; "view_reports";
   "view_contacts"; "create_contacts"; "view_calls"; "make_calls";
   "manage_campaigns"]%string.

Definition grant_basic_agent_permissions := grant_each basic_permissions.
Definition grant_standard_agent_permissions := grant_each standard_permissions.
Definition grant_advanced_agent_permissions := grant_each advanced_permissions.

(** [agent_assign_view(request)] under [@login_required] and
    [@require_superadmin], on parsed ids.  [except Exception] catches what
    [assign_agent] and the grants raise; the view then renders the form. *)
Definition agent_assign_view (request : Request) (user_id org_id : nat)
    (permission_package : string) (db : DB) : DB * TemplateResponse :=
  match req_user request with
  | AuthUser request_user =>
      if negb (role_eqb (u_role request_user) role_superadmin)
      then (db, Redirect "dashboard")
      else if negb (bool_decide (req_method request = "POST"%string))
      then (db, Render "user_management/agent_assign.html")
      else
        match users db !! user_id, organisations db !! org_id with
        | Some r, Some _ =>
            let user := mkUser user_id r in
            let elsewhere :=
              match get_agent_for_user db user with
              | Some existing_agent =>
                  a_is_active existing_agent
                  && negb (a_organisation_id existing_agent =? org_id)
              | None => false
              end in
            if elsewhere then (db, Redirect "agent_assign")
            else
              match assign_agent user org_id (Some request_user) db with
              | (db', Ok agent) =>
                  let grant :=
                    if bool_decide (permission_package = "basic"%string)
                    then grant_basic_agent_permissions
                    else if bool_decide (permission_package = "advanced"%string)
                    then grant_advanced_agent_permissions
                    else grant_standard_agent_permissions in
                  match grant (fields agent) db' with
                  | (db'', GOk _) => (db'', Redirect "agents_list")
                  | (db'', GRaise _) => (db'', Render "user_management/agent_assign.html")
                  end
              | (db', Raise _) => (db', Render "user_management/agent_assign.html")
              end
        | _, _ => (db, Render "user_management/agent_assign.html")
        end
  | _ => (db, RedirectToLogin)
  end.

(* ===================================================================== *)
(** * Email verification (models.py, serializers.py, views.py) *)
(* ===================================================================== *)

Module EmailVerification.

(** A row of [EmailVerificationToken]. *)
Record Token := mkToken {
  t_user_id : nat;
  t_token : string;
  t_created_at : nat;
  t_expires_at : nat;
  t_is_used : bool
}.

(** The part of the store the verification touches: [User.is_active] of
    every user, the token table, and the clock (in seconds). *)
Record Store := mkStore {
  user_is_active : gmap nat bool;
  tokens : list Token;
  now : nat
}.

Inductive Error :=
  | Invalid_token
  | Token_expired_or_already_used
  | TokenMultipleObjectsReturned
  | TokenIntegrityError
  | UserDatabaseError.

(** [timedelta(hours=h)] in seconds. *)
Definition hours (h : nat) : nat := h * 3600.

(** [timezone.now()] *)
Definition read_clock (s : Store) : Store * nat :=
  (mkStore (user_is_active s) (tokens s) (S (now s)), now s).

(** [EmailVerificationToken.create_for_user(user, ttl_hours)]; [token] is
    the value drawn by [secrets.token_urlsafe(32)].  The INSERT checks the
    foreign key and [unique=True] of the token column; [created_at] is
    [auto_now_add]. *)
Definition create_for_user (token : string) (user_id : nat) (ttl_hours : nat) (s : Store)
  : Store * (Error + Token) :=
  let '(s, t0) := read_clock s in
  let expires := t0 + hours ttl_hours in
  let '(s, created_at) := read_clock s in
  if bool_decide (is_Some (user_is_active s !! user_id))
     && negb (existsb (λ t, bool_decide (t_token t = token)) (tokens s))
  then let evt := mkToken user_id token created_at expires false in
       (mkStore (user_is_active s) (evt :: tokens s) (now s), inr evt)
  else (s, inl TokenIntegrityError).

(** [EmailVerificationToken.is_valid]; the clock is read only when the token
    is unused. *)
Definition is_valid (self : Token) (s : Store) : Store * bool :=
  if t_is_used self then (s, false)
  else let '(s, t) := read_clock s in (s, t <=? t_expires_at self).

(** [EmailVerificationSerializer.validate] *)
Definition EmailVerificationSerializer_validate (token : string) (s : Store)
  : Store * (Error + Token) :=
  match List.filter (λ t, bool_decide (t_token t = token)) (tokens s) with
  | [] => (s, inl Invalid_token)
  | [evt] =>
      let '(s, valid) := is_valid evt s in
      if valid then (s, inr evt) else (s, inl Token_expired_or_already_used)
  | _ => (s, inl TokenMultipleObjectsReturned)
  end.

(** [evt.is_used = True; evt.save(update_fields=["is_used"])] *)
Definition mark_used (token : string) (tbl : list Token) : list Token :=
  map (λ t, if bool_decide (t_token t = token)
            then mkToken (t_user_id t) (t_token t) (t_created_at t) (t_expires_at t) true
            else t) tbl.

(** [EmailVerifyView.post]: on success the answer is 200. *)
Definition EmailVerifyView_post (token : string) (s : Store) : Store * (Error + unit) :=
  match EmailVerificationSerializer_validate token s with
  | (s, inl e) => (s, inl e)
  | (s, inr evt) =>
      (* user.is_active = True; user.save(update_fields=["is_active"]) *)
      match user_is_active s !! t_user_id evt with
      | None => (s, inl UserDatabaseError)
      | Some _ =>
          (mkStore (<[t_user_id evt := true]> (user_is_active s))
                   (mark_used (t_token evt) (tokens s)) (now s),
           inr tt)
      end
  end.

End EmailVerification.

(* ===================================================================== *)
(** * Vocabulary of the further properties *)
(* ===================================================================== *)

(** The stored role agrees with the assignments: below 'superadmin', the
    role is 'superuser' exactly when the user holds an active Agent row. *)
Definition in_sync (db : DB) : Prop :=
  ∀ uid r, users db !! uid = Some r → r ≠ role_superadmin →
           (r = role_superuser ↔ is_agent db (mkUser uid r) = true).

(** The same for one user. *)
Definition in_sync_at (db : DB) (uid : nat) : Prop :=
  ∀ r, users db !! uid = Some r → r ≠ role_superadmin →
       (r = role_superuser ↔ is_agent db (mkUser uid r) = true).

Definition in_syncb (db : DB) : bool :=
  forallb (λ ur, role_eqb ur.2 role_superadmin
                 || eqb (role_eqb ur.2 role_superuser)
                        (is_agent db (mkUser ur.1 ur.2)))
          (map_to_list (users db)).

(** Every inactive Agent row carries the instant of its revocation. *)
Definition stamped (a : Agent) : Prop :=
  a_is_active a = false → is_Some (a_revoked_at a).

Definition all_stamped (db : DB) : Prop := ∀ a, In a (agents db) → stamped a.

(** A computation keeps [P], and what it returns satisfies [Q]. *)
Definition keeps {A} (P : DB → Prop) (Q : A → Prop) (c : M A) : Prop :=
  ∀ db, P db → P (state_of (c db)) ∧ ∀ a, outcome (c db) = Ok a → Q a.

(** The foreign key of AgentPermissions to Agent, and to Permission. *)
Definition grants_reference_agents (db : DB) : Prop :=
  ∀ g, In g (agent_permissions db) → agent_exists db (fst g) = true.

Definition grants_reference_agentsb (db : DB) : bool :=
  forallb (λ g, agent_exists db (fst g)) (agent_permissions db).

(** [unique=True] of [Permission.key]. *)
Definition unique_keys (db : DB) : Prop := NoDup (map p_key (permissions db)).

(** The catalog permissions whose key is one of [keys]. *)
Definition in_package (keys : list string) (p : Permission) : bool :=
  bool_decide (p_key p ∈ keys).

(** The keys a permission package stands for. *)
Definition package_keys (permission_package : string) : list string :=
  if bool_decide (permission_package = "basic"%string) then basic_permissions
  else if bool_decide (permission_package = "advanced"%string) then advanced_permissions
  else standard_permissions.

Module Sample2.
(** A catalog of four permissions, two of them in the basic package. *)
Definition catalog : list Permission :=
  [mkPermission 1 "view_reports"; mkPermission 2 "view_contacts";
   mkPermission 3 "view_users"; mkPermission 4 "make_calls"].

Definition with_catalog (db : DB) : DB :=
  mkDB (users db) (organisations db) (user_organisations db) catalog
       (user_permission_access db) (agents db) (agent_permissions db)
       (agent_seq db) (clock db).

(** [u1] (2) manages organisation 10; [u2] (3) is a member of organisation 11
    and holds "view_reports" directly. *)
Definition office : DB :=
  mkDB (users Sample.scenario1) (organisations Sample.scenario1) [(3, 11)] catalog
       [(3, 1)] (agents Sample.scenario1) [] (agent_seq Sample.scenario1)
       (clock Sample.scenario1).

Definition u1_row : Agent := mkAgent 1 2 10 100 (Some 1) true None None.
Definition u1_agent : User := mkUser 2 role_superuser.

Definition post_as (u : User) : Request := mkRequest (AuthUser u) "POST".

(** A registered, inactive user (7) with one token valid for an hour. *)
Definition registered : EmailVerification.Store :=
  fst (EmailVerification.create_for_user "tok" 7 1
         (EmailVerification.mkStore {[7 := false]} [] 0)).
End Sample2.

(* ===================================================================== *)
(** * Reasoning about runs *)
(* ===================================================================== *)

Lemma bind_ok {A B} (c : M A) (k : A → M B) db db' a :
  c db = (db', Ok a) → bind c k db = k a db'.
Proof. intros H. unfold bind. by rewrite H. Qed.

Lemma bind_raise {A B} (c : M A) (k : A → M B) db db' e :
  c db = (db', Raise e) → bind c k db = (db', Raise e).
Proof. intros H. unfold bind. by rewrite H. Qed.

Section Preserves.
Context (P : DB → Prop).

Lemma preserves_ret {A} (a : A) : preserves P (ret a).
Proof. by intros db H. Qed.

Lemma preserves_raise {A} e : preserves P (@raise A e).
Proof. by intros db H. Qed.

Lemma preserves_query {A} (f : DB → A) : preserves P (query f).
Proof. by intros db H. Qed.

Lemma preserves_bind {A B} (c : M A) (k : A → M B) :
  preserves P c → (∀ a, preserves P (k a)) → preserves P (bind c k).
Proof.
  intros Hc Hk db H. unfold bind, state_of. specialize (Hc db H).
  destruct (c db) as [db' [a|e]]; simpl in *; [by apply Hk | done].
Qed.

Lemma preserves_try_except {A} (body handler : M A) e :
  preserves P body → preserves P handler → preserves P (try_except body e handler).
Proof.
  intros Hb Hh db H. unfold try_except, state_of. specialize (Hb db H).
  destruct (body db) as [db' [a|e']]; simpl in *; [done|].
  case_bool_decide; [by apply Hh | done].
Qed.

Lemma preserves_for_each {A} (xs : list A) (body : A → M unit) :
  (∀ x, preserves P (body x)) → preserves P (for_each xs body).
Proof.
  intros Hb. induction xs as [|x xs IH]; simpl.
  - apply preserves_ret.
  - apply preserves_bind; [apply Hb | intros _; apply IH].
Qed.
End Preserves.

(** ** The two uniqueness invariants *)

Lemma check_unique_org_spec tbl :
  check_unique_active_agent_per_org tbl = true ↔ one_active_agent_per_org tbl.
Proof.
  unfold check_unique_active_agent_per_org, one_active_agent_per_org.
  rewrite forallb_forall. split.
  - intros H O. destruct (List.filter (by_org_active O) tbl) as [|a l] eqn:E.
    + unfold count_active_org. rewrite E. simpl. lia.
    + assert (Ha : In a (List.filter (by_org_active O) tbl)) by (rewrite E; left; done).
      apply filter_In in Ha as [Ha Hb]. unfold by_org_active in Hb.
      apply andb_true_iff in Hb as [Ho Hact]. apply Nat.eqb_eq in Ho. subst O.
      specialize (H a Ha). rewrite Hact in H. simpl in H. by apply Nat.leb_le in H.
  - intros H a _. apply orb_true_iff. right. apply Nat.leb_le, H.
Qed.

Lemma check_unique_user_spec tbl :
  check_unique_active_agent_per_user tbl = true ↔ one_active_agent_per_user tbl.
Proof.
  unfold check_unique_active_agent_per_user, one_active_agent_per_user.
  rewrite forallb_forall. split.
  - intros H U. destruct (List.filter (by_user_active U) tbl) as [|a l] eqn:E.
    + unfold count_active_user. rewrite E. simpl. lia.
    + assert (Ha : In a (List.filter (by_user_active U) tbl)) by (rewrite E; left; done).
      apply filter_In in Ha as [Ha Hb]. unfold by_user_active in Hb.
      apply andb_true_iff in Hb as [Ho Hact]. apply Nat.eqb_eq in Ho. subst U.
      specialize (H a Ha). rewrite Hact in H. simpl in H. by apply Nat.leb_le in H.
  - intros H a _. apply orb_true_iff. right. apply Nat.leb_le, H.
Qed.

(** A write the store accepts leaves a table that satisfies both constraints. *)
Lemma violated_None_unique db a tbl' :
  violated db a tbl' = None →
  one_active_agent_per_org tbl' ∧ one_active_agent_per_user tbl'.
Proof.
  unfold violated. intros H.
  repeat match type of H with
         | (if negb ?b then _ else _) = _ => destruct b eqn:?; simpl in H; [|done]
         end.
  split; [by apply check_unique_org_spec | by apply check_unique_user_spec].
Qed.

Lemma preserves_uniqueness_sql_update a : preserves uniqueness (sql_update a).
Proof.
  intros db H. unfold sql_update, state_of.
  destruct (existsb _ _); [|done].
  destruct (violated _ _ _) eqn:E; [done|]. simpl.
  by apply violated_None_unique in E.
Qed.

Lemma preserves_uniqueness_sql_insert a : preserves uniqueness (sql_insert a).
Proof.
  intros db H. unfold sql_insert, state_of.
  destruct (violated _ _ _) eqn:E; [done|]. simpl.
  by apply violated_None_unique in E.
Qed.

Lemma preserves_uniqueness_User_save_role u : preserves uniqueness (User_save_role u).
Proof. intros db H. unfold User_save_role, state_of. by destruct (users db !! u_id u). Qed.

Lemma preserves_uniqueness_User_get uid : preserves uniqueness (User_get uid).
Proof. intros db H. unfold User_get, state_of. by destruct (users db !! uid). Qed.

Lemma preserves_uniqueness_Agent_get pk : preserves uniqueness (Agent_get pk).
Proof. intros db H. unfold Agent_get, state_of. by destruct (find _ _). Qed.

Lemma preserves_uniqueness_timezone_now : preserves uniqueness timezone_now.
Proof. by intros db H. Qed.

Create HintDb preserves_db.
#[local] Hint Resolve preserves_ret preserves_raise preserves_query
  preserves_uniqueness_sql_update preserves_uniqueness_sql_insert
  preserves_uniqueness_User_save_role preserves_uniqueness_User_get
  preserves_uniqueness_Agent_get preserves_uniqueness_timezone_now : preserves_db.

(** Walks through a monadic body: binds, loops, handlers and branches. *)
Ltac preserves_step :=
  repeat first
    [ progress auto with preserves_db
    | apply preserves_bind; [|intros ?]
    | apply preserves_try_except
    | apply preserves_for_each; intros ?
    | match goal with
      | |- preserves _ (if ?b then _ else _) => destruct b
      | |- preserves _ (match ?x with _ => _ end) => destruct x
      end ].

Lemma preserves_uniqueness_instance_user i : preserves uniqueness (instance_user i).
Proof. unfold instance_user. preserves_step. Qed.

Lemma preserves_uniqueness_sync_role u : preserves uniqueness (sync_role_with_agent_status u).
Proof. unfold sync_role_with_agent_status. preserves_step. Qed.

#[local] Hint Resolve preserves_uniqueness_instance_user
  preserves_uniqueness_sync_role : preserves_db.

Lemma preserves_uniqueness_pre_save i :
  preserves uniqueness (sync_user_role_on_agent_revoke i).
Proof. unfold sync_user_role_on_agent_revoke. preserves_step. Qed.

Lemma preserves_uniqueness_post_save i c :
  preserves uniqueness (sync_user_role_on_agent_assign i c).
Proof. unfold sync_user_role_on_agent_assign. preserves_step. Qed.

#[local] Hint Resolve preserves_uniqueness_pre_save
  preserves_uniqueness_post_save : preserves_db.

Lemma preserves_uniqueness_Model_save i : preserves uniqueness (Model_save i).
Proof. unfold Model_save. preserves_step. Qed.

#[local] Hint Resolve preserves_uniqueness_Model_save : preserves_db.

Lemma preserves_uniqueness_assign_agent user organisation assigned_by :
  preserves uniqueness (assign_agent user organisation assigned_by).
Proof.
  unfold assign_agent, deactivate_and_sync, deactivate_only, Agent_objects_create.
  preserves_step.
Qed.

Lemma preserves_uniqueness_revoke_agent agent_id revoked_by :
  preserves uniqueness (revoke_agent agent_id revoked_by).
Proof. unfold revoke_agent. preserves_step. Qed.

(* ===================================================================== *)
(** * Stores that satisfy their schema *)
(* ===================================================================== *)

Lemma set_role_id uid r db : users db !! uid = Some r → set_role uid r db = db.
Proof.
  intros H. unfold set_role, set_users. rewrite insert_id by done. by destruct db.
Qed.

Lemma user_exists_set_role db uid r uid' :
  user_exists db uid = true →
  user_exists (set_role uid r db) uid' = user_exists db uid'.
Proof.
  unfold user_exists, set_role. simpl. intros H%bool_decide_eq_true.
  apply bool_decide_ext. destruct (decide (uid = uid')) as [->|Hne].
  - rewrite lookup_insert_eq. split; [done|eauto].
  - by rewrite lookup_insert_ne.
Qed.

Lemma nullable_user_exists_set_role db uid r o :
  user_exists db uid = true →
  nullable_user_exists (set_role uid r db) o = nullable_user_exists db o.
Proof. intros H. destruct o; simpl; [by apply user_exists_set_role | done]. Qed.

Lemma find_has_pk tbl a :
  NoDup (map a_pk tbl) → In a tbl → find (has_pk (a_pk a)) tbl = Some a.
Proof.
  induction tbl as [|x tbl IH]; simpl; [done|].
  intros Hnd [->|Hin].
  - unfold has_pk. by rewrite Nat.eqb_refl.
  - apply NoDup_cons in Hnd as [Hx Hnd]. unfold has_pk at 1.
    destruct (a_pk x =? a_pk a) eqn:E; [|by apply IH].
    apply Nat.eqb_eq in E. exfalso. apply Hx. rewrite E.
    apply list_elem_of_In, in_map, Hin.
Qed.

Lemma existsb_has_pk tbl a : In a tbl → existsb (has_pk (a_pk a)) tbl = true.
Proof.
  intros H. apply existsb_exists. exists a. split; [done|].
  unfold has_pk. apply Nat.eqb_refl.
Qed.

Lemma filter_map_length_le {A} (f : A → bool) (g : A → A) (l : list A) :
  (∀ x, f (g x) = true → f x = true) →
  length (List.filter f (map g l)) ≤ length (List.filter f l).
Proof.
  intros H. induction l as [|x l IH]; simpl; [done|].
  destruct (f (g x)) eqn:E.
  - rewrite (H x E). simpl. lia.
  - destruct (f x); simpl; lia.
Qed.

Lemma replace_row_pks a tbl : map a_pk (replace_row a tbl) = map a_pk tbl.
Proof.
  unfold replace_row. rewrite map_map. apply map_ext_in. intros r _.
  unfold has_pk. destruct (a_pk r =? a_pk a) eqn:E; [|done].
  by apply Nat.eqb_eq in E.
Qed.

Lemma In_replace_row a tbl r :
  In r (replace_row a tbl) → r = a ∨ (In r tbl ∧ a_pk r ≠ a_pk a).
Proof.
  unfold replace_row. intros (x & Hx & Hin)%in_map_iff.
  unfold has_pk in Hx. destruct (a_pk x =? a_pk a) eqn:E.
  - by left.
  - right. subst. split; [done|]. by apply Nat.eqb_neq.
Qed.

Lemma replace_row_deactivated_org now by_ a tbl O :
  count_active_org O (replace_row (deactivated now by_ a) tbl) ≤ count_active_org O tbl.
Proof.
  apply filter_map_length_le. intros x. destruct (has_pk _ x); [|done].
  unfold by_org_active. simpl. by rewrite andb_false_r.
Qed.

Lemma replace_row_deactivated_user now by_ a tbl U :
  count_active_user U (replace_row (deactivated now by_ a) tbl) ≤ count_active_user U tbl.
Proof.
  apply filter_map_length_le. intros x. destruct (has_pk _ x); [|done].
  unfold by_user_active. simpl. by rewrite andb_false_r.
Qed.

Lemma consistent_set_role db uid r :
  consistent db → user_exists db uid = true → consistent (set_role uid r db).
Proof.
  intros [] Hu. split; simpl; try done.
  - intros a Ha. rewrite user_exists_set_role; auto.
  - intros a Ha. rewrite nullable_user_exists_set_role; auto.
  - intros a Ha. rewrite nullable_user_exists_set_role; auto.
Qed.

Lemma user_exists_lookup db uid :
  user_exists db uid = true → ∃ r, users db !! uid = Some r.
Proof. intros H%bool_decide_eq_true. destruct H as [r Hr]. eauto. Qed.

Lemma lookup_user_exists db uid r :
  users db !! uid = Some r → user_exists db uid = true.
Proof. intros H. apply bool_decide_eq_true. eauto. Qed.

Lemma User_save_role_ok db u :
  user_exists db (u_id u) = true →
  User_save_role u db = (set_role (u_id u) (u_role u) db, Ok tt).
Proof.
  intros [r Hr]%user_exists_lookup. unfold User_save_role. by rewrite Hr.
Qed.

(** The pre_save receiver when row [a] of the table is saved inactive. *)
Lemma pre_save_deactivated db a now by_ :
  consistent db → In a (agents db) →
  ∃ c, sync_user_role_on_agent_revoke (mkInst (deactivated now by_ a) None) db
       = (if downgrades db a then set_role (a_user_id a) role_user db else db,
          Ok (mkInst (deactivated now by_ a) c))
       ∧ cache_fresh (if downgrades db a then set_role (a_user_id a) role_user db else db)
                     (mkInst (deactivated now by_ a) c).
Proof.
  intros Hc Ha. unfold sync_user_role_on_agent_revoke, downgrades. simpl.
  destruct (c_pk_seq _ Hc a Ha) as [Hpos _].
  destruct (a_pk a =? 0) eqn:E0; [apply Nat.eqb_eq in E0; lia|]. simpl.
  unfold try_except.
  rewrite (bind_ok _ _ db db (mkInst a None)); cycle 1.
  { unfold Agent_get. by rewrite (find_has_pk _ _ (c_pk _ Hc) Ha). }
  simpl. destruct (a_is_active a) eqn:Eact; simpl; cycle 1.
  { exists None. split; [done|]. by intros u Hu. }
  destruct (user_exists_lookup _ _ (c_fk_user _ Hc a Ha)) as [r Hr].
  unfold instance_user. simpl.
  rewrite (bind_ok _ _ db db (mkUser (a_user_id a) r, mkInst (deactivated now by_ a)
                                (Some (mkUser (a_user_id a) r)))); cycle 1.
  { unfold bind, User_get. by rewrite Hr. }
  simpl. unfold bind at 1, query. fold (other_active_agents db a).
  destruct (other_active_agents db a) eqn:Eo; simpl.
  { exists (Some (mkUser (a_user_id a) r)). split; [done|].
    intros u [= <-]. by simpl. }
  unfold role_eqb. rewrite Hr.
  destruct (decide (r = role_superuser)) as [->|Hne].
  - rewrite !bool_decide_eq_true_2 by done.
    rewrite (bind_ok _ _ db (set_role (a_user_id a) role_user db) tt); cycle 1.
    { apply (User_save_role_ok db (with_role role_user (mkUser (a_user_id a) role_superuser))).
      simpl. by apply (c_fk_user _ Hc). }
    exists (Some (mkUser (a_user_id a) role_user)). split; [done|].
    intros u [= <-]. simpl. by rewrite lookup_insert_eq.
  - rewrite !bool_decide_eq_false_2 by congruence.
    exists (Some (mkUser (a_user_id a) r)). split; [done|].
    intros u [= <-]. by simpl.
Qed.

Lemma sql_update_deactivated db a now by_ :
  consistent db → In a (agents db) →
  nullable_user_exists db (u_id <$> by_) = true →
  sql_update (deactivated now by_ a) db
  = (set_agents (replace_row (deactivated now by_ a)) db, Ok true).
Proof.
  intros Hc Ha Hby. unfold sql_update. simpl.
  rewrite (existsb_has_pk _ _ Ha).
  assert (violated db (deactivated now by_ a)
            (replace_row (deactivated now by_ a) (agents db)) = None) as ->; [|done].
  unfold violated. simpl.
  rewrite (c_fk_user _ Hc a Ha), (c_fk_org _ Hc a Ha), (c_fk_assigned_by _ Hc a Ha), Hby.
  simpl. destruct (c_unique _ Hc) as [Ho Hu].
  assert (check_unique_active_agent_per_org
            (replace_row (deactivated now by_ a) (agents db)) = true) as ->.
  { apply check_unique_org_spec. intros O.
    etransitivity; [apply replace_row_deactivated_org | apply Ho]. }
  assert (check_unique_active_agent_per_user
            (replace_row (deactivated now by_ a) (agents db)) = true) as ->; [|done].
  apply check_unique_user_spec. intros U.
  etransitivity; [apply replace_row_deactivated_user | apply Hu].
Qed.

Lemma consistent_deactivated db a now by_ :
  consistent db → In a (agents db) →
  nullable_user_exists db (u_id <$> by_) = true →
  consistent (set_agents (replace_row (deactivated now by_ a)) db).
Proof.
  intros Hc Ha Hby. destruct (c_unique _ Hc) as [Ho Hu].
  split; simpl.
  - intros r [->|[Hr _]]%In_replace_row; simpl; by apply (c_fk_user _ Hc).
  - intros r [->|[Hr _]]%In_replace_row; simpl; by apply (c_fk_org _ Hc).
  - intros r [->|[Hr _]]%In_replace_row; simpl; by apply (c_fk_assigned_by _ Hc).
  - intros r [->|[Hr _]]%In_replace_row; simpl; [done | by apply (c_fk_revoked_by _ Hc)].
  - rewrite replace_row_pks. apply (c_pk _ Hc).
  - intros r [->|[Hr _]]%In_replace_row; simpl; by apply (c_pk_seq _ Hc).
  - split.
    + intros O. etransitivity; [apply replace_row_deactivated_org | apply Ho].
    + intros U. etransitivity; [apply replace_row_deactivated_user | apply Hu].
Qed.

Lemma consistent_deactivate_row db a now by_ :
  consistent db → In a (agents db) →
  nullable_user_exists db (u_id <$> by_) = true →
  consistent (deactivate_row now by_ a db).
Proof.
  intros Hc Ha Hby. unfold deactivate_row.
  pose proof (c_fk_user _ Hc a Ha) as Hu.
  destruct (downgrades db a).
  - apply consistent_deactivated; [by apply consistent_set_role | done |].
    by rewrite nullable_user_exists_set_role.
  - by apply consistent_deactivated.
Qed.

(** [agent.save()] of a row of the table, deactivated. *)
Lemma Model_save_deactivated db a now by_ :
  consistent db → In a (agents db) →
  nullable_user_exists db (u_id <$> by_) = true →
  ∃ c, Model_save (mkInst (deactivated now by_ a) None) db
       = (deactivate_row now by_ a db, Ok (mkInst (deactivated now by_ a) c))
       ∧ cache_fresh (deactivate_row now by_ a db) (mkInst (deactivated now by_ a) c).
Proof.
  intros Hc Ha Hby.
  destruct (pre_save_deactivated db a now by_ Hc Ha) as (c & Hpre & Hfresh).
  exists c. unfold Model_save. rewrite (bind_ok _ _ _ _ _ Hpre). simpl.
  destruct (c_pk_seq _ Hc a Ha) as [Hpos _].
  destruct (a_pk a =? 0) eqn:E0; [apply Nat.eqb_eq in E0; lia|].
  pose proof (c_fk_user _ Hc a Ha) as Hu.
  set (db1 := if downgrades db a then set_role (a_user_id a) role_user db else db) in *.
  assert (Hc1 : consistent db1).
  { unfold db1. destruct (downgrades db a); [by apply consistent_set_role | done]. }
  assert (Ha1 : In a (agents db1)).
  { unfold db1. by destruct (downgrades db a). }
  assert (Hby1 : nullable_user_exists db1 (u_id <$> by_) = true).
  { unfold db1. destruct (downgrades db a); [|done].
    by rewrite nullable_user_exists_set_role. }
  rewrite (bind_ok _ _ _ _ _ (sql_update_deactivated db1 a now by_ Hc1 Ha1 Hby1)).
  unfold bind at 1, ret at 1. unfold sync_user_role_on_agent_assign. simpl.
  split; [done|]. exact Hfresh.
Qed.

Lemma instance_user_fresh db instance r :
  cache_fresh db instance →
  users db !! a_user_id (fields instance) = Some r →
  instance_user instance db
  = (db, Ok (mkUser (a_user_id (fields instance)) r,
             mkInst (fields instance) (Some (mkUser (a_user_id (fields instance)) r)))).
Proof.
  intros Hf Hr. unfold instance_user. destruct instance as [row [u|]]; simpl in *.
  - destruct (Hf u eq_refl) as [Hid Hu]. destruct u as [uid ru]. simpl in *. subst uid.
    rewrite Hr in Hu. by injection Hu as ->.
  - unfold bind, User_get. by rewrite Hr.
Qed.

(** [sync_role_with_agent_status] on an instance that carries the stored role. *)
Lemma sync_role_spec db u :
  users db !! u_id u = Some (u_role u) →
  sync_role_with_agent_status u db
  = (set_role (u_id u) (resynced db u) db, Ok (with_role (resynced db u) u)).
Proof.
  intros Hu. unfold sync_role_with_agent_status, resynced.
  unfold bind at 1, query. unfold role_eqb.
  pose proof (lookup_user_exists _ _ _ Hu) as He.
  destruct (is_agent db u); simpl.
  - destruct (decide (u_role u = role_superuser)) as [Hr|Hr].
    + rewrite bool_decide_eq_true_2 by done. simpl. unfold ret.
      rewrite set_role_id by (by rewrite <- Hr). rewrite <- Hr. by destruct u.
    + rewrite bool_decide_eq_false_2 by done. simpl.
      by rewrite (bind_ok _ _ _ _ _ (User_save_role_ok db (with_role role_superuser u) He)).
  - destruct (decide (u_role u = role_superuser)) as [Hr|Hr].
    + rewrite bool_decide_eq_true_2 by done.
      by rewrite (bind_ok _ _ _ _ _ (User_save_role_ok db (with_role role_user u) He)).
    + rewrite bool_decide_eq_false_2 by done. unfold ret.
      rewrite set_role_id by done. by destruct u.
Qed.

Lemma consistent_tick db : consistent db → consistent (tick db).
Proof. intros []. by split. Qed.

Lemma revoke_agent_spec db a by_ :
  consistent db → In a (agents db) →
  nullable_user_exists db (u_id <$> by_) = true →
  ∃ u, revoke_agent (a_pk a) by_ db
       = (revoked_store by_ a db, Ok (mkInst (deactivated (clock db) by_ a) (Some u)))
       ∧ u_id u = a_user_id a
       ∧ users (revoked_store by_ a db) !! a_user_id a = Some (u_role u).
Proof.
  intros Hc Ha Hby. unfold revoke_agent, revoked_store.
  rewrite (bind_ok _ _ db db (mkInst a None)); cycle 1.
  { unfold Agent_get. by rewrite (find_has_pk _ _ (c_pk _ Hc) Ha). }
  rewrite (bind_ok _ _ db (tick db) (clock db)) by done. simpl.
  destruct (Model_save_deactivated (tick db) a (clock db) by_) as (c & Hsave & Hfresh);
    [by apply consistent_tick | done | done |].
  rewrite (bind_ok _ _ _ _ _ Hsave).
  pose proof (consistent_deactivate_row (tick db) a (clock db) by_
                (consistent_tick _ Hc) Ha Hby) as Hc1.
  set (db1 := deactivate_row (clock db) by_ a (tick db)) in *.
  assert (Hin : In (deactivated (clock db) by_ a) (agents db1)).
  { unfold db1, deactivate_row. simpl. unfold replace_row.
    apply in_map_iff. exists a. split.
    - unfold has_pk. simpl. by rewrite Nat.eqb_refl.
    - by destruct (downgrades (tick db) a). }
  destruct (user_exists_lookup _ _ (c_fk_user _ Hc1 _ Hin)) as [r Hr]. simpl in Hr.
  rewrite Hr.
  rewrite (bind_ok _ _ _ _ _ (instance_user_fresh db1 _ r Hfresh Hr)). simpl.
  rewrite (bind_ok _ _ _ _ _ (sync_role_spec db1 (mkUser (a_user_id a) r) Hr)). simpl.
  eexists. split; [reflexivity|]. simpl. split; [done|].
  by rewrite lookup_insert_eq.
Qed.

(** ** Creating the new assignment *)

Lemma filter_nil {A} (f : A → bool) (l : list A) :
  (∀ x, In x l → f x = false) → List.filter f l = [].
Proof.
  induction l as [|x l IH]; simpl; [done|]. intros H.
  rewrite (H x) by auto. apply IH. auto.
Qed.

Lemma set_role_set_role uid r1 r2 db :
  set_role uid r2 (set_role uid r1 db) = set_role uid r2 db.
Proof. unfold set_role, set_users. simpl. by rewrite insert_insert_eq. Qed.

Lemma sql_insert_new db user organisation assigned_by t :
  consistent db →
  user_exists db (u_id user) = true →
  organisation_exists db organisation = true →
  nullable_user_exists db (u_id <$> assigned_by) = true →
  count_active_org organisation (agents db) = 0 →
  count_active_user (u_id user) (agents db) = 0 →
  let row := mkAgent (S (agent_seq db)) (u_id user) organisation t
                     (u_id <$> assigned_by) true None None in
  sql_insert (mkAgent 0 (u_id user) organisation t (u_id <$> assigned_by)
                      true None None) db
  = (set_agent_seq (S (agent_seq db)) (set_agents (cons row) db), Ok row).
Proof.
  intros Hc Hu Ho Hby Hno Hnu row. unfold sql_insert.
  change (if a_pk _ =? 0 then _ else _) with row.
  assert (violated db row (row :: agents db) = None) as ->.
  { unfold violated. subst row. simpl. rewrite Hu, Ho, Hby. simpl.
    destruct (c_unique _ Hc) as [Hpo Hpu].
    match goal with |- context [check_unique_active_agent_per_org ?l] =>
      assert (check_unique_active_agent_per_org l = true) as -> end.
    { apply check_unique_org_spec. intros O. unfold count_active_org. simpl.
      unfold by_org_active at 1. simpl. rewrite andb_true_r.
      destruct (organisation =? O) eqn:E; [|apply Hpo].
      apply Nat.eqb_eq in E. subst O. simpl. unfold count_active_org in Hno. lia. }
    match goal with |- context [check_unique_active_agent_per_user ?l] =>
      assert (check_unique_active_agent_per_user l = true) as ->; [|done] end.
    apply check_unique_user_spec. intros U. unfold count_active_user. simpl.
    unfold by_user_active at 1. simpl. rewrite andb_true_r.
    destruct (u_id user =? U) eqn:E; [|apply Hpu].
    apply Nat.eqb_eq in E. subst U. simpl. unfold count_active_user in Hnu. lia. }
  subst row. simpl. by rewrite Nat.max_r by lia.
Qed.

(** [Agent.objects.create(...)] followed by the unconditional role update. *)
Lemma create_and_promote db user organisation assigned_by :
  consistent db →
  user_exists db (u_id user) = true →
  organisation_exists db organisation = true →
  nullable_user_exists db (u_id <$> assigned_by) = true →
  count_active_org organisation (agents db) = 0 →
  count_active_user (u_id user) (agents db) = 0 →
  (do new_agent <- Agent_objects_create user organisation assigned_by;;
   run User_save_role (with_role role_superuser user);;
   ret (cache_user (with_role role_superuser user) new_agent)) db
  = (created_store user organisation assigned_by db,
     Ok (mkInst (new_agent_row user organisation assigned_by db)
                (Some (with_role role_superuser user)))).
Proof.
  intros Hc Hu Ho Hby Hno Hnu.
  pose proof (sql_insert_new (tick db) user organisation assigned_by (clock db)
                (consistent_tick _ Hc) Hu Ho Hby Hno Hnu) as Hins.
  simpl in Hins. fold (new_agent_row user organisation assigned_by db) in Hins.
  assert (Hcreate : ∃ db' c, Agent_objects_create user organisation assigned_by db
            = (db', Ok (mkInst (new_agent_row user organisation assigned_by db) c))
            ∧ set_role (u_id user) role_superuser db'
              = created_store user organisation assigned_by db
            ∧ user_exists db' (u_id user) = true).
  { unfold Agent_objects_create, Model_save, sync_user_role_on_agent_revoke. simpl.
    rewrite (bind_ok _ _ db db _ eq_refl).
    rewrite (bind_ok _ _ db db false eq_refl).
    erewrite (bind_ok _ _ db); cycle 1.
    { rewrite (bind_ok _ _ db (tick db) (clock db) eq_refl). exact Hins. }
    unfold sync_user_role_on_agent_assign. simpl.
    unfold instance_user. simpl. rewrite (bind_ok _ _ _ _ _ eq_refl).
    unfold role_eqb.
    set (db' := set_agent_seq _ _).
    assert (Hu' : user_exists db' (u_id user) = true) by done.
    destruct (decide (u_role user = role_superuser)) as [Hr|Hr].
    - rewrite bool_decide_eq_true_2 by done. simpl. unfold ret.
      by eexists _, _.
    - rewrite bool_decide_eq_false_2 by done. simpl.
      rewrite (bind_ok _ _ _ _ _ (User_save_role_ok db' (with_role role_superuser user) Hu')).
      unfold ret. eexists _, _. split; [reflexivity|]. simpl.
      split; [apply set_role_set_role|]. by rewrite user_exists_set_role. }
  destruct Hcreate as (db' & c & Hcr & Hst & Hu').
  rewrite (bind_ok _ _ _ _ _ Hcr).
  rewrite (bind_ok _ _ _ _ _ (User_save_role_ok db' (with_role role_superuser user) Hu')).
  unfold ret, cache_user. simpl. by rewrite Hst.
Qed.

(** ** The two loops of [assign_agent] *)

Lemma agents_revoked_store by_ a db :
  agents (revoked_store by_ a db) = replace_row (deactivated (clock db) by_ a) (agents db).
Proof.
  unfold revoked_store, deactivate_row. simpl.
  destruct (_ !! _); simpl; by destruct (downgrades (tick db) a).
Qed.

Lemma agents_deactivate_row now by_ a db :
  agents (deactivate_row now by_ a db) = replace_row (deactivated now by_ a) (agents db).
Proof. unfold deactivate_row. simpl. by destruct (downgrades db a). Qed.

Lemma organisations_deactivate_row now by_ a db :
  organisations (deactivate_row now by_ a db) = organisations db.
Proof. unfold deactivate_row. simpl. by destruct (downgrades db a). Qed.

Lemma organisations_revoked_store by_ a db :
  organisations (revoked_store by_ a db) = organisations db.
Proof.
  unfold revoked_store. destruct (_ !! _).
  - unfold set_role, set_users. cbn [organisations].
    by rewrite organisations_deactivate_row.
  - by rewrite organisations_deactivate_row.
Qed.

Lemma user_exists_deactivate_row now by_ a db uid :
  consistent db → In a (agents db) →
  user_exists (deactivate_row now by_ a db) uid = user_exists db uid.
Proof.
  intros Hc Ha. unfold deactivate_row.
  destruct (downgrades db a); [|done].
  change (user_exists (set_agents ?f ?d) uid) with (user_exists d uid).
  apply user_exists_set_role. by apply (c_fk_user _ Hc).
Qed.

Lemma In_deactivated now by_ a tbl :
  In a tbl → In (deactivated now by_ a) (replace_row (deactivated now by_ a) tbl).
Proof.
  intros Ha. apply in_map_iff. exists a. split; [|done].
  unfold has_pk. simpl. by rewrite Nat.eqb_refl.
Qed.

Lemma user_exists_revoked_store by_ a db uid :
  consistent db → In a (agents db) →
  user_exists (revoked_store by_ a db) uid = user_exists db uid.
Proof.
  intros Hc Ha. unfold revoked_store.
  pose proof (user_exists_deactivate_row (clock db) by_ a (tick db) (a_user_id a)
                (consistent_tick _ Hc) Ha) as Hu.
  destruct (_ !! _) eqn:E.
  - rewrite user_exists_set_role; [by rewrite user_exists_deactivate_row; [|apply consistent_tick|]|].
    rewrite Hu. by apply (c_fk_user _ Hc).
  - by rewrite user_exists_deactivate_row; [|apply consistent_tick|].
Qed.

Lemma consistent_revoked_store by_ a db :
  consistent db → In a (agents db) →
  nullable_user_exists db (u_id <$> by_) = true →
  consistent (revoked_store by_ a db).
Proof.
  intros Hc Ha Hby. unfold revoked_store.
  pose proof (consistent_deactivate_row (tick db) a (clock db) by_
                (consistent_tick _ Hc) Ha Hby) as Hc1.
  destruct (_ !! _) eqn:E; [|done].
  apply consistent_set_role; [done|]. by eapply lookup_user_exists.
Qed.

Lemma deactivate_and_sync_spec db a by_ :
  consistent db → In a (agents db) →
  nullable_user_exists db (u_id <$> by_) = true →
  deactivate_and_sync by_ a db = (revoked_store by_ a db, Ok tt).
Proof.
  intros Hc Ha Hby. unfold deactivate_and_sync, revoked_store.
  rewrite (bind_ok _ _ db (tick db) (clock db)) by done.
  destruct (Model_save_deactivated (tick db) a (clock db) by_) as (c & Hsave & Hfresh);
    [by apply consistent_tick | done | done |].
  rewrite (bind_ok _ _ _ _ _ Hsave).
  pose proof (consistent_deactivate_row (tick db) a (clock db) by_
                (consistent_tick _ Hc) Ha Hby) as Hc1.
  set (db1 := deactivate_row (clock db) by_ a (tick db)) in *.
  assert (Hin : In (deactivated (clock db) by_ a) (agents db1)).
  { unfold db1. rewrite agents_deactivate_row. by apply In_deactivated. }
  destruct (user_exists_lookup _ _ (c_fk_user _ Hc1 _ Hin)) as [r Hr].
  change (a_user_id (deactivated _ _ a)) with (a_user_id a) in Hr.
  rewrite Hr.
  rewrite (bind_ok _ _ _ _ _ (instance_user_fresh db1 _ r Hfresh Hr)). simpl.
  by rewrite (bind_ok _ _ _ _ _ (sync_role_spec db1 (mkUser (a_user_id a) r) Hr)).
Qed.

Lemma deactivate_only_spec db a by_ :
  consistent db → In a (agents db) →
  nullable_user_exists db (u_id <$> by_) = true →
  deactivate_only by_ a db = (deactivate_row (clock db) by_ a (tick db), Ok tt).
Proof.
  intros Hc Ha Hby. unfold deactivate_only.
  rewrite (bind_ok _ _ db (tick db) (clock db)) by done.
  destruct (Model_save_deactivated (tick db) a (clock db) by_) as (c & Hsave & Hfresh);
    [by apply consistent_tick | done | done |].
  by rewrite (bind_ok _ _ _ _ _ Hsave).
Qed.

Lemma at_most_one {A} (l : list A) : length l ≤ 1 → l = [] ∨ ∃ a, l = [a].
Proof. destruct l as [|a [|b l]]; simpl; intros H; [by left | eauto | lia]. Qed.

Lemma first_loop_spec db organisation by_ :
  consistent db → nullable_user_exists db (u_id <$> by_) = true →
  for_each (Agent_filter (by_org_active organisation) db) (deactivate_and_sync by_) db
  = (evicted_store by_ organisation db, Ok tt).
Proof.
  intros Hc Hby. unfold evicted_store.
  destruct (at_most_one (Agent_filter (by_org_active organisation) db)) as [E|[a E]].
  { apply (c_unique _ Hc). }
  - by rewrite E.
  - rewrite E. simpl.
    assert (Ha : In a (agents db)).
    { eapply proj1, filter_In. unfold Agent_filter in E. rewrite E. by left. }
    by rewrite (bind_ok _ _ _ _ _ (deactivate_and_sync_spec db a by_ Hc Ha Hby)).
Qed.

Lemma second_loop_spec db uid by_ :
  consistent db → nullable_user_exists db (u_id <$> by_) = true →
  for_each (Agent_filter (by_user_active uid) db) (deactivate_only by_) db
  = (released_store by_ uid db, Ok tt).
Proof.
  intros Hc Hby. unfold released_store.
  destruct (at_most_one (Agent_filter (by_user_active uid) db)) as [E|[a E]].
  { apply (c_unique _ Hc). }
  - by rewrite E.
  - rewrite E. simpl.
    assert (Ha : In a (agents db)).
    { eapply proj1, filter_In. unfold Agent_filter in E. rewrite E. by left. }
    by rewrite (bind_ok _ _ _ _ _ (deactivate_only_spec db a by_ Hc Ha Hby)).
Qed.

Lemma filter_singleton_replace (P : Agent → bool) tbl a now by_ :
  (∀ r, a_is_active r = false → P r = false) →
  List.filter P tbl = [a] →
  List.filter P (replace_row (deactivated now by_ a) tbl) = [].
Proof.
  intros HP E. apply filter_nil. intros x [->|[Hx Hpk]]%In_replace_row.
  - by apply HP.
  - destruct (P x) eqn:EP; [|done]. exfalso. apply Hpk.
    assert (In x (List.filter P tbl)) as Hin by (by apply filter_In).
    rewrite E in Hin. destruct Hin as [->|[]]. done.
Qed.

Lemma by_org_active_inactive O r : a_is_active r = false → by_org_active O r = false.
Proof. intros H. unfold by_org_active. rewrite H. apply andb_false_r. Qed.

Lemma by_user_active_inactive U r : a_is_active r = false → by_user_active U r = false.
Proof. intros H. unfold by_user_active. rewrite H. apply andb_false_r. Qed.

Lemma nullable_user_exists_same db db' o :
  (∀ uid, user_exists db' uid = user_exists db uid) →
  nullable_user_exists db' o = nullable_user_exists db o.
Proof. intros H. destruct o; simpl; [apply H | done]. Qed.

Lemma In_filter_head {A} (f : A → bool) l a rest :
  List.filter f l = a :: rest → In a l ∧ f a = true.
Proof. intros E. apply filter_In. rewrite E. by left. Qed.

Section Loops.
Context (db : DB) (by_ : option User).
Context (Hc : consistent db).
Context (Hby : nullable_user_exists db (u_id <$> by_) = true).

Lemma evicted_store_props organisation :
  consistent (evicted_store by_ organisation db)
  ∧ (∀ uid, user_exists (evicted_store by_ organisation db) uid = user_exists db uid)
  ∧ organisations (evicted_store by_ organisation db) = organisations db
  ∧ count_active_org organisation (agents (evicted_store by_ organisation db)) = 0.
Proof using Hc Hby.
  unfold evicted_store.
  destruct (at_most_one (Agent_filter (by_org_active organisation) db)) as [E|[a E]].
  { apply (c_unique _ Hc). }
  - rewrite E. split; [done|]. split; [done|]. split; [done|].
    unfold count_active_org. unfold Agent_filter in E. by rewrite E.
  - rewrite E. destruct (In_filter_head _ _ _ _ E) as [Ha _].
    split; [by apply consistent_revoked_store|].
    split; [intros uid; by apply user_exists_revoked_store|].
    split; [apply organisations_revoked_store|].
    rewrite agents_revoked_store. unfold count_active_org.
    rewrite (filter_singleton_replace _ _ a); [done | apply by_org_active_inactive | done].
Qed.

Lemma released_store_props uid :
  consistent (released_store by_ uid db)
  ∧ (∀ uid', user_exists (released_store by_ uid db) uid' = user_exists db uid')
  ∧ organisations (released_store by_ uid db) = organisations db
  ∧ count_active_user uid (agents (released_store by_ uid db)) = 0
  ∧ (∀ O, count_active_org O (agents (released_store by_ uid db))
          ≤ count_active_org O (agents db)).
Proof using Hc Hby.
  unfold released_store.
  destruct (at_most_one (Agent_filter (by_user_active uid) db)) as [E|[a E]].
  { apply (c_unique _ Hc). }
  - rewrite E. split; [done|]. split; [done|]. split; [done|]. split; [|done].
    unfold count_active_user. unfold Agent_filter in E. by rewrite E.
  - rewrite E. destruct (In_filter_head _ _ _ _ E) as [Ha _].
    split; [apply consistent_deactivate_row; [by apply consistent_tick|done|done]|].
    split.
    { intros uid'. rewrite user_exists_deactivate_row; [done|by apply consistent_tick|done]. }
    split; [by rewrite organisations_deactivate_row|].
    rewrite agents_deactivate_row. split.
    + unfold count_active_user.
      rewrite (filter_singleton_replace _ _ a); [done | apply by_user_active_inactive | done].
    + intros O. apply replace_row_deactivated_org.
Qed.
End Loops.

(** [assign_agent] returns whenever the rows it refers to exist. *)
Lemma assign_agent_spec db user organisation by_ :
  consistent db →
  user_exists db (u_id user) = true →
  organisation_exists db organisation = true →
  nullable_user_exists db (u_id <$> by_) = true →
  assign_agent user organisation by_ db
  = (assigned_store user organisation by_ db,
     Ok (mkInst (new_agent_row user organisation by_
                   (released_store by_ (u_id user) (evicted_store by_ organisation db)))
                (Some (with_role role_superuser user)))).
Proof.
  intros Hc Hu Ho Hby. unfold assign_agent, assigned_store.
  rewrite (bind_ok _ _ db db _ eq_refl).
  rewrite (bind_ok _ _ _ _ _ (first_loop_spec db organisation by_ Hc Hby)).
  destruct (evicted_store_props db by_ Hc Hby organisation) as (Hc1 & Hu1 & Ho1 & Hn1).
  set (db1 := evicted_store by_ organisation db) in *.
  assert (Hby1 : nullable_user_exists db1 (u_id <$> by_) = true).
  { by rewrite (nullable_user_exists_same db db1). }
  rewrite (bind_ok _ _ db1 db1 _ eq_refl).
  rewrite (bind_ok _ _ _ _ _ (second_loop_spec db1 (u_id user) by_ Hc1 Hby1)).
  destruct (released_store_props db1 by_ Hc1 Hby1 (u_id user)) as (Hc2 & Hu2 & Ho2 & Hn2 & Hle).
  set (db2 := released_store by_ (u_id user) db1) in *.
  apply create_and_promote; try done.
  - by rewrite Hu2, Hu1.
  - unfold organisation_exists. rewrite Ho2, Ho1. exact Ho.
  - rewrite (nullable_user_exists_same db1 db2); done.
  - specialize (Hle organisation). lia.
Qed.

(** ** A decision procedure for [consistent] *)

Lemma consistentb_sound db : consistentb db = true → consistent db.
Proof.
  unfold consistentb. rewrite !andb_true_iff, forallb_forall.
  intros [[[Hall Hnd] Ho] Hu].
  assert (H : ∀ a, In a (agents db) →
    user_exists db (a_user_id a) = true
    ∧ organisation_exists db (a_organisation_id a) = true
    ∧ nullable_user_exists db (a_assigned_by_id a) = true
    ∧ nullable_user_exists db (a_revoked_by_id a) = true
    ∧ 0 < a_pk a ≤ agent_seq db).
  { intros a Ha. specialize (Hall a Ha). rewrite !andb_true_iff in Hall.
    destruct Hall as [[[[[H1 H2] H3] H4] H5] H6].
    apply Nat.ltb_lt in H5. apply Nat.leb_le in H6. done. }
  split; try (intros a Ha; by destruct (H a Ha) as (?&?&?&?&?)).
  - by apply bool_decide_eq_true in Hnd.
  - split; [by apply check_unique_org_spec | by apply check_unique_user_spec].
Qed.

(* ===================================================================== *)
(** * Permission resolution and role re-sync: lemmas *)
(* ===================================================================== *)

Lemma filter_the_one {A} (f : A → bool) (l : list A) (a : A) :
  length (List.filter f l) ≤ 1 → In a l → f a = true → List.filter f l = [a].
Proof.
  intros Hlen Ha Hf.
  assert (Hin : In a (List.filter f l)) by (by apply filter_In).
  destruct (List.filter f l) as [|x [|y r]]; simpl in *; [done| |lia].
  destruct Hin as [->|[]]. done.
Qed.

Section ActiveAgent.
Context (db : DB) (user : User) (a : Agent).
Context (Huniq : one_active_agent_per_user (agents db)).
Context (Ha : In a (agents db)).
Context (Hact : a_is_active a = true).
Context (Huser : a_user_id a = u_id user).

Lemma active_agent_rows : Agent_filter (by_user_active (u_id user)) db = [a].
Proof using Huniq Ha Hact Huser.
  apply filter_the_one; [apply Huniq | done |].
  unfold by_user_active. by rewrite Huser, Nat.eqb_refl, Hact.
Qed.

Lemma active_agent_is_agent : is_agent db user = true.
Proof using Ha Hact Huser.
  apply existsb_exists. exists a. split; [done|].
  unfold by_user_active. by rewrite Huser, Nat.eqb_refl, Hact.
Qed.

Lemma active_agent_managed :
  get_managed_organisation db user = Some (a_organisation_id a).
Proof using Huniq Ha Hact Huser.
  unfold get_managed_organisation.
  by rewrite active_agent_is_agent, active_agent_rows.
Qed.

Lemma active_agent_all_permissions :
  get_all_permissions db user
  = Ok (qs_or (get_direct_permissions db user)
              (granted (agent_permissions db) (a_pk a))).
Proof using Huniq Ha Hact Huser.
  unfold get_all_permissions, get_agent_permissions, Agent_get_active_for.
  by rewrite active_agent_is_agent, active_agent_rows.
Qed.
End ActiveAgent.

Lemma qs_exists_key db key (q : PermissionQuerySet) :
  qs_exists db (qs_filter_key key q) = true
  ↔ ∃ p, In p (qs_rows db q) ∧ p_key p = key.
Proof.
  unfold qs_exists, qs_rows, qs_filter_key. rewrite existsb_exists.
  split.
  - intros (p & Hp & Hq). apply andb_true_iff in Hq as [Hq Hk].
    apply bool_decide_eq_true in Hk. exists p. split; [by apply filter_In | done].
  - intros (p & [Hp Hq]%filter_In & Hk). exists p. split; [done|].
    rewrite Hq. simpl. by apply bool_decide_eq_true.
Qed.

Lemma elem_of_active_organisations db o :
  o ∈ active_organisations db ↔ organisations db !! o = Some true.
Proof.
  unfold active_organisations. rewrite elem_of_dom. split.
  - intros [b Hb]. apply map_lookup_filter_Some in Hb as [Hb Ht]. simpl in Ht. by subst.
  - intros H. exists true. by apply map_lookup_filter_Some.
Qed.

Lemma instance_user_cases db instance :
  cache_fresh db instance →
  (∃ u, instance_user instance db = (db, Ok (u, mkInst (fields instance) (Some u)))
        ∧ u_id u = a_user_id (fields instance)
        ∧ users db !! u_id u = Some (u_role u))
  ∨ instance_user instance db = (db, Raise UserDoesNotExist).
Proof.
  intros Hf. unfold instance_user. destruct instance as [row [u|]]; simpl in *.
  - left. exists u. destruct (Hf u eq_refl) as [Hid Hu]. done.
  - unfold bind, User_get. destruct (users db !! a_user_id row) as [r|] eqn:E.
    + left. by exists (mkUser (a_user_id row) r).
    + by right.
Qed.

(** ** Who is an agent after a row is deactivated *)

Lemma pk_injective tbl r a :
  NoDup (map a_pk tbl) → In r tbl → In a tbl → a_pk r = a_pk a → r = a.
Proof.
  induction tbl as [|x tbl IH]; simpl; [done|].
  intros [Hx Hnd]%NoDup_cons [->|Hr] [->|Ha] Hpk; try done.
  - exfalso. apply Hx. rewrite Hpk. by apply list_elem_of_In, in_map.
  - exfalso. apply Hx. rewrite <- Hpk. by apply list_elem_of_In, in_map.
  - by apply IH.
Qed.

Lemma existsb_replace_deactivated (P : Agent → bool) tbl a now by_ :
  (∀ r, a_is_active r = false → P r = false) →
  existsb P (replace_row (deactivated now by_ a) tbl)
  = existsb (λ r, P r && negb (has_pk (a_pk a) r)) tbl.
Proof.
  intros HP. unfold replace_row. induction tbl as [|x tbl IH]; [done|].
  cbn [map existsb]. rewrite IH. f_equal.
  change (a_pk (deactivated now by_ a)) with (a_pk a).
  destruct (has_pk (a_pk a) x).
  - rewrite HP by done. by rewrite andb_false_r.
  - by rewrite andb_true_r.
Qed.


Lemma only_active_row db a :
  one_active_agent_per_user (agents db) → In a (agents db) → a_is_active a = true →
  other_active_agents db a = false.
Proof.
  intros Hu Ha Hact. unfold other_active_agents.
  apply not_true_is_false. intros (r & Hr & [H1 H2]%andb_true_iff)%existsb_exists.
  assert (E : List.filter (by_user_active (a_user_id a)) (agents db) = [a]).
  { apply filter_the_one; [apply Hu | done |].
    unfold by_user_active. by rewrite Nat.eqb_refl, Hact. }
  assert (Hin : In r (List.filter (by_user_active (a_user_id a)) (agents db))).
  { by apply filter_In. }
  rewrite E in Hin. destruct Hin as [->|[]].
  unfold has_pk in H2. by rewrite Nat.eqb_refl in H2.
Qed.

Lemma resynced_idem db db' uid r :
  is_agent db' (mkUser uid role_user) = is_agent db (mkUser uid role_user) →
  resynced db' (mkUser uid (resynced db (mkUser uid r))) = resynced db (mkUser uid r).
Proof.
  unfold resynced. simpl.
  change (is_agent db' (mkUser uid ?x)) with (is_agent db' (mkUser uid role_user)).
  change (is_agent db (mkUser uid ?x)) with (is_agent db (mkUser uid role_user)).
  intros ->. destruct (is_agent db _); [done|].
  unfold role_eqb. destruct r; done.
Qed.

Lemma resynced_not_superadmin db u :
  u_role u ≠ role_superadmin →
  resynced db u = if is_agent db u then role_superuser else role_user.
Proof.
  intros H. unfold resynced. destruct (is_agent db u); [done|].
  unfold role_eqb. by destruct (u_role u).
Qed.

(** ** Which exceptions a computation can raise *)

Section NeverRaises.
Context (e : Exn).

Lemma never_raises_ret {A} (a : A) : never_raises e (ret a).
Proof. by intros db. Qed.

Lemma never_raises_query {A} (f : DB → A) : never_raises e (query f).
Proof. by intros db. Qed.


End NeverRaises.

Lemma never_raises_timezone_now e : never_raises e timezone_now.
Proof. by intros db. Qed.

Lemma never_raises_User_get uid : never_raises AgentDoesNotExist (User_get uid).
Proof. intros db. unfold User_get, outcome. by destruct (_ !! _). Qed.

Lemma never_raises_User_save_role u : never_raises AgentDoesNotExist (User_save_role u).
Proof. intros db. unfold User_save_role, outcome. by destruct (_ !! _). Qed.

Lemma never_raises_sql_update a : never_raises AgentDoesNotExist (sql_update a).
Proof.
  intros db. unfold sql_update, outcome.
  destruct (existsb _ _); [|done]. by destruct (violated _ _ _).
Qed.

Lemma never_raises_sql_insert a : never_raises AgentDoesNotExist (sql_insert a).
Proof. intros db. unfold sql_insert, outcome. by destruct (violated _ _ _). Qed.

Create HintDb raises_db.
#[local] Hint Resolve never_raises_ret never_raises_query never_raises_timezone_now
  never_raises_User_get never_raises_User_save_role never_raises_sql_update
  never_raises_sql_insert : raises_db.





(** ** Revoking an inactive row *)




Lemma revoked_store_in_sync db a by_ :
  consistent db → In a (agents db) →
  nullable_user_exists db (u_id <$> by_) = true →
  ∃ r, users (revoked_store by_ a db) !! a_user_id a = Some r
       ∧ resynced (revoked_store by_ a db) (mkUser (a_user_id a) r) = r.
Proof.
  intros Hc Ha Hby. unfold revoked_store.
  pose proof (consistent_deactivate_row (tick db) a (clock db) by_
                (consistent_tick _ Hc) Ha Hby) as Hc1.
  set (db1 := deactivate_row (clock db) by_ a (tick db)) in *.
  assert (Hin : In (deactivated (clock db) by_ a) (agents db1)).
  { unfold db1. rewrite agents_deactivate_row. by apply In_deactivated. }
  destruct (user_exists_lookup _ _ (c_fk_user _ Hc1 _ Hin)) as [r Hr].
  change (a_user_id (deactivated _ _ a)) with (a_user_id a) in Hr.
  rewrite Hr. eexists. split.
  - unfold set_role, set_users. cbn [users]. apply lookup_insert_eq.
  - by apply resynced_idem.
Qed.


(** ** What the mutators leave alone *)

Lemma users_deactivate_row_other now by_ a db U :
  a_user_id a ≠ U → users (deactivate_row now by_ a db) !! U = users db !! U.
Proof.
  intros Hne. unfold deactivate_row. destruct (downgrades db a); [|done].
  unfold set_role, set_users. cbn [users set_agents]. by apply lookup_insert_ne.
Qed.

Lemma is_agent_deactivate_row_other now by_ a db u :
  consistent db → In a (agents db) → a_user_id a ≠ u_id u →
  is_agent (deactivate_row now by_ a db) u = is_agent db u.
Proof.
  intros Hc Ha Hne. unfold is_agent. rewrite agents_deactivate_row.
  rewrite existsb_replace_deactivated by apply by_user_active_inactive.
  apply eq_true_iff_eq. rewrite !existsb_exists. split.
  - intros (r & Hr & [H1 H2]%andb_true_iff). eauto.
  - intros (r & Hr & H1). exists r. split; [done|]. rewrite H1. simpl.
    unfold has_pk. destruct (a_pk r =? a_pk a) eqn:E; [|done].
    apply Nat.eqb_eq in E. rewrite (pk_injective _ r a (c_pk _ Hc) Hr Ha E) in H1.
    unfold by_user_active in H1. apply andb_true_iff in H1 as [H1 _].
    apply Nat.eqb_eq in H1. done.
Qed.

Lemma users_released_store_other by_ uid db U :
  uid ≠ U → users (released_store by_ uid db) !! U = users db !! U.
Proof.
  intros Hne. unfold released_store.
  destruct (Agent_filter _ db) as [|a l] eqn:E; [done|].
  destruct (In_filter_head _ _ _ _ E) as [_ Hp].
  unfold by_user_active in Hp. apply andb_true_iff in Hp as [Hp _].
  apply Nat.eqb_eq in Hp. rewrite users_deactivate_row_other; [done | congruence].
Qed.

Lemma is_agent_released_store_other by_ uid db u :
  consistent db → uid ≠ u_id u →
  is_agent (released_store by_ uid db) u = is_agent db u.
Proof.
  intros Hc Hne. unfold released_store.
  destruct (Agent_filter _ db) as [|a l] eqn:E; [done|].
  destruct (In_filter_head _ _ _ _ E) as [Ha Hp].
  unfold by_user_active in Hp. apply andb_true_iff in Hp as [Hp _].
  apply Nat.eqb_eq in Hp.
  rewrite is_agent_deactivate_row_other; [done | by apply consistent_tick | done | congruence].
Qed.

Lemma users_created_store_other user organisation by_ db U :
  u_id user ≠ U → users (created_store user organisation by_ db) !! U = users db !! U.
Proof.
  intros Hne. unfold created_store, set_role, set_users. cbn [users].
  by apply lookup_insert_ne.
Qed.

Lemma users_created_store_self user organisation by_ db :
  users (created_store user organisation by_ db) !! u_id user = Some role_superuser.
Proof. unfold created_store, set_role, set_users. cbn [users]. apply lookup_insert_eq. Qed.

Lemma is_agent_created_store_other user organisation by_ db u :
  u_id user ≠ u_id u →
  is_agent (created_store user organisation by_ db) u = is_agent db u.
Proof.
  intros Hne. unfold is_agent, created_store. cbn [agents set_role set_users set_agent_seq
    set_agents tick set_clock existsb].
  unfold by_user_active at 1. cbn [a_user_id new_agent_row].
  by rewrite (proj2 (Nat.eqb_neq _ _) Hne).
Qed.

Lemma is_agent_created_store_self user organisation by_ db :
  is_agent (created_store user organisation by_ db) user = true.
Proof.
  unfold is_agent, created_store. cbn [agents set_role set_users set_agent_seq
    set_agents tick set_clock existsb].
  unfold by_user_active at 1. cbn [a_user_id a_is_active new_agent_row].
  by rewrite Nat.eqb_refl.
Qed.

(** The role [revoked_store] leaves to the user of the row. *)
Lemma revoked_store_role db a by_ r :
  consistent db → In a (agents db) →
  nullable_user_exists db (u_id <$> by_) = true →
  users db !! a_user_id a = Some r → r ≠ role_superadmin →
  users (revoked_store by_ a db) !! a_user_id a
  = Some (if is_agent (revoked_store by_ a db) (mkUser (a_user_id a) r)
          then role_superuser else role_user).
Proof.
  intros Hc Ha Hby Hr Hns. unfold revoked_store.
  assert (Hx : ∃ rx, users (deactivate_row (clock db) by_ a (tick db)) !! a_user_id a
                     = Some rx ∧ rx ≠ role_superadmin).
  { unfold deactivate_row. destruct (downgrades (tick db) a).
    - exists role_user. split; [|done]. unfold set_role, set_users.
      cbn [users set_agents]. apply lookup_insert_eq.
    - by exists r. }
  destruct Hx as (rx & Hrx & Hnx). rewrite Hrx.
  unfold set_role at 1, set_users. cbn [users]. rewrite lookup_insert_eq.
  f_equal. by rewrite resynced_not_superadmin.
Qed.

(** ** The three events that re-sync a role *)

Lemma Model_delete_spec db a r :
  users db !! a_user_id a = Some r →
  let db1 := state_of (sql_delete (a_pk a) db) in
  let downgrade := negb (is_agent db1 (mkUser (a_user_id a) r))
                   && role_eqb r role_superuser in
  Model_delete (mkInst a None) db
  = (if downgrade then set_role (a_user_id a) role_user db1 else db1,
     Ok (mkInst a (Some (mkUser (a_user_id a) (if downgrade then role_user else r))))).
Proof.
  intros Hr db1 downgrade. unfold Model_delete. cbn [fields].
  rewrite (bind_ok (sql_delete (a_pk a)) _ db db1 tt eq_refl).
  unfold sync_user_role_on_agent_delete.
  rewrite (bind_ok _ _ db1 db1 (mkUser (a_user_id a) r,
             mkInst a (Some (mkUser (a_user_id a) r)))); cycle 1.
  { unfold instance_user, bind, User_get. cbn [user_cache fields].
    change (users db1) with (users db). by rewrite Hr. }
  cbn beta iota. unfold bind at 1, query.
  change (existsb (by_user_active (u_id (mkUser (a_user_id a) r))) (agents db1))
    with (is_agent db1 (mkUser (a_user_id a) r)).
  cbn [u_role]. fold downgrade. destruct downgrade; [|done].
  rewrite (bind_ok _ _ db1 (set_role (a_user_id a) role_user db1) tt); [done|].
  apply (User_save_role_ok db1 (with_role role_user (mkUser (a_user_id a) r))).
  by eapply lookup_user_exists.
Qed.

Lemma delete_role db a r :
  users db !! a_user_id a = Some r → r ≠ role_superadmin →
  (∃ i, outcome (Model_delete (mkInst a None) db) = Ok i)
  ∧ users (state_of (Model_delete (mkInst a None) db)) !! a_user_id a
    = Some (if is_agent (state_of (Model_delete (mkInst a None) db))
                        (mkUser (a_user_id a) r)
            then r else role_user).
Proof.
  intros Hr Hns. rewrite (Model_delete_spec db a r Hr).
  unfold outcome, state_of. cbn [fst snd]. split; [eauto|].
  set (db1 := (sql_delete (a_pk a) db).1).
  assert (Hu1 : users db1 !! a_user_id a = Some r) by done.
  destruct (is_agent db1 (mkUser (a_user_id a) r)) eqn:Hag; cbn [negb andb].
  - by rewrite Hag.
  - unfold role_eqb. case_bool_decide as E.
    + change (is_agent (set_role ?u ?x db1) ?v) with (is_agent db1 v). rewrite Hag.
      unfold set_role, set_users. cbn [users]. apply lookup_insert_eq.
    + rewrite Hag, Hu1. by destruct r.
Qed.

Lemma assign_evicted_role db a user by_ r :
  consistent db → In a (agents db) → a_is_active a = true →
  users db !! a_user_id a = Some r → r ≠ role_superadmin →
  user_exists db (u_id user) = true →
  nullable_user_exists db (u_id <$> by_) = true →
  (∃ i, outcome (assign_agent user (a_organisation_id a) by_ db) = Ok i)
  ∧ users (state_of (assign_agent user (a_organisation_id a) by_ db)) !! a_user_id a
    = Some (if is_agent (state_of (assign_agent user (a_organisation_id a) by_ db))
                        (mkUser (a_user_id a) r)
            then role_superuser else role_user).
Proof.
  intros Hc Ha Hact Hr Hns Hu Hby.
  rewrite (assign_agent_spec db user (a_organisation_id a) by_ Hc Hu
             (c_fk_org _ Hc a Ha) Hby).
  unfold outcome, state_of. cbn [fst snd]. split; [eauto|].
  unfold assigned_store.
  destruct (decide (u_id user = a_user_id a)) as [Heq|Hne].
  - rewrite <- Heq.
    change (is_agent ?d (mkUser (u_id user) r)) with (is_agent d user).
    by rewrite is_agent_created_store_self, users_created_store_self.
  - assert (Hev : evicted_store by_ (a_organisation_id a) db = revoked_store by_ a db).
    { unfold evicted_store.
      assert (E : Agent_filter (by_org_active (a_organisation_id a)) db = [a]).
      { apply filter_the_one; [apply (c_unique _ Hc) | done |].
        unfold by_org_active. by rewrite Nat.eqb_refl, Hact. }
      by rewrite E. }
    rewrite Hev.
    pose proof (consistent_revoked_store by_ a db Hc Ha Hby) as Hc1.
    rewrite users_created_store_other by done.
    rewrite users_released_store_other by done.
    rewrite is_agent_created_store_other by done.
    rewrite is_agent_released_store_other by done.
    by apply revoked_store_role.
Qed.

(** ** Reassigning an organisation *)

Lemma In_replace_row_other a tbl x :
  In x tbl → a_pk x ≠ a_pk a → In x (replace_row a tbl).
Proof.
  intros Hx Hne. apply in_map_iff. exists x. split; [|done].
  unfold has_pk. by rewrite (proj2 (Nat.eqb_neq _ _) Hne).
Qed.

Lemma In_released_store by_ uid db x :
  consistent db → In x (agents db) → a_user_id x ≠ uid →
  In x (agents (released_store by_ uid db)).
Proof.
  intros Hc Hx Hne. unfold released_store.
  destruct (Agent_filter _ db) as [|a2 l] eqn:E; [done|].
  destruct (In_filter_head _ _ _ _ E) as [Ha2 Hp].
  unfold by_user_active in Hp. apply andb_true_iff in Hp as [Hp _].
  apply Nat.eqb_eq in Hp.
  rewrite agents_deactivate_row. apply In_replace_row_other; [done|].
  cbn [a_pk deactivated]. intros Hpk.
  rewrite (pk_injective _ x a2 (c_pk _ Hc) Hx Ha2 Hpk) in Hne. done.
Qed.

Lemma organisations_released_store by_ uid db :
  organisations (released_store by_ uid db) = organisations db.
Proof.
  unfold released_store. destruct (Agent_filter _ db); [done|].
  by rewrite organisations_deactivate_row.
Qed.

Lemma evicted_store_the_one db a by_ :
  consistent db → In a (agents db) → a_is_active a = true →
  evicted_store by_ (a_organisation_id a) db = revoked_store by_ a db.
Proof.
  intros Hc Ha Hact. unfold evicted_store.
  assert (E : Agent_filter (by_org_active (a_organisation_id a)) db = [a]).
  { apply filter_the_one; [apply (c_unique _ Hc) | done |].
    unfold by_org_active. by rewrite Nat.eqb_refl, Hact. }
  by rewrite E.
Qed.

Lemma managed_created_store user organisation by_ db :
  get_managed_organisation (created_store user organisation by_ db)
    (with_role role_superuser user) = Some organisation.
Proof.
  unfold get_managed_organisation.
  change (is_agent ?d (with_role role_superuser user)) with (is_agent d user).
  rewrite is_agent_created_store_self. cbn [negb].
  unfold Agent_filter, created_store.
  cbn [agents set_role set_users set_agent_seq set_agents tick set_clock List.filter].
  unfold by_user_active at 1.
  cbn [a_user_id a_is_active new_agent_row u_id with_role].
  by rewrite Nat.eqb_refl.
Qed.

(** ** [assign_agent] when a step raises *)

Lemma create_without_organisation db user organisation by_ :
  user_exists db (u_id user) = true →
  organisation_exists db organisation = false →
  Agent_objects_create user organisation by_ db
  = (tick db, Raise (IntegrityError fk_organisation)).
Proof.
  intros Hu Ho. unfold Agent_objects_create, Model_save, sync_user_role_on_agent_revoke.
  simpl.
  rewrite (bind_ok _ _ db db _ eq_refl).
  rewrite (bind_ok _ _ db db false eq_refl).
  apply bind_raise.
  rewrite (bind_ok _ _ db (tick db) (clock db) eq_refl).
  unfold sql_insert, violated. simpl.
  change (user_exists (tick db) ?u) with (user_exists db u).
  change (organisation_exists (tick db) ?o) with (organisation_exists db o).
  by rewrite Hu, Ho.
Qed.

Lemma no_rows_without_organisation db organisation :
  consistent db → organisation_exists db organisation = false →
  Agent_filter (by_org_active organisation) db = [].
Proof.
  intros Hc Ho. apply filter_nil. intros a Ha.
  unfold by_org_active. destruct (a_organisation_id a =? organisation) eqn:E; [|done].
  apply Nat.eqb_eq in E. pose proof (c_fk_org _ Hc a Ha) as H. congruence.
Qed.

Lemma assign_agent_without_organisation db user organisation by_ :
  consistent db →
  user_exists db (u_id user) = true →
  nullable_user_exists db (u_id <$> by_) = true →
  organisation_exists db organisation = false →
  assign_agent user organisation by_ db
  = (tick (released_store by_ (u_id user) db), Raise (IntegrityError fk_organisation)).
Proof.
  intros Hc Hu Hby Ho. unfold assign_agent.
  rewrite (bind_ok _ _ db db [] (f_equal (pair db ∘ Ok)
             (no_rows_without_organisation db organisation Hc Ho))).
  rewrite (bind_ok _ _ db db tt eq_refl).
  rewrite (bind_ok _ _ db db _ eq_refl).
  rewrite (bind_ok _ _ _ _ _ (second_loop_spec db (u_id user) by_ Hc Hby)).
  destruct (released_store_props db by_ Hc Hby (u_id user)) as (Hc2 & Hu2 & Ho2 & _).
  apply bind_raise. apply create_without_organisation.
  - by rewrite Hu2.
  - unfold organisation_exists. by rewrite Ho2.
Qed.

Lemma length_replace_row a tbl : length (replace_row a tbl) = length tbl.
Proof. unfold replace_row. apply length_map. Qed.

Lemma length_released_store by_ uid db :
  length (agents (released_store by_ uid db)) = length (agents db).
Proof.
  unfold released_store. destruct (Agent_filter _ db); [done|].
  rewrite agents_deactivate_row. apply length_replace_row.
Qed.

Lemma released_store_deactivates by_ uid db a :
  consistent db → In a (agents db) → by_user_active uid a = true →
  In (deactivated (clock db) by_ a) (agents (released_store by_ uid db)).
Proof.
  intros Hc Ha Hp. unfold released_store.
  assert (E : Agent_filter (by_user_active uid) db = [a]).
  { apply filter_the_one; [apply (c_unique _ Hc) | done..]. }
  rewrite E, agents_deactivate_row. by apply In_deactivated.
Qed.

(** ** The unique constraints never reject the mutators *)

(** Deactivating a row of a consistent store can only be rejected for its
    [revoked_by]. *)
Lemma violated_deactivated db a now by_ :
  consistent db → In a (agents db) →
  violated db (deactivated now by_ a) (replace_row (deactivated now by_ a) (agents db))
  = if nullable_user_exists db (u_id <$> by_) then None else Some fk_revoked_by.
Proof.
  intros Hc Ha. unfold violated. simpl.
  rewrite (c_fk_user _ Hc a Ha), (c_fk_org _ Hc a Ha), (c_fk_assigned_by _ Hc a Ha).
  simpl. destruct (nullable_user_exists db (u_id <$> by_)); [|done]. simpl.
  destruct (c_unique _ Hc) as [Ho Hu].
  assert (check_unique_active_agent_per_org
            (replace_row (deactivated now by_ a) (agents db)) = true) as ->.
  { apply check_unique_org_spec. intros O.
    etransitivity; [apply replace_row_deactivated_org | apply Ho]. }
  assert (check_unique_active_agent_per_user
            (replace_row (deactivated now by_ a) (agents db)) = true) as ->; [|done].
  apply check_unique_user_spec. intros U.
  etransitivity; [apply replace_row_deactivated_user | apply Hu].
Qed.

Lemma Model_save_deactivated_rejected db a now by_ :
  consistent db → In a (agents db) →
  nullable_user_exists db (u_id <$> by_) = false →
  ∃ db', Model_save (mkInst (deactivated now by_ a) None) db
         = (db', Raise (IntegrityError fk_revoked_by)).
Proof.
  intros Hc Ha Hby.
  destruct (pre_save_deactivated db a now by_ Hc Ha) as (c & Hpre & _).
  unfold Model_save. rewrite (bind_ok _ _ _ _ _ Hpre). simpl.
  destruct (c_pk_seq _ Hc a Ha) as [Hpos _].
  destruct (a_pk a =? 0) eqn:E0; [apply Nat.eqb_eq in E0; lia|].
  pose proof (c_fk_user _ Hc a Ha) as Hu.
  set (db1 := if downgrades db a then set_role (a_user_id a) role_user db else db) in *.
  assert (Hc1 : consistent db1).
  { unfold db1. destruct (downgrades db a); [by apply consistent_set_role | done]. }
  assert (Ha1 : In a (agents db1)).
  { unfold db1. by destruct (downgrades db a). }
  assert (Hby1 : nullable_user_exists db1 (u_id <$> by_) = false).
  { unfold db1. destruct (downgrades db a); [|done].
    by rewrite nullable_user_exists_set_role. }
  exists db1. apply bind_raise. unfold sql_update.
  change (a_pk (deactivated now by_ a)) with (a_pk a).
  rewrite (existsb_has_pk _ _ Ha1).
  by rewrite (violated_deactivated db1 a now by_ Hc1 Ha1), Hby1.
Qed.

Lemma revoke_agent_not_duplicate db agent_id revoked_by :
  consistent db → ¬ rejected_as_duplicate (outcome (revoke_agent agent_id revoked_by db)).
Proof.
  intros Hc (c & Hout & Hfk). unfold revoke_agent in Hout.
  unfold bind at 1, Agent_get in Hout.
  destruct (find (has_pk agent_id) (agents db)) as [a|] eqn:E; [|done].
  apply find_some in E as [Ha Hpk]. apply Nat.eqb_eq in Hpk. subst agent_id.
  destruct (nullable_user_exists db (u_id <$> revoked_by)) eqn:Hby.
  - destruct (revoke_agent_spec db a revoked_by Hc Ha Hby) as (u & Hrun & _).
    unfold revoke_agent in Hrun. unfold bind at 1, Agent_get in Hrun.
    rewrite (find_has_pk _ _ (c_pk _ Hc) Ha) in Hrun. by rewrite Hrun in Hout.
  - rewrite (bind_ok _ _ db (tick db) (clock db) eq_refl) in Hout. simpl in Hout.
    destruct (Model_save_deactivated_rejected (tick db) a (clock db) revoked_by
                (consistent_tick _ Hc) Ha Hby) as (db' & Hsave).
    rewrite (bind_raise _ _ _ _ _ Hsave) in Hout. simpl in Hout.
    injection Hout as <-. done.
Qed.

Lemma create_rejected_by_foreign_key db user organisation by_ :
  user_exists db (u_id user) && organisation_exists db organisation
  && nullable_user_exists db (u_id <$> by_) = false →
  ∃ c, Agent_objects_create user organisation by_ db
       = (tick db, Raise (IntegrityError c))
       ∧ is_foreign_key c = true.
Proof.
  intros H. unfold Agent_objects_create, Model_save, sync_user_role_on_agent_revoke.
  simpl.
  rewrite (bind_ok _ _ db db _ eq_refl).
  rewrite (bind_ok _ _ db db false eq_refl).
  assert (Hins : ∃ c, sql_insert
            (set_assigned_at (clock db)
               (mkAgent 0 (u_id user) organisation 0 (u_id <$> by_) true None None))
            (tick db) = (tick db, Raise (IntegrityError c)) ∧ is_foreign_key c = true).
  { unfold sql_insert, violated. simpl.
    change (user_exists (tick db) ?u) with (user_exists db u).
    change (organisation_exists (tick db) ?o) with (organisation_exists db o).
    change (nullable_user_exists (tick db) ?o) with (nullable_user_exists db o).
    destruct (user_exists db (u_id user)); simpl; [|by eexists].
    destruct (organisation_exists db organisation); simpl; [|by eexists].
    simpl in H. rewrite H. simpl. by eexists. }
  destruct Hins as (c & Hins & Hc). exists c. split; [|done].
  apply bind_raise. by rewrite (bind_ok _ _ db (tick db) (clock db) eq_refl).
Qed.

Lemma assign_agent_not_duplicate db user organisation assigned_by :
  consistent db →
  ¬ rejected_as_duplicate (outcome (assign_agent user organisation assigned_by db)).
Proof.
  intros Hc (c & Hout & Hfk). unfold assign_agent in Hout.
  rewrite (bind_ok _ _ db db _ eq_refl) in Hout.
  destruct (nullable_user_exists db (u_id <$> assigned_by)) eqn:Hby.
  - rewrite (bind_ok _ _ _ _ _ (first_loop_spec db organisation assigned_by Hc Hby))
      in Hout.
    destruct (evicted_store_props db assigned_by Hc Hby organisation)
      as (Hc1 & Hu1 & Ho1 & Hn1).
    set (db1 := evicted_store assigned_by organisation db) in *.
    assert (Hby1 : nullable_user_exists db1 (u_id <$> assigned_by) = true).
    { by rewrite (nullable_user_exists_same db db1). }
    rewrite (bind_ok _ _ db1 db1 _ eq_refl) in Hout.
    rewrite (bind_ok _ _ _ _ _ (second_loop_spec db1 (u_id user) assigned_by Hc1 Hby1))
      in Hout.
    destruct (released_store_props db1 assigned_by Hc1 Hby1 (u_id user))
      as (Hc2 & Hu2 & Ho2 & Hn2 & Hle).
    set (db2 := released_store assigned_by (u_id user) db1) in *.
    assert (Hby2 : nullable_user_exists db2 (u_id <$> assigned_by) = true).
    { by rewrite (nullable_user_exists_same db1 db2). }
    destruct (user_exists db2 (u_id user) && organisation_exists db2 organisation) eqn:E.
    + apply andb_true_iff in E as [Hu Ho].
      rewrite (create_and_promote db2 user organisation assigned_by Hc2 Hu Ho Hby2) in Hout;
        [done | | done].
      specialize (Hle organisation). lia.
    + destruct (create_rejected_by_foreign_key db2 user organisation assigned_by)
        as (c' & Hcr & Hc'); [by rewrite E|].
      rewrite (bind_raise _ _ _ _ _ Hcr) in Hout. simpl in Hout.
      injection Hout as <-. congruence.
  - destruct (at_most_one (Agent_filter (by_org_active organisation) db)) as [E|[a E]].
    { apply (c_unique _ Hc). }
    + rewrite E in Hout. rewrite (bind_ok _ _ db db tt eq_refl) in Hout.
      rewrite (bind_ok _ _ db db _ eq_refl) in Hout.
      destruct (at_most_one (Agent_filter (by_user_active (u_id user)) db)) as [E2|[a E2]].
      { apply (c_unique _ Hc). }
      * rewrite E2 in Hout. rewrite (bind_ok _ _ db db tt eq_refl) in Hout.
        destruct (create_rejected_by_foreign_key db user organisation assigned_by)
          as (c' & Hcr & Hc'); [by rewrite Hby, andb_false_r|].
        rewrite (bind_raise _ _ _ _ _ Hcr) in Hout. simpl in Hout.
        injection Hout as <-. congruence.
      * rewrite E2 in Hout. destruct (In_filter_head _ _ _ _ E2) as [Ha _].
        destruct (Model_save_deactivated_rejected (tick db) a (clock db) assigned_by
                    (consistent_tick _ Hc) Ha Hby) as (db' & Hsave).
        erewrite (bind_raise _ _ db) in Hout; cycle 1.
        { simpl. apply bind_raise. unfold deactivate_only.
          rewrite (bind_ok _ _ db (tick db) (clock db) eq_refl).
          apply bind_raise. exact Hsave. }
        simpl in Hout. injection Hout as <-. done.
    + rewrite E in Hout. destruct (In_filter_head _ _ _ _ E) as [Ha _].
      destruct (Model_save_deactivated_rejected (tick db) a (clock db) assigned_by
                  (consistent_tick _ Hc) Ha Hby) as (db' & Hsave).
      erewrite (bind_raise _ _ db) in Hout; cycle 1.
      { simpl. apply bind_raise. unfold deactivate_and_sync.
        rewrite (bind_ok _ _ db (tick db) (clock db) eq_refl).
        apply bind_raise. exact Hsave. }
      simpl in Hout. injection Hout as <-. done.
Qed.

(** ** The checks on an Organisation and on any argument *)

Lemma can_user_access_organisation_obj_Some db user org :
  can_user_access_organisation_obj db user (Some org)
  = Ok (can_user_access_organisation db user org).
Proof. reflexivity. Qed.

Lemma can_user_manage_organisation_obj_Some db user org :
  can_user_manage_organisation_obj db user (Some org)
  = Ok (can_user_manage_organisation db user org).
Proof.
  unfold can_user_manage_organisation_obj, can_user_manage_organisation.
  destruct (is_superadmin user); [done|]. destruct (is_agent db user); [|done].
  by destruct (get_managed_organisation db user).
Qed.

(* ===================================================================== *)
(** * Properties *)
(* ===================================================================== *)

(** ** At most one active agent per organisation and per user *)

(** C1.  From a store that satisfies the two uniqueness invariants, every
    store reached by calls of [assign_agent] and [revoke_agent] (with any
    arguments, returning or raising) has at most one active Agent row per
    organisation and at most one active Agent row per user.  (By
    [assign_agent_not_duplicate] and [revoke_agent_not_duplicate] the two
    unique constraints never have to reject a write of the mutators on a
    consistent store: the deactivations before the INSERT are what keeps the
    invariant.) *)
Theorem one_active_agent_invariant (db0 db : DB) :
  uniqueness db0 → reachable db0 db →
  (∀ O, count_active_org O (agents db) ≤ 1)
  ∧ (∀ U, count_active_user U (agents db) ≤ 1).
Proof.
  intros H0 Hreach. change (uniqueness db).
  induction Hreach as [db|db db' db'' Hstep _ IH]; [done|].
  apply IH. destruct Hstep.
  - by apply preserves_uniqueness_assign_agent.
  - by apply preserves_uniqueness_revoke_agent.
Qed.

Lemma one_active_agent_invariant_witness :
  let db1 := state_of (assign_agent Sample.u1 10 (Some Sample.admin) Sample.empty_store) in
  let db2 := state_of (assign_agent Sample.u2 10 (Some Sample.admin) db1) in
  let db3 := state_of (revoke_agent 2 None db2) in
  uniqueness Sample.empty_store
  ∧ reachable Sample.empty_store db3
  ∧ (∀ O, count_active_org O (agents db3) ≤ 1)
  ∧ (∀ U, count_active_user U (agents db3) ≤ 1).
Proof.
  intros db1 db2 db3.
  assert (H0 : uniqueness Sample.empty_store).
  { split; intros ?; vm_compute; lia. }
  assert (Hr : reachable Sample.empty_store db3).
  { eapply rtc_l; [apply (step_assign_agent _ Sample.u1 10 (Some Sample.admin))|].
    eapply rtc_l; [apply (step_assign_agent _ Sample.u2 10 (Some Sample.admin))|].
    eapply rtc_l; [apply (step_revoke_agent _ 2 None)|]. apply rtc_refl. }
  split; [exact H0|]. split; [exact Hr|].
  exact (one_active_agent_invariant Sample.empty_store db3 H0 Hr).
Defined.

(** ** Reassigning an organisation to another user *)

(** C2, as the code has it.  Let organisation [O1] be active and have the
    active Agent row [a1] of a user [U1] who is not a superadmin.  Then
    [assign_agent(U2, O1, admin)] with [U2] another user returns a new active
    Agent row for [U2] and [O1] assigned by [admin]; the original row is
    inactive with [revoked_by = admin] and [revoked_at] stamped; the role of
    [U1] is 'user'; the role of [U2] is 'superuser'; and the accessible
    organisations of [U2] are exactly [{O1}]. *)
Theorem reassignment (db : DB) (a1 : Agent) (U2 admin : User) (r1 : Role) :
  consistent db → In a1 (agents db) → a_is_active a1 = true →
  u_id U2 ≠ a_user_id a1 →
  user_exists db (u_id U2) = true → user_exists db (u_id admin) = true →
  users db !! a_user_id a1 = Some r1 → r1 ≠ role_superadmin →
  organisations db !! a_organisation_id a1 = Some true →
  let res := assign_agent U2 (a_organisation_id a1) (Some admin) db in
  ∃ new_agent revoked_at,
    outcome res = Ok new_agent
    ∧ In (deactivated revoked_at (Some admin) a1) (agents (state_of res))
    ∧ users (state_of res) !! a_user_id a1 = Some role_user
    ∧ In (fields new_agent) (agents (state_of res))
    ∧ a_user_id (fields new_agent) = u_id U2
    ∧ a_organisation_id (fields new_agent) = a_organisation_id a1
    ∧ a_assigned_by_id (fields new_agent) = Some (u_id admin)
    ∧ a_is_active (fields new_agent) = true
    ∧ user_cache new_agent = Some (with_role role_superuser U2)
    ∧ users (state_of res) !! u_id U2 = Some role_superuser
    ∧ get_user_accessible_organisations (state_of res) (with_role role_superuser U2)
      = {[a_organisation_id a1]}.
Proof.
  intros Hc Ha Hact Hne Hu2 Hadm Hr1 Hns Horg res.
  assert (Hby : nullable_user_exists db (u_id <$> Some admin) = true) by done.
  assert (Ho : organisation_exists db (a_organisation_id a1) = true).
  { by apply (c_fk_org _ Hc). }
  unfold res. rewrite (assign_agent_spec db U2 (a_organisation_id a1) (Some admin)
                         Hc Hu2 Ho Hby).
  unfold outcome, state_of, assigned_store. cbn [fst snd].
  rewrite (evicted_store_the_one db a1 (Some admin) Hc Ha Hact).
  pose proof (consistent_revoked_store (Some admin) a1 db Hc Ha Hby) as Hc1.
  set (db1 := revoked_store (Some admin) a1 db) in *.
  set (db2 := released_store (Some admin) (u_id U2) db1).
  assert (Hold : In (deactivated (clock db) (Some admin) a1) (agents db2)).
  { apply In_released_store; [done | | cbn; congruence].
    unfold db1. rewrite agents_revoked_store. by apply In_deactivated. }
  eexists _, (clock db). split; [reflexivity|].
  split; [by right|].
  split.
  { rewrite users_created_store_other by done.
    unfold db2. rewrite users_released_store_other by done.
    unfold db1. rewrite (revoked_store_role db a1 (Some admin) r1) by done.
    fold db1. f_equal.
    assert (is_agent db1 (mkUser (a_user_id a1) r1) = false) as ->; [|done].
    unfold db1, is_agent. rewrite agents_revoked_store. cbn [u_id].
    rewrite existsb_replace_deactivated by apply by_user_active_inactive.
    apply (only_active_row db a1); [apply (c_unique _ Hc) | done..]. }
  split; [by left|].
  do 5 (split; [reflexivity|]).
  split; [apply users_created_store_self|].
  unfold get_user_accessible_organisations.
  change (is_superadmin (with_role role_superuser U2)) with false. cbn iota.
  change (is_agent ?d (with_role role_superuser U2)) with (is_agent d U2).
  rewrite is_agent_created_store_self, managed_created_store.
  apply set_eq. intros o. rewrite elem_of_intersection, elem_of_singleton.
  rewrite elem_of_active_organisations.
  split; [by intros [_ ->]|]. intros ->. split; [|done].
  change (organisations (created_store ?u ?o ?b db2)) with (organisations db2).
  unfold db2. rewrite organisations_released_store.
  unfold db1. by rewrite organisations_revoked_store.
Qed.

Lemma reassignment_witness :
  let a1 := mkAgent 1 2 10 100 (Some 1) true None None in
  let res := assign_agent Sample.u2 10 (Some Sample.admin) Sample.scenario1 in
  consistent Sample.scenario1
  ∧ In a1 (agents Sample.scenario1)
  ∧ a_is_active a1 = true
  ∧ u_id Sample.u2 ≠ a_user_id a1
  ∧ user_exists Sample.scenario1 (u_id Sample.u2) = true
  ∧ user_exists Sample.scenario1 (u_id Sample.admin) = true
  ∧ users Sample.scenario1 !! a_user_id a1 = Some role_superuser
  ∧ role_superuser ≠ role_superadmin
  ∧ organisations Sample.scenario1 !! a_organisation_id a1 = Some true
  ∧ users (state_of res) !! 2 = Some role_user
  ∧ get_user_accessible_organisations (state_of res) (with_role role_superuser Sample.u2)
    = {[10]}.
Proof.
  intros a1 res.
  assert (Hc : consistent Sample.scenario1).
  { apply consistentb_sound. vm_compute. reflexivity. }
  assert (Ha : In a1 (agents Sample.scenario1)).
  { vm_compute. left. reflexivity. }
  assert (Hne : u_id Sample.u2 ≠ a_user_id a1) by (simpl; lia).
  assert (Hr : users Sample.scenario1 !! a_user_id a1 = Some role_superuser).
  { vm_compute. reflexivity. }
  assert (Hns : role_superuser ≠ role_superadmin) by discriminate.
  assert (Ho : organisations Sample.scenario1 !! a_organisation_id a1 = Some true).
  { vm_compute. reflexivity. }
  split; [exact Hc|]. split; [exact Ha|]. split; [reflexivity|]. split; [exact Hne|].
  split; [reflexivity|]. split; [reflexivity|]. split; [exact Hr|]. split; [exact Hns|].
  split; [exact Ho|].
  destruct (reassignment Sample.scenario1 a1 Sample.u2 Sample.admin role_superuser
              Hc Ha eq_refl Hne eq_refl eq_refl Hr Hns Ho)
    as (new_agent & revoked_at & _ & _ & Hrole & _ & _ & _ & _ & _ & _ & _ & Hacc).
  split; [exact Hrole | exact Hacc].
Defined.

(** The claim of C2 fails in two places.  When the organisation is disabled,
    the new agent can access nothing; when the displaced user was stored as
    'superadmin', their role does not revert to 'user'. *)
Lemma reassignment_counterexample :
  (let db := state_of (assign_agent Sample.u1 12 (Some Sample.admin) Sample.empty_store) in
   let res := assign_agent Sample.u2 12 (Some Sample.admin) db in
   get_agent_for_organisation db 12
   = Some (mkAgent 1 2 12 100 (Some 1) true None None)
   ∧ (∃ new_agent, outcome res = Ok new_agent)
   ∧ get_user_accessible_organisations (state_of res) (with_role role_superuser Sample.u2)
     = ∅)
  ∧ (let res := assign_agent Sample.u1 10 (Some Sample.admin) Sample.promoted in
     get_agent_for_organisation Sample.promoted 10 = Some Sample.u2_row
     ∧ users Sample.promoted !! 3 = Some role_superadmin
     ∧ (∃ new_agent, outcome res = Ok new_agent)
     ∧ users (state_of res) !! 3 = Some role_superadmin).
Proof.
  split; cbv zeta.
  - split; [vm_compute; reflexivity|]. split; [|vm_compute; reflexivity].
    eexists. vm_compute. reflexivity.
  - split; [vm_compute; reflexivity|]. split; [vm_compute; reflexivity|].
    split; [|vm_compute; reflexivity]. eexists. vm_compute. reflexivity.
Qed.

(** ** The scope of the permissions of an agent *)

(** C3.  Let [user] be a user who is not a superadmin and whose active Agent
    row [a] makes them the agent of organisation [a_organisation_id a].  For
    every key, [check_user_permission] with another organisation as context
    returns False, whatever is granted; with the managed organisation as
    context it returns True exactly when the union of the direct grants of the
    user and the grants of the agent row holds a permission with that key. *)
Theorem agent_permission_scope (db : DB) (user : User) (a : Agent) (key : string) :
  is_superadmin user = false →
  one_active_agent_per_user (agents db) →
  In a (agents db) → a_is_active a = true → a_user_id a = u_id user →
  (∀ O', O' ≠ a_organisation_id a →
     check_user_permission db user key (Some O') = Ok false)
  ∧ ∃ all b,
      get_all_permissions db user = Ok all
      ∧ (∀ p, all p = get_direct_permissions db user p
                      || granted (agent_permissions db) (a_pk a) p)
      ∧ check_user_permission db user key (Some (a_organisation_id a)) = Ok b
      ∧ (b = true ↔ ∃ p, In p (qs_rows db all) ∧ p_key p = key).
Proof.
  intros Hs Huniq Ha Hact Huser.
  pose proof (active_agent_is_agent db user a Ha Hact Huser) as Hag.
  pose proof (active_agent_managed db user a Huniq Ha Hact Huser) as Hm.
  pose proof (active_agent_all_permissions db user a Huniq Ha Hact Huser) as Hall.
  split.
  - intros O' Hne. unfold check_user_permission. rewrite Hs, Hag, Hm.
    destruct (a_organisation_id a =? O') eqn:E; [|done].
    apply Nat.eqb_eq in E. congruence.
  - eexists _, _. split; [exact Hall|]. split; [done|]. split.
    + unfold check_user_permission. rewrite Hs, Hag, Hm, Nat.eqb_refl.
      unfold has_permission. rewrite Hs, Hall. reflexivity.
    + apply qs_exists_key.
Qed.

Lemma agent_permission_scope_witness :
  is_superadmin Sample.u2_agent = false
  ∧ one_active_agent_per_user (agents Sample.scenario3)
  ∧ In Sample.u2_row (agents Sample.scenario3)
  ∧ a_is_active Sample.u2_row = true
  ∧ a_user_id Sample.u2_row = u_id Sample.u2_agent
  ∧ check_user_permission Sample.scenario3 Sample.u2_agent "view_reports" (Some 11)
    = Ok false
  ∧ check_user_permission Sample.scenario3 Sample.u2_agent "view_reports" (Some 10)
    = Ok true.
Proof.
  assert (H2 : one_active_agent_per_user (agents Sample.scenario3)).
  { apply check_unique_user_spec. vm_compute. reflexivity. }
  assert (H3 : In Sample.u2_row (agents Sample.scenario3)).
  { vm_compute. left. reflexivity. }
  split; [reflexivity|]. split; [exact H2|]. split; [exact H3|].
  split; [reflexivity|]. split; [reflexivity|].
  destruct (agent_permission_scope Sample.scenario3 Sample.u2_agent Sample.u2_row
              "view_reports" eq_refl H2 H3 eq_refl eq_refl) as [Hother _].
  split; [apply Hother; simpl; lia|]. vm_compute. reflexivity.
Defined.

(** ** Role re-sync and the superadmin *)

(** C4, as the code has it.  For a user stored with role 'superadmin': the
    pre_save (revocation) and post_delete receivers never change that role,
    and [sync_role_with_agent_status] leaves it alone when the user has no
    active Agent row.  When the user has an active Agent row,
    [sync_role_with_agent_status] sets the role to 'superuser', and so does
    the post_save receiver when an active Agent row of that user is saved. *)
Theorem superadmin_resync (db : DB) (U : nat) :
  users db !! U = Some role_superadmin →
  let u := mkUser U role_superadmin in
  (is_agent db u = false → sync_role_with_agent_status u db = (db, Ok u))
  ∧ (is_agent db u = true →
     sync_role_with_agent_status u db
     = (set_role U role_superuser db, Ok (with_role role_superuser u)))
  ∧ (∀ instance, cache_fresh db instance →
       users (state_of (sync_user_role_on_agent_revoke instance db)) !! U
       = Some role_superadmin)
  ∧ (∀ instance, cache_fresh db instance →
       users (state_of (sync_user_role_on_agent_delete instance db)) !! U
       = Some role_superadmin)
  ∧ (∀ instance created, cache_fresh db instance →
       a_is_active (fields instance) = true → a_user_id (fields instance) = U →
       users (state_of (sync_user_role_on_agent_assign instance created db)) !! U
       = Some role_superuser)
  ∧ (∀ instance created, cache_fresh db instance →
       a_is_active (fields instance) = false ∨ a_user_id (fields instance) ≠ U →
       users (state_of (sync_user_role_on_agent_assign instance created db)) !! U
       = Some role_superadmin).
Proof.
  intros HU u.
  assert (Hsync : sync_role_with_agent_status u db
                  = (set_role U (resynced db u) db, Ok (with_role (resynced db u) u))).
  { by apply (sync_role_spec db u). }
  split; [|split; [|split; [|split; [|split]]]].
  - intros Hag. rewrite Hsync. unfold resynced. rewrite Hag. simpl.
    by rewrite set_role_id.
  - intros Hag. rewrite Hsync. unfold resynced. by rewrite Hag.
  - intros instance Hf. unfold sync_user_role_on_agent_revoke.
    destruct (negb _); [|done]. unfold try_except, state_of.
    unfold bind at 1, Agent_get.
    destruct (find _ _) as [old|]; [|by rewrite bool_decide_eq_true_2].
    destruct (a_is_active (fields (mkInst old None)) && _); [|done].
    unfold bind at 1.
    destruct (instance_user_cases db instance Hf) as [(u' & -> & Hid & Hu')| ->];
      [|done].
    unfold bind at 1, query. unfold role_eqb.
    destruct (negb _); simpl; [|done].
    case_bool_decide as E; [|done].
    assert (u_id u' ≠ U) by (intros <-; congruence).
    unfold bind, User_save_role. simpl. rewrite Hu'. simpl. by rewrite lookup_insert_ne.
  - intros instance Hf. unfold sync_user_role_on_agent_delete, state_of.
    unfold bind at 1.
    destruct (instance_user_cases db instance Hf) as [(u' & -> & Hid & Hu')| ->];
      [|done].
    unfold bind at 1, query. unfold role_eqb.
    destruct (negb _); simpl; [|done].
    case_bool_decide as E; [|done].
    assert (u_id u' ≠ U) by (intros <-; congruence).
    unfold bind, User_save_role. simpl. rewrite Hu'. simpl. by rewrite lookup_insert_ne.
  - intros instance created Hf Hact Hid. unfold sync_user_role_on_agent_assign, state_of.
    rewrite Hact. unfold bind at 1.
    destruct (instance_user_cases db instance Hf) as [(u' & -> & Hid' & Hu')| E].
    + rewrite Hid in Hid'. rewrite Hid' in Hu'. rewrite HU in Hu'. injection Hu' as Hr.
      unfold role_eqb. rewrite <- Hr. simpl.
      unfold bind, User_save_role. simpl. rewrite Hid', HU. simpl.
      by rewrite lookup_insert_eq.
    + exfalso. unfold instance_user in E. destruct (user_cache instance) as [c|].
      * done.
      * unfold bind, User_get in E. rewrite Hid, HU in E. done.
  - intros instance created Hf Hor. unfold sync_user_role_on_agent_assign, state_of.
    destruct (a_is_active (fields instance)) eqn:Hact; [|done].
    destruct Hor as [|Hne]; [done|].
    unfold bind at 1.
    destruct (instance_user_cases db instance Hf) as [(u' & -> & Hid' & Hu')| ->];
      [|done].
    unfold role_eqb. destruct (negb _); simpl; [|done].
    unfold bind, User_save_role. simpl. rewrite Hu'. simpl.
    rewrite lookup_insert_ne; [done|]. congruence.
Qed.

Lemma superadmin_resync_witness :
  users Sample.scenario2 !! 1 = Some role_superadmin
  ∧ sync_role_with_agent_status Sample.admin Sample.scenario2
    = (Sample.scenario2, Ok Sample.admin).
Proof.
  split; [vm_compute; reflexivity|].
  destruct (superadmin_resync Sample.scenario2 1) as [Hno _];
    [vm_compute; reflexivity|].
  apply Hno. vm_compute. reflexivity.
Defined.

(** The claim of C4 fails when an active Agent row exists for the
    superadmin: [sync_role_with_agent_status] stores 'superuser', and so does
    the post_save receiver when an Agent row is created for a superadmin. *)
Lemma superadmin_resync_counterexample :
  users Sample.promoted !! 3 = Some role_superadmin
  ∧ users (state_of (sync_role_with_agent_status (mkUser 3 role_superadmin)
                       Sample.promoted)) !! 3 = Some role_superuser
  ∧ users Sample.empty_store !! 1 = Some role_superadmin
  ∧ users (state_of (Agent_objects_create Sample.admin 11 None Sample.empty_store)) !! 1
    = Some role_superuser.
Proof. repeat split; vm_compute; reflexivity. Qed.

(** ** The role after revocation, reassignment and deletion *)

(** C5, as the code has it.  For a user [U] stored with a role other than
    'superadmin': after [revoke_agent] on a row of [U], and after
    [assign_agent] evicts [U] from an organisation, the stored role is
    'superuser' if an active Agent row exists for [U] and 'user' otherwise.
    After the deletion of a row of [U] the stored role is 'user' if no active
    Agent row is left for [U]; if one is left the role is what it was before
    (the post_delete receiver only downgrades). *)
Theorem role_after_trigger (db : DB) (a : Agent) (r : Role) :
  consistent db → In a (agents db) →
  users db !! a_user_id a = Some r → r ≠ role_superadmin →
  let U := mkUser (a_user_id a) r in
  (∀ revoked_by, nullable_user_exists db (u_id <$> revoked_by) = true →
     let res := revoke_agent (a_pk a) revoked_by db in
     (∃ i, outcome res = Ok i)
     ∧ users (state_of res) !! u_id U
       = Some (if is_agent (state_of res) U then role_superuser else role_user))
  ∧ (∀ user assigned_by,
       a_is_active a = true → user_exists db (u_id user) = true →
       nullable_user_exists db (u_id <$> assigned_by) = true →
       let res := assign_agent user (a_organisation_id a) assigned_by db in
       (∃ i, outcome res = Ok i)
       ∧ users (state_of res) !! u_id U
         = Some (if is_agent (state_of res) U then role_superuser else role_user))
  ∧ (let res := Model_delete (mkInst a None) db in
     (∃ i, outcome res = Ok i)
     ∧ users (state_of res) !! u_id U
       = Some (if is_agent (state_of res) U then r else role_user)).
Proof.
  intros Hc Ha Hr Hns U. split; [|split].
  - intros revoked_by Hby res.
    destruct (revoke_agent_spec db a revoked_by Hc Ha Hby) as (u & Hrun & _).
    unfold res. rewrite Hrun. unfold outcome, state_of. cbn [fst snd].
    split; [eauto|]. by apply revoked_store_role.
  - intros user assigned_by Hact Hu Hby res. by apply assign_evicted_role.
  - by apply delete_role.
Qed.

Lemma role_after_trigger_witness :
  consistent Sample.scenario2
  ∧ In Sample.u2_row (agents Sample.scenario2)
  ∧ users Sample.scenario2 !! a_user_id Sample.u2_row = Some role_superuser
  ∧ role_superuser ≠ role_superadmin
  ∧ users (state_of (revoke_agent 2 None Sample.scenario2)) !! 3 = Some role_user
  ∧ users (state_of (Model_delete (mkInst Sample.u2_row None) Sample.scenario2)) !! 3
    = Some role_user.
Proof.
  assert (Hc : consistent Sample.scenario2).
  { apply consistentb_sound. vm_compute. reflexivity. }
  assert (Ha : In Sample.u2_row (agents Sample.scenario2)).
  { vm_compute. left. reflexivity. }
  assert (Hr : users Sample.scenario2 !! a_user_id Sample.u2_row = Some role_superuser).
  { vm_compute. reflexivity. }
  assert (Hns : role_superuser ≠ role_superadmin) by discriminate.
  split; [exact Hc|]. split; [exact Ha|]. split; [exact Hr|]. split; [exact Hns|].
  destruct (role_after_trigger Sample.scenario2 Sample.u2_row role_superuser Hc Ha Hr Hns)
    as (Hrevoke & _ & _ & Hdelete).
  destruct (Hrevoke None eq_refl) as [_ Hrole].
  split.
  - etransitivity; [exact Hrole|]. vm_compute. reflexivity.
  - etransitivity; [exact Hdelete|]. vm_compute. reflexivity.
Defined.

(** The claim of C5 fails on the deletion path: in a store where the role of
    user 2 is 'user' while an active Agent row exists for them, deleting their
    inactive row leaves the role 'user' although the active row is still
    there, whereas revoking that same row re-syncs the role to 'superuser'. *)
Lemma role_after_trigger_counterexample :
  users Sample.drifted !! 2 = Some role_user
  ∧ is_agent (state_of ((do agent <- Agent_get 1;; Model_delete agent) Sample.drifted))
             (mkUser 2 role_user) = true
  ∧ users (state_of ((do agent <- Agent_get 1;; Model_delete agent) Sample.drifted)) !! 2
    = Some role_user
  ∧ is_agent (state_of (revoke_agent 1 None Sample.drifted)) (mkUser 2 role_user) = true
  ∧ users (state_of (revoke_agent 1 None Sample.drifted)) !! 2 = Some role_superuser.
Proof. repeat split; vm_compute; reflexivity. Qed.

(** ** Accessible organisations *)

(** C6, as the code has it.  [get_user_accessible_organisations] returns all
    active organisations for a superadmin; for any other user with an active
    Agent row, the managed organisation if it is active and nothing if it is
    disabled; and for any other user without an active Agent row (whatever
    the role) the active organisations the user is a member of. *)
Theorem accessible_organisations_by_kind (db : DB) (user : User) :
  (is_superadmin user = true →
     get_user_accessible_organisations db user = active_organisations db)
  ∧ (is_superadmin user = false →
     ∀ a, one_active_agent_per_user (agents db) →
          In a (agents db) → a_is_active a = true → a_user_id a = u_id user →
          get_user_accessible_organisations db user
          = if bool_decide (organisations db !! a_organisation_id a = Some true)
            then {[a_organisation_id a]} else ∅)
  ∧ (is_superadmin user = false → is_agent db user = false →
     ∀ o, o ∈ get_user_accessible_organisations db user
          ↔ organisations db !! o = Some true ∧ is_member db (u_id user) o = true).
Proof.
  unfold get_user_accessible_organisations. split; [|split].
  - by intros ->.
  - intros -> a Huniq Ha Hact Huser.
    rewrite (active_agent_is_agent db user a Ha Hact Huser).
    rewrite (active_agent_managed db user a Huniq Ha Hact Huser).
    apply set_eq. intros o. rewrite elem_of_intersection, elem_of_singleton.
    rewrite elem_of_active_organisations. case_bool_decide as Hb.
    + rewrite elem_of_singleton. split; [by intros [_ ->] | by intros ->].
    + split; [intros [Ho ->]; done | set_solver].
  - intros -> -> o. rewrite elem_of_filter, elem_of_active_organisations.
    rewrite Is_true_true. tauto.
Qed.

Lemma accessible_organisations_by_kind_witness :
  is_superadmin Sample.u2_agent = false
  ∧ one_active_agent_per_user (agents Sample.scenario3)
  ∧ In Sample.u2_row (agents Sample.scenario3)
  ∧ a_is_active Sample.u2_row = true
  ∧ a_user_id Sample.u2_row = u_id Sample.u2_agent
  ∧ get_user_accessible_organisations Sample.scenario3 Sample.u2_agent = {[10]}.
Proof.
  assert (H2 : one_active_agent_per_user (agents Sample.scenario3)).
  { apply check_unique_user_spec. vm_compute. reflexivity. }
  assert (H3 : In Sample.u2_row (agents Sample.scenario3)).
  { vm_compute. left. reflexivity. }
  split; [reflexivity|]. split; [exact H2|]. split; [exact H3|].
  split; [reflexivity|]. split; [reflexivity|].
  destruct (accessible_organisations_by_kind Sample.scenario3 Sample.u2_agent)
    as (_ & Hagent & _).
  rewrite (Hagent eq_refl Sample.u2_row H2 H3 eq_refl eq_refl).
  reflexivity.
Defined.

(** The claim of C6 fails in two places: a user with the elevated role and no
    active Agent row gets the organisations they are a member of, not the
    empty set; and an agent whose managed organisation is disabled gets the
    empty set, not that organisation. *)
Lemma accessible_organisations_counterexample :
  is_agent Sample.with_superuser (mkUser 4 role_superuser) = false
  ∧ get_user_accessible_organisations Sample.with_superuser (mkUser 4 role_superuser)
    = {[10]}
  ∧ get_managed_organisation Sample.manages_disabled Sample.u2_agent = Some 12
  ∧ get_user_accessible_organisations Sample.manages_disabled Sample.u2_agent = ∅.
Proof. repeat split; vm_compute; reflexivity. Qed.

(** ** [assign_agent] and partial application *)

(** C7, as the code has it.  [assign_agent] opens no transaction: every write
    is kept as it is made.  When the user, the organisation and [assigned_by]
    exist it returns, leaving exactly one active Agent row for the
    organisation and one for the user, whose role is 'superuser'.  When the
    INSERT of the new row raises (the organisation row does not exist), the
    exception reaches the caller and the writes made before it stay: the
    assignment the user held is inactive, stamped with revocation metadata,
    and no Agent row was added. *)
Theorem assign_agent_without_transaction
    (db : DB) (user : User) (organisation : nat) (assigned_by : option User) :
  consistent db →
  user_exists db (u_id user) = true →
  nullable_user_exists db (u_id <$> assigned_by) = true →
  let res := assign_agent user organisation assigned_by db in
  (organisation_exists db organisation = true →
     ∃ new_agent,
       outcome res = Ok new_agent
       ∧ In (fields new_agent) (agents (state_of res))
       ∧ a_is_active (fields new_agent) = true
       ∧ count_active_org organisation (agents (state_of res)) = 1
       ∧ count_active_user (u_id user) (agents (state_of res)) = 1
       ∧ users (state_of res) !! u_id user = Some role_superuser)
  ∧ (organisation_exists db organisation = false →
     outcome res = Raise (IntegrityError fk_organisation)
     ∧ length (agents (state_of res)) = length (agents db)
     ∧ count_active_user (u_id user) (agents (state_of res)) = 0
     ∧ ∀ a, In a (agents db) → by_user_active (u_id user) a = true →
            In (deactivated (clock db) assigned_by a) (agents (state_of res))).
Proof.
  intros Hc Hu Hby res. split.
  - intros Ho. unfold res.
    rewrite (assign_agent_spec db user organisation assigned_by Hc Hu Ho Hby).
    destruct (evicted_store_props db assigned_by Hc Hby organisation)
      as (Hc1 & Hu1 & Ho1 & Hn1).
    set (db1 := evicted_store assigned_by organisation db) in *.
    assert (Hby1 : nullable_user_exists db1 (u_id <$> assigned_by) = true).
    { by rewrite (nullable_user_exists_same db db1). }
    destruct (released_store_props db1 assigned_by Hc1 Hby1 (u_id user))
      as (Hc2 & Hu2 & Ho2 & Hn2 & Hle).
    unfold outcome, state_of, assigned_store. cbn [fst snd]. fold db1.
    set (db2 := released_store assigned_by (u_id user) db1) in *.
    eexists. split; [reflexivity|]. cbn [fields].
    split; [by left|]. split; [reflexivity|].
    split; [|split; [|apply users_created_store_self]].
    + unfold count_active_org, created_store.
      cbn [agents set_role set_users set_agent_seq set_agents tick set_clock List.filter].
      unfold by_org_active at 1. cbn [a_organisation_id a_is_active new_agent_row].
      rewrite Nat.eqb_refl. cbn [andb length].
      specialize (Hle organisation). unfold count_active_org in *. lia.
    + unfold count_active_user, created_store.
      cbn [agents set_role set_users set_agent_seq set_agents tick set_clock List.filter].
      unfold by_user_active at 1. cbn [a_user_id a_is_active new_agent_row].
      rewrite Nat.eqb_refl. cbn [andb length].
      unfold count_active_user in Hn2. lia.
  - intros Ho. unfold res.
    rewrite (assign_agent_without_organisation db user organisation assigned_by
               Hc Hu Hby Ho).
    unfold outcome, state_of. cbn [fst snd].
    destruct (released_store_props db assigned_by Hc Hby (u_id user))
      as (_ & _ & _ & Hn & _).
    split; [reflexivity|]. split; [apply length_released_store|].
    split; [exact Hn|]. intros a Ha Hp. by apply released_store_deactivates.
Qed.

Lemma assign_agent_without_transaction_witness :
  let res := assign_agent Sample.u2_agent 11 (Some Sample.admin) Sample.scenario2 in
  let res' := assign_agent Sample.u2_agent 99 (Some Sample.admin) Sample.scenario2 in
  consistent Sample.scenario2
  ∧ user_exists Sample.scenario2 (u_id Sample.u2_agent) = true
  ∧ nullable_user_exists Sample.scenario2 (u_id <$> Some Sample.admin) = true
  ∧ organisation_exists Sample.scenario2 11 = true
  ∧ organisation_exists Sample.scenario2 99 = false
  ∧ count_active_user 3 (agents (state_of res)) = 1
  ∧ outcome res' = Raise (IntegrityError fk_organisation)
  ∧ count_active_user 3 (agents (state_of res')) = 0.
Proof.
  intros res res'.
  assert (Hc : consistent Sample.scenario2).
  { apply consistentb_sound. vm_compute. reflexivity. }
  split; [exact Hc|]. do 4 (split; [reflexivity|]).
  destruct (assign_agent_without_transaction Sample.scenario2 Sample.u2_agent 11
              (Some Sample.admin) Hc eq_refl eq_refl) as [Hok _].
  destruct (Hok eq_refl) as (new_agent & _ & _ & _ & _ & Hcount & _).
  destruct (assign_agent_without_transaction Sample.scenario2 Sample.u2_agent 99
              (Some Sample.admin) Hc eq_refl eq_refl) as [_ Hfail].
  destruct (Hfail eq_refl) as (Hraise & _ & Hzero & _).
  split; [exact Hcount|]. split; [exact Hraise | exact Hzero].
Defined.

(** The claim of C7 fails: a call that raises part-way leaves its earlier
    writes in the store.  With an organisation whose row is gone, the INSERT
    raises after the user's assignment was deactivated and their role
    downgraded, and no new assignment exists.  With an [assigned_by] whose
    row is gone, the UPDATE of the user's row raises after the pre_save
    receiver stored the role 'user': the row is still active, the role says
    otherwise. *)
Lemma assign_agent_without_transaction_counterexample :
  is_agent Sample.scenario2 Sample.u2_agent = true
  ∧ users Sample.scenario2 !! 3 = Some role_superuser
  ∧ (let res := assign_agent Sample.u2_agent 99 (Some Sample.admin) Sample.scenario2 in
     outcome res = Raise (IntegrityError fk_organisation)
     ∧ get_agent_for_user (state_of res) Sample.u2_agent = None
     ∧ get_agent_for_organisation (state_of res) 99 = None
     ∧ users (state_of res) !! 3 = Some role_user)
  ∧ (let res := assign_agent Sample.u2_agent 11 (Some (mkUser 99 role_superadmin))
                  Sample.scenario2 in
     outcome res = Raise (IntegrityError fk_revoked_by)
     ∧ get_agent_for_user (state_of res) Sample.u2_agent = Some Sample.u2_row
     ∧ get_agent_for_organisation (state_of res) 11 = None
     ∧ users (state_of res) !! 3 = Some role_user).
Proof. repeat split; vm_compute; reflexivity. Qed.

(** ** Revoking twice *)



(** ** The keyed gates without a key *)

(** C9, as the code has it.  When the view carries no permission key, the
    organisation-scoped keyed gate ([HasOrganisationPermission], object
    check) allows a user who is not a superadmin exactly when that user can
    access the organisation resolved from the object, and denies when none
    can be resolved; the keyed gate without organisation context
    ([HasPermissionKey]) allows every authenticated user. *)
Theorem keyed_gate_without_key (db : DB) (user : User) (view : View) :
  is_superadmin user = false →
  key_of view = None →
  (∀ obj org, resolve_organisation obj = Some (Some org) →
     HasOrganisationPermission_has_object_permission db user view obj
     = Ok (can_user_access_organisation db user org))
  ∧ (∀ obj, resolve_organisation obj = None →
       HasOrganisationPermission_has_object_permission db user view obj = Ok false)
  ∧ HasPermissionKey_has_permission db (AuthUser user) view = Ok true.
Proof.
  intros Hs Hk. repeat split.
  - intros obj org Hobj. unfold HasOrganisationPermission_has_object_permission.
    rewrite Hs, Hobj, Hk. apply can_user_access_organisation_obj_Some.
  - intros obj Hobj. unfold HasOrganisationPermission_has_object_permission.
    by rewrite Hs, Hobj.
  - unfold HasPermissionKey_has_permission. by rewrite Hs, Hk.
Qed.

Lemma keyed_gate_without_key_witness :
  is_superadmin Sample.u2 = false
  ∧ key_of (mkView None) = None
  ∧ HasOrganisationPermission_has_object_permission
      Sample.scenario1 Sample.u2 (mkView None) (ObjOrganisation 10) = Ok false
  ∧ HasPermissionKey_has_permission Sample.scenario1 (AuthUser Sample.u2) (mkView None)
    = Ok true.
Proof.
  split; [reflexivity|]. split; [reflexivity|].
  destruct (keyed_gate_without_key Sample.scenario1 Sample.u2 (mkView None)
              eq_refl eq_refl) as (Hobj & _ & Hview).
  split; [|exact Hview].
  rewrite (Hobj (ObjOrganisation 10) 10 eq_refl). vm_compute. reflexivity.
Defined.

(** The claim of C9 fails for [HasPermissionKey]: with no key on the view, a
    user who is not a superadmin and who can access no organisation at all is
    allowed. *)
Lemma keyed_gate_without_key_counterexample :
  is_superadmin Sample.u2 = false
  ∧ get_user_accessible_organisations Sample.scenario1 Sample.u2 = ∅
  ∧ HasPermissionKey_has_permission Sample.scenario1 (AuthUser Sample.u2) (mkView None)
    = Ok true.
Proof. split; [reflexivity|]. split; [|reflexivity]. vm_compute. reflexivity. Qed.

(** ** Gates on objects without an organisation *)



(* ===================================================================== *)
(** * Further properties: the grants of an agent *)
(* ===================================================================== *)

Lemma same_grant_eq agent_pk permission_id g :
  same_grant agent_pk permission_id g = true ↔ g = (agent_pk, permission_id).
Proof.
  unfold same_grant. destruct g as [x y]. simpl. rewrite andb_true_iff, !Nat.eqb_eq.
  split; [intros [-> ->]; done | intros [= -> ->]; done].
Qed.

Lemma same_grant_refl agent_pk permission_id :
  same_grant agent_pk permission_id (agent_pk, permission_id) = true.
Proof. by apply same_grant_eq. Qed.

Lemma granted_same_grant tbl holder p :
  granted tbl holder p = existsb (same_grant holder (p_id p)) tbl.
Proof. reflexivity. Qed.

Lemma existsb_filter_out {A} (f : A → bool) (l : list A) :
  existsb f (List.filter (λ x, negb (f x)) l) = false.
Proof.
  induction l as [|x l IH]; simpl; [done|].
  destruct (f x) eqn:E; simpl; [done|]. by rewrite E.
Qed.

Lemma Permission_get_Ok db key p :
  Permission_get db key = GOk p →
  List.filter (λ q, bool_decide (p_key q = key)) (permissions db) = [p]
  ∧ In p (permissions db) ∧ p_key p = key.
Proof.
  unfold Permission_get. intros H.
  destruct (List.filter _ (permissions db)) as [|q [|q' l]] eqn:E; try done.
  injection H as ->. split; [done|].
  destruct (In_filter_head _ _ _ _ E) as [Hin Hk]. split; [done|].
  by apply bool_decide_eq_true in Hk.
Qed.

(** What [get_or_create] does, case by case. *)
Lemma get_or_create_cases agent permission granted_by db db1 g created :
  AgentPermissions_get_or_create agent permission granted_by db = (db1, GOk (g, created)) →
  g = (a_pk agent, p_id permission)
  ∧ ((created = false ∧ db1 = db
      ∧ List.filter (same_grant (a_pk agent) (p_id permission)) (agent_permissions db) = [g])
     ∨ (created = true
        ∧ db1 = set_agent_permissions (cons g) (tick db)
        ∧ List.filter (same_grant (a_pk agent) (p_id permission)) (agent_permissions db) = []
        ∧ agent_exists db (a_pk agent) = true
        ∧ permission_exists db (p_id permission) = true
        ∧ nullable_user_exists db (u_id <$> granted_by) = true)).
Proof.
  unfold AgentPermissions_get_or_create, AgentPermissions_create.
  destruct (List.filter _ (agent_permissions db)) as [|g0 [|g1 l]] eqn:E; [| |done].
  - change (agent_exists (tick db) (a_pk agent)) with (agent_exists db (a_pk agent)).
    change (permission_exists (tick db) (p_id permission))
      with (permission_exists db (p_id permission)).
    change (nullable_user_exists (tick db) (u_id <$> granted_by))
      with (nullable_user_exists db (u_id <$> granted_by)).
    destruct (agent_exists db (a_pk agent)); simpl; [|done].
    destruct (permission_exists db (p_id permission)); simpl; [|done].
    destruct (nullable_user_exists db (u_id <$> granted_by)); simpl; [|done].
    intros [= <- <- <-]. split; [done|]. right. done.
  - intros [= <- <- <-]. destruct (In_filter_head _ _ _ _ E) as [_ Hg].
    apply same_grant_eq in Hg. split; [done|]. left. done.
Qed.

Lemma grant_permission_cases agent permission granted_by db db1 g :
  grant_permission agent permission granted_by db = (db1, GOk g) →
  ∃ p created,
    resolve_permission db permission = GOk p
    ∧ AgentPermissions_get_or_create agent p granted_by db = (db1, GOk (g, created)).
Proof.
  unfold grant_permission. destruct (resolve_permission db permission) as [p|e]; [|done].
  destruct (AgentPermissions_get_or_create agent p granted_by db) as [db' [[g' c]|e]] eqn:E;
    [|done].
  intros [= <- <-]. by exists p, c.
Qed.

Lemma get_or_create_frame agent permission granted_by db db1 g created :
  AgentPermissions_get_or_create agent permission granted_by db = (db1, GOk (g, created)) →
  users db1 = users db ∧ organisations db1 = organisations db
  ∧ permissions db1 = permissions db ∧ agents db1 = agents db
  ∧ user_permission_access db1 = user_permission_access db
  ∧ user_organisations db1 = user_organisations db
  ∧ agent_seq db1 = agent_seq db
  ∧ List.filter (same_grant (a_pk agent) (p_id permission)) (agent_permissions db1) = [g]
  ∧ (∀ g', g' ≠ g → In g' (agent_permissions db1) ↔ In g' (agent_permissions db)).
Proof.
  intros H. destruct (get_or_create_cases _ _ _ _ _ _ _ H)
    as [Hg [(-> & -> & Hf)|(-> & -> & Hf & _)]].
  - done.
  - repeat (split; [done|]). split.
    + cbn [agent_permissions set_agent_permissions tick set_clock]. simpl.
      rewrite Hg at 1. rewrite same_grant_refl. by rewrite Hf.
    + intros g' Hne. cbn [agent_permissions set_agent_permissions tick set_clock]. simpl.
      split; [intros [?|?]; [congruence|done] | by right].
Qed.

(** X1.  [AgentPermissions.grant_permission] is idempotent: once a call
    has returned a row, a repeated call for the same agent and permission
    (whoever grants) returns that same row and writes nothing, and the table
    holds the pair exactly once. *)
Theorem grant_permission_idempotent
    (db db1 : DB) (agent : Agent) (permission : PermissionArg)
    (granted_by granted_by' : option User) (g : nat * nat) :
  grant_permission agent permission granted_by db = (db1, GOk g) →
  grant_permission agent permission granted_by' db1 = (db1, GOk g)
  ∧ List.filter (same_grant (fst g) (snd g)) (agent_permissions db1) = [g].
Proof.
  intros H. destruct (grant_permission_cases _ _ _ _ _ _ H) as (p & c & Hp & Hg).
  destruct (get_or_create_frame _ _ _ _ _ _ _ Hg) as (_ & _ & Hperm & _ & _ & _ & _ & Hf & _).
  destruct (get_or_create_cases _ _ _ _ _ _ _ Hg) as [-> _]. simpl. split; [|done].
  unfold grant_permission.
  assert (resolve_permission db1 permission = GOk p) as ->.
  { destruct permission; [done|]. simpl in *. unfold Permission_get in *. by rewrite Hperm. }
  unfold AgentPermissions_get_or_create. by rewrite Hf.
Qed.

Lemma grant_permission_idempotent_witness :
  let a := Sample.u2_row in
  let res := grant_permission a (PermissionKey "view_contacts") (Some Sample.admin)
               Sample.scenario3 in
  res = (set_agent_permissions (cons (2, 2)) (tick Sample.scenario3), GOk (2, 2))
  ∧ grant_permission a (PermissionKey "view_contacts") None (fst res) = (fst res, GOk (2, 2)).
Proof.
  split; [vm_compute; reflexivity|].
  apply (grant_permission_idempotent Sample.scenario3 _ Sample.u2_row
           (PermissionKey "view_contacts") (Some Sample.admin) None (2, 2)).
  vm_compute; reflexivity.
Defined.

Lemma existsb_ext_in {A} (f g : A → bool) (l : list A) :
  (∀ x, In x l → f x = g x) → existsb f l = existsb g l.
Proof.
  induction l as [|x l IH]; simpl; [done|]. intros H.
  rewrite (H x) by auto. f_equal. apply IH. auto.
Qed.

(** The check on the managed organisation, for an active agent who is not a
    superadmin. *)
Lemma check_managed db user a key :
  is_superadmin user = false →
  one_active_agent_per_user (agents db) →
  In a (agents db) → a_is_active a = true → a_user_id a = u_id user →
  check_user_permission db user key (Some (a_organisation_id a))
  = Ok (qs_exists db (qs_filter_key key
          (qs_or (get_direct_permissions db user)
                 (granted (agent_permissions db) (a_pk a)))))
  ∧ has_permission db user key
    = Ok (qs_exists db (qs_filter_key key
            (qs_or (get_direct_permissions db user)
                   (granted (agent_permissions db) (a_pk a))))).
Proof.
  intros Hs Huniq Ha Hact Huser.
  pose proof (active_agent_is_agent db user a Ha Hact Huser) as Hag.
  pose proof (active_agent_managed db user a Huniq Ha Hact Huser) as Hm.
  pose proof (active_agent_all_permissions db user a Huniq Ha Hact Huser) as Hall.
  unfold check_user_permission. rewrite Hs, Hag, Hm, Nat.eqb_refl.
  unfold has_permission. by rewrite Hs, Hall.
Qed.

(** The check for a user without an active Agent row, whatever the
    organisation. *)
Lemma check_not_agent db user key organisation :
  is_superadmin user = false → is_agent db user = false →
  check_user_permission db user key organisation
  = Ok (qs_exists db (qs_filter_key key (get_direct_permissions db user)))
  ∧ has_permission db user key
    = Ok (qs_exists db (qs_filter_key key (get_direct_permissions db user))).
Proof.
  intros Hs Hag.
  assert (has_permission db user key
          = Ok (qs_exists db (qs_filter_key key (get_direct_permissions db user)))) as Hp.
  { unfold has_permission, get_all_permissions, get_agent_permissions.
    rewrite Hs, Hag. simpl. f_equal. unfold qs_exists, qs_filter_key, qs_or, qs_none.
    apply existsb_ext_in. intros p _. by rewrite orb_false_r. }
  split; [|done]. unfold check_user_permission. rewrite Hs, Hag.
  by destruct organisation.
Qed.

(** X2.  A grant by key takes effect where the agent manages: after
    [grant_permission(agent, key)] has returned for the active Agent row of a
    user, [check_user_permission] for that key and the managed organisation
    returns True, and so does [has_permission]; for any other organisation it
    still returns False unless the user is a superadmin. *)
Theorem granted_permission_is_effective
    (db db1 : DB) (user : User) (a : Agent) (key : string)
    (granted_by : option User) (g : nat * nat) :
  one_active_agent_per_user (agents db) →
  In a (agents db) → a_is_active a = true → a_user_id a = u_id user →
  grant_permission a (PermissionKey key) granted_by db = (db1, GOk g) →
  check_user_permission db1 user key (Some (a_organisation_id a)) = Ok true
  ∧ has_permission db1 user key = Ok true
  ∧ (is_superadmin user = false →
     ∀ O', O' ≠ a_organisation_id a →
           check_user_permission db1 user key (Some O') = Ok false).
Proof.
  intros Huniq Ha Hact Huser H.
  destruct (grant_permission_cases _ _ _ _ _ _ H) as (p & c & Hp & Hg).
  destruct (get_or_create_frame _ _ _ _ _ _ _ Hg)
    as (_ & _ & Hperm & Hagents & _ & _ & _ & Hf & _).
  simpl in Hp. destruct (Permission_get_Ok _ _ _ Hp) as (_ & Hin & Hkey).
  rewrite <- Hagents in Huniq, Ha.
  destruct (is_superadmin user) eqn:Hs.
  - unfold check_user_permission, has_permission. rewrite Hs. done.
  - destruct (check_managed db1 user a key Hs Huniq Ha Hact Huser) as [-> ->].
    assert (qs_exists db1 (qs_filter_key key
              (qs_or (get_direct_permissions db1 user)
                     (granted (agent_permissions db1) (a_pk a)))) = true) as ->.
    { apply qs_exists_key. exists p. split; [|done].
      apply filter_In. rewrite Hperm. split; [done|].
      unfold qs_or. rewrite granted_same_grant.
      assert (existsb (same_grant (a_pk a) (p_id p)) (agent_permissions db1) = true) as ->;
        [|apply orb_true_r].
      apply existsb_exists. exists g.
      apply filter_In. rewrite Hf. by left. }
    split; [done|]. split; [done|]. intros _ O' Hne.
    unfold check_user_permission. rewrite Hs.
    rewrite (active_agent_is_agent db1 user a Ha Hact Huser).
    rewrite (active_agent_managed db1 user a Huniq Ha Hact Huser).
    destruct (a_organisation_id a =? O') eqn:E; [|done].
    apply Nat.eqb_eq in E. congruence.
Qed.

Lemma granted_permission_is_effective_witness :
  let db1 := set_agent_permissions (cons (2, 2)) (tick Sample.scenario3) in
  one_active_agent_per_user (agents Sample.scenario3)
  ∧ In Sample.u2_row (agents Sample.scenario3)
  ∧ grant_permission Sample.u2_row (PermissionKey "view_contacts") None Sample.scenario3
    = (db1, GOk (2, 2))
  ∧ check_user_permission db1 Sample.u2_agent "view_contacts" (Some 10) = Ok true
  ∧ check_user_permission db1 Sample.u2_agent "view_contacts" (Some 11) = Ok false.
Proof.
  assert (Hu : one_active_agent_per_user (agents Sample.scenario3)).
  { apply check_unique_user_spec. vm_compute. reflexivity. }
  assert (Hin : In Sample.u2_row (agents Sample.scenario3)).
  { vm_compute. left. reflexivity. }
  split; [exact Hu|]. split; [exact Hin|]. split; [vm_compute; reflexivity|].
  destruct (granted_permission_is_effective Sample.scenario3
              (set_agent_permissions (cons (2, 2)) (tick Sample.scenario3))
              Sample.u2_agent Sample.u2_row "view_contacts" None (2, 2) Hu Hin)
    as (H1 & _ & H3); [reflexivity | reflexivity | vm_compute; reflexivity |].
  split; [exact H1|]. apply H3; [reflexivity | simpl; lia].
Defined.

(** X3.  [AgentPermissions.revoke_permission] by key removes the grant and
    nothing else: afterwards the agent's own permissions hold no permission
    with that key, every other row of the table is as before, and for a
    non-superadmin agent the check of that key on the managed organisation is
    decided by the user's direct grants alone. *)
Theorem revoked_permission_is_gone
    (db db1 : DB) (user : User) (a : Agent) (key : string) :
  is_superadmin user = false →
  one_active_agent_per_user (agents db) →
  In a (agents db) → a_is_active a = true → a_user_id a = u_id user →
  revoke_permission a (PermissionKey key) db = (db1, GOk tt) →
  (∀ p, In p (permissions db1) → p_key p = key → Agent_get_permissions db1 a p = false)
  ∧ (∃ p, Permission_get db key = GOk p
          ∧ ∀ g, In g (agent_permissions db1)
                 ↔ In g (agent_permissions db) ∧ g ≠ (a_pk a, p_id p))
  ∧ check_user_permission db1 user key (Some (a_organisation_id a))
    = Ok (qs_exists db (qs_filter_key key (get_direct_permissions db user))).
Proof.
  intros Hs Huniq Ha Hact Huser H. unfold revoke_permission in H. simpl in H.
  destruct (Permission_get db key) as [p|e] eqn:Hp; [|done].
  injection H as <-.
  destruct (Permission_get_Ok _ _ _ Hp) as (Hfilter & Hin & Hkey).
  set (db1 := set_agent_permissions _ db).
  assert (Hone : ∀ q, In q (permissions db) → p_key q = key → q = p).
  { intros q Hq Hk.
    assert (In q (List.filter (λ q, bool_decide (p_key q = key)) (permissions db))) as Hq'.
    { apply filter_In. split; [done|]. by apply bool_decide_eq_true. }
    rewrite Hfilter in Hq'. destruct Hq' as [->|[]]. done. }
  assert (Hgone : ∀ q, In q (permissions db) → p_key q = key →
                       granted (agent_permissions db1) (a_pk a) q = false).
  { intros q Hq Hk. rewrite (Hone q Hq Hk). rewrite granted_same_grant.
    apply (existsb_filter_out (same_grant (a_pk a) (p_id p))). }
  split; [exact Hgone|]. split.
  - exists p. split; [done|]. intros g. unfold db1. cbn [agent_permissions set_agent_permissions].
    rewrite filter_In. apply and_iff_compat_l.
    rewrite negb_true_iff. rewrite <- not_true_iff_false. by rewrite same_grant_eq.
  - destruct (check_managed db1 user a key Hs Huniq Ha Hact Huser) as [-> _].
    f_equal. unfold qs_exists, qs_filter_key, qs_or.
    apply existsb_ext_in. intros q Hq.
    destruct (bool_decide (p_key q = key)) eqn:Hk; [|by rewrite !andb_false_r].
    apply bool_decide_eq_true in Hk. rewrite (Hgone q Hq Hk). by rewrite orb_false_r.
Qed.

Lemma revoked_permission_is_gone_witness :
  let db1 := set_agent_permissions (λ _, []) Sample.scenario3 in
  is_superadmin Sample.u2_agent = false
  ∧ one_active_agent_per_user (agents Sample.scenario3)
  ∧ In Sample.u2_row (agents Sample.scenario3)
  ∧ check_user_permission Sample.scenario3 Sample.u2_agent "view_reports" (Some 10) = Ok true
  ∧ revoke_permission Sample.u2_row (PermissionKey "view_reports") Sample.scenario3
    = (db1, GOk tt)
  ∧ check_user_permission db1 Sample.u2_agent "view_reports" (Some 10) = Ok false.
Proof.
  assert (Hu : one_active_agent_per_user (agents Sample.scenario3)).
  { apply check_unique_user_spec. vm_compute. reflexivity. }
  assert (Hin : In Sample.u2_row (agents Sample.scenario3)).
  { vm_compute. left. reflexivity. }
  split; [reflexivity|]. split; [exact Hu|]. split; [exact Hin|].
  split; [vm_compute; reflexivity|]. split; [vm_compute; reflexivity|].
  destruct (revoked_permission_is_gone Sample.scenario3
              (set_agent_permissions (λ _, []) Sample.scenario3)
              Sample.u2_agent Sample.u2_row "view_reports" eq_refl Hu Hin)
    as (_ & _ & H3); [reflexivity | reflexivity | vm_compute; reflexivity |].
  etransitivity; [exact H3|]. vm_compute. reflexivity.
Defined.

Lemma filter_negb_all {A} (f : A → bool) (l : list A) :
  List.filter f l = [] → List.filter (λ x, negb (f x)) l = l.
Proof.
  induction l as [|x l IH]; simpl; [done|].
  destruct (f x); simpl; [done|]. intros H. f_equal. by apply IH.
Qed.

(** X4.  Granting and then revoking is a round trip on the table: after
    [grant_permission] has returned, [revoke_permission] for the same agent
    and permission returns and leaves exactly the rows the table had before
    that do not hold the pair; when the pair was not granted before, the store
    is the original one but for the clock that stamped [granted_at]. *)
Theorem grant_then_revoke
    (db db1 : DB) (agent : Agent) (permission : PermissionArg)
    (granted_by : option User) (g : nat * nat) :
  grant_permission agent permission granted_by db = (db1, GOk g) →
  ∃ db2,
    revoke_permission agent permission db1 = (db2, GOk tt)
    ∧ agent_permissions db2
      = List.filter (λ g', negb (same_grant (fst g) (snd g) g')) (agent_permissions db)
    ∧ (¬ In g (agent_permissions db) → db2 = tick db).
Proof.
  intros H. destruct (grant_permission_cases _ _ _ _ _ _ H) as (p & c & Hp & Hg).
  destruct (get_or_create_frame _ _ _ _ _ _ _ Hg) as (_ & _ & Hperm & _).
  assert (resolve_permission db1 permission = GOk p) as Hp1.
  { destruct permission; [done|]. simpl in *. unfold Permission_get in *. by rewrite Hperm. }
  unfold revoke_permission. rewrite Hp1. eexists. split; [reflexivity|].
  destruct (get_or_create_cases _ _ _ _ _ _ _ Hg)
    as [Hgp [(-> & -> & Hf)|(-> & -> & Hf & _)]]; subst g;
    cbn [fst snd agent_permissions set_agent_permissions tick set_clock].
  - split; [done|]. intros Hnot. exfalso. apply Hnot.
    eapply proj1. apply filter_In. rewrite Hf. by left.
  - cbn [List.filter]. rewrite same_grant_refl. cbn [negb]. split; [done|]. intros _.
    unfold set_agent_permissions, tick, set_clock.
    cbn [users organisations user_organisations permissions user_permission_access
         agents agent_permissions agent_seq clock List.filter].
    rewrite same_grant_refl. cbn [negb].
    by rewrite (filter_negb_all _ _ Hf).
Qed.

Lemma grant_then_revoke_witness :
  let granted := set_agent_permissions (cons (2, 2)) (tick Sample.scenario3) in
  grant_permission Sample.u2_row (PermissionKey "view_contacts") None Sample.scenario3
  = (granted, GOk (2, 2))
  ∧ ¬ In (2, 2) (agent_permissions Sample.scenario3)
  ∧ revoke_permission Sample.u2_row (PermissionKey "view_contacts") granted
    = (tick Sample.scenario3, GOk tt).
Proof.
  assert (H : grant_permission Sample.u2_row (PermissionKey "view_contacts") None
                Sample.scenario3
              = (set_agent_permissions (cons (2, 2)) (tick Sample.scenario3), GOk (2, 2))).
  { vm_compute. reflexivity. }
  assert (Hn : ¬ In (2, 2) (agent_permissions Sample.scenario3)).
  { vm_compute. intros [[=]|[]]. }
  split; [exact H|]. split; [exact Hn|].
  destruct (grant_then_revoke _ _ _ _ _ _ H) as (db2 & Hr & _ & Hback).
  rewrite Hr. by rewrite (Hback Hn).
Defined.

(** ** What assigning and revoking leave of the permission tables *)

Lemma deactivate_row_frame now by_ a db :
  permissions (deactivate_row now by_ a db) = permissions db
  ∧ user_permission_access (deactivate_row now by_ a db) = user_permission_access db
  ∧ agent_permissions (deactivate_row now by_ a db) = agent_permissions db
  ∧ agent_seq (deactivate_row now by_ a db) = agent_seq db.
Proof. unfold deactivate_row. by destruct (downgrades db a). Qed.

Lemma revoked_store_frame by_ a db :
  permissions (revoked_store by_ a db) = permissions db
  ∧ user_permission_access (revoked_store by_ a db) = user_permission_access db
  ∧ agent_permissions (revoked_store by_ a db) = agent_permissions db
  ∧ agent_seq (revoked_store by_ a db) = agent_seq db.
Proof.
  unfold revoked_store.
  destruct (deactivate_row_frame (clock db) by_ a (tick db)) as (H1 & H2 & H3 & H4).
  by destruct (users _ !! _).
Qed.

Lemma evicted_store_frame by_ organisation db :
  permissions (evicted_store by_ organisation db) = permissions db
  ∧ user_permission_access (evicted_store by_ organisation db) = user_permission_access db
  ∧ agent_permissions (evicted_store by_ organisation db) = agent_permissions db
  ∧ agent_seq (evicted_store by_ organisation db) = agent_seq db.
Proof.
  unfold evicted_store. destruct (Agent_filter _ db); [done|]. apply revoked_store_frame.
Qed.

Lemma released_store_frame by_ uid db :
  permissions (released_store by_ uid db) = permissions db
  ∧ user_permission_access (released_store by_ uid db) = user_permission_access db
  ∧ agent_permissions (released_store by_ uid db) = agent_permissions db
  ∧ agent_seq (released_store by_ uid db) = agent_seq db.
Proof.
  unfold released_store. destruct (Agent_filter _ db); [done|].
  apply (deactivate_row_frame (clock db) by_ a (tick db)).
Qed.

Lemma assigned_store_frame user organisation by_ db :
  permissions (assigned_store user organisation by_ db) = permissions db
  ∧ user_permission_access (assigned_store user organisation by_ db)
    = user_permission_access db
  ∧ agent_permissions (assigned_store user organisation by_ db) = agent_permissions db
  ∧ agent_seq (assigned_store user organisation by_ db) = S (agent_seq db).
Proof.
  unfold assigned_store, created_store.
  destruct (evicted_store_frame by_ organisation db) as (E1 & E2 & E3 & E4).
  destruct (released_store_frame by_ (u_id user) (evicted_store by_ organisation db))
    as (R1 & R2 & R3 & R4).
  cbn [permissions user_permission_access agent_permissions agent_seq
       set_role set_users set_agent_seq set_agents tick set_clock].
  rewrite R1, R2, R3, R4, E1, E2, E3, E4. done.
Qed.

Lemma agents_assigned_store user organisation by_ db :
  agents (assigned_store user organisation by_ db)
  = new_agent_row user organisation by_
      (released_store by_ (u_id user) (evicted_store by_ organisation db))
    :: agents (released_store by_ (u_id user) (evicted_store by_ organisation db)).
Proof. reflexivity. Qed.

Lemma uniqueness_assigned_store user organisation by_ db :
  consistent db →
  user_exists db (u_id user) = true →
  organisation_exists db organisation = true →
  nullable_user_exists db (u_id <$> by_) = true →
  uniqueness (assigned_store user organisation by_ db).
Proof.
  intros Hc Hu Ho Hby.
  pose proof (preserves_uniqueness_assign_agent user organisation by_ db (c_unique _ Hc)) as H.
  by rewrite (assign_agent_spec db user organisation by_ Hc Hu Ho Hby) in H.
Qed.

(** No grant refers to a primary key that has not been handed out. *)
Lemma granted_beyond_seq db pk p :
  consistent db → grants_reference_agents db → agent_seq db < pk →
  granted (agent_permissions db) pk p = false.
Proof.
  intros Hc Hg Hlt. rewrite granted_same_grant.
  apply not_true_iff_false. intros (g & Hin & Hsame)%existsb_exists.
  apply same_grant_eq in Hsame. subst g.
  specialize (Hg _ Hin). simpl in Hg. unfold agent_exists in Hg.
  apply existsb_exists in Hg as (r & Hr & Hpk). unfold has_pk in Hpk.
  apply Nat.eqb_eq in Hpk. destruct (c_pk_seq _ Hc r Hr). lia.
Qed.

Lemma active_agent_permissions db user a :
  one_active_agent_per_user (agents db) →
  In a (agents db) → a_is_active a = true → a_user_id a = u_id user →
  get_agent_permissions db user = Ok (granted (agent_permissions db) (a_pk a)).
Proof.
  intros Huniq Ha Hact Huser. unfold get_agent_permissions, Agent_get_active_for.
  by rewrite (active_agent_is_agent db user a Ha Hact Huser),
             (active_agent_rows db user a Huniq Ha Hact Huser).
Qed.

Lemma grants_reference_agentsb_sound db :
  grants_reference_agentsb db = true → grants_reference_agents db.
Proof. unfold grants_reference_agentsb. rewrite forallb_forall. auto. Qed.

(** X5.  Grants do not follow the organisation.  When [assign_agent]
    returns, the AgentPermissions table is untouched and the new Agent row
    holds no grant, whatever the previous agent of the organisation or a
    previous row of the same user was granted: [get_agent_permissions] of the
    new agent is empty and [has_permission] is decided by the user's direct
    grants alone. *)
Theorem new_agent_starts_without_permissions
    (db : DB) (user : User) (organisation : nat) (assigned_by : option User) :
  consistent db → grants_reference_agents db →
  user_exists db (u_id user) = true →
  organisation_exists db organisation = true →
  nullable_user_exists db (u_id <$> assigned_by) = true →
  let res := assign_agent user organisation assigned_by db in
  let user' := with_role role_superuser user in
  ∃ new_agent agent_perms,
    outcome res = Ok new_agent
    ∧ agent_permissions (state_of res) = agent_permissions db
    ∧ (∀ p, Agent_get_permissions (state_of res) (fields new_agent) p = false)
    ∧ get_agent_permissions (state_of res) user' = Ok agent_perms
    ∧ (∀ p, agent_perms p = false)
    ∧ (∀ key, has_permission (state_of res) user' key
              = Ok (qs_exists db (qs_filter_key key (get_direct_permissions db user)))).
Proof.
  intros Hc Hg Hu Ho Hby res user'. unfold res.
  rewrite (assign_agent_spec db user organisation assigned_by Hc Hu Ho Hby).
  unfold outcome, state_of. cbn [fst snd].
  set (db0 := released_store assigned_by (u_id user)
                (evicted_store assigned_by organisation db)).
  set (row := new_agent_row user organisation assigned_by db0).
  set (db' := assigned_store user organisation assigned_by db).
  destruct (assigned_store_frame user organisation assigned_by db) as (F1 & F2 & F3 & F4).
  fold db' in F1, F2, F3, F4.
  destruct (evicted_store_frame assigned_by organisation db) as (_ & _ & _ & E4).
  destruct (released_store_frame assigned_by (u_id user)
              (evicted_store assigned_by organisation db)) as (_ & _ & _ & R4).
  assert (Hpk : a_pk row = S (agent_seq db)).
  { unfold row, new_agent_row. cbn [a_pk]. unfold db0. by rewrite R4, E4. }
  assert (Hnone : ∀ p, granted (agent_permissions db') (a_pk row) p = false).
  { intros p. rewrite F3, Hpk. apply granted_beyond_seq; [done | done | lia]. }
  pose proof (uniqueness_assigned_store user organisation assigned_by db Hc Hu Ho Hby)
    as [_ Huniq]. fold db' in Huniq.
  assert (Hin : In row (agents db')) by (by left).
  exists (mkInst row (Some user')), (granted (agent_permissions db') (a_pk row)).
  split; [done|]. split; [done|]. split; [exact Hnone|].
  split; [by apply (active_agent_permissions db' user' row)|].
  split; [exact Hnone|]. intros key.
  destruct (check_managed db' user' row key eq_refl Huniq Hin eq_refl eq_refl) as [_ ->].
  f_equal. unfold qs_exists, qs_filter_key, qs_or, get_direct_permissions.
  rewrite F1, F2. apply existsb_ext_in. intros p _.
  rewrite (Hnone p). by rewrite orb_false_r.
Qed.

Lemma new_agent_starts_without_permissions_witness :
  let res := assign_agent Sample.u1 10 (Some Sample.admin) Sample.scenario3 in
  consistent Sample.scenario3
  ∧ grants_reference_agents Sample.scenario3
  ∧ check_user_permission Sample.scenario3 Sample.u2_agent "view_reports" (Some 10) = Ok true
  ∧ agent_permissions (state_of res) = [(2, 1)]
  ∧ has_permission (state_of res) (mkUser 2 role_superuser) "view_reports" = Ok false.
Proof.
  assert (Hc : consistent Sample.scenario3) by (apply consistentb_sound; vm_compute; reflexivity).
  assert (Hg : grants_reference_agents Sample.scenario3)
    by (apply grants_reference_agentsb_sound; vm_compute; reflexivity).
  split; [exact Hc|]. split; [exact Hg|]. split; [vm_compute; reflexivity|].
  destruct (new_agent_starts_without_permissions Sample.scenario3 Sample.u1 10
              (Some Sample.admin) Hc Hg)
    as (new_agent & q & _ & Htbl & _ & _ & _ & Hhas);
    [vm_compute; reflexivity | vm_compute; reflexivity | vm_compute; reflexivity |].
  split; [exact Htbl|].
  etransitivity; [apply Hhas|]. vm_compute. reflexivity.
Defined.

(** Revoking the one active row of a user leaves them no active row. *)
Lemma is_agent_revoked_store db a by_ user :
  consistent db → In a (agents db) → a_is_active a = true →
  u_id user = a_user_id a →
  is_agent (revoked_store by_ a db) user = false.
Proof.
  intros Hc Ha Hact Hu. unfold is_agent. rewrite agents_revoked_store.
  rewrite existsb_replace_deactivated by apply by_user_active_inactive.
  rewrite Hu. apply (only_active_row db a); [apply (c_unique _ Hc) | done | done].
Qed.

(** X6.  Revoking an agent deletes none of their grants, yet none stays in
    force: after [revoke_agent] on the active row of a user who is not a
    superadmin, the AgentPermissions table is as before, the user holds no
    active Agent row, [get_agent_permissions] is empty, and
    [check_user_permission] is decided, for every organisation, by the direct
    grants alone. *)
Theorem revoked_agent_permissions_lapse
    (db : DB) (a : Agent) (revoked_by : option User) (user : User) (key : string) :
  consistent db → In a (agents db) → a_is_active a = true →
  nullable_user_exists db (u_id <$> revoked_by) = true →
  u_id user = a_user_id a → is_superadmin user = false →
  let res := revoke_agent (a_pk a) revoked_by db in
  agent_permissions (state_of res) = agent_permissions db
  ∧ is_agent (state_of res) user = false
  ∧ get_agent_permissions (state_of res) user = Ok qs_none
  ∧ ∀ organisation,
      check_user_permission (state_of res) user key organisation
      = Ok (qs_exists db (qs_filter_key key (get_direct_permissions db user))).
Proof.
  intros Hc Ha Hact Hby Hu Hs res. unfold res.
  destruct (revoke_agent_spec db a revoked_by Hc Ha Hby) as (u & -> & _).
  unfold state_of. cbn [fst].
  destruct (revoked_store_frame revoked_by a db) as (F1 & F2 & F3 & _).
  pose proof (is_agent_revoked_store db a revoked_by user Hc Ha Hact Hu) as Hag.
  split; [done|]. split; [done|]. split.
  { unfold get_agent_permissions. by rewrite Hag. }
  intros organisation.
  destruct (check_not_agent (revoked_store revoked_by a db) user key organisation Hs Hag)
    as [-> _].
  unfold qs_exists, qs_filter_key, get_direct_permissions. by rewrite F1, F2.
Qed.

Lemma revoked_agent_permissions_lapse_witness :
  let res := revoke_agent 2 None Sample.scenario3 in
  consistent Sample.scenario3
  ∧ In Sample.u2_row (agents Sample.scenario3)
  ∧ check_user_permission Sample.scenario3 Sample.u2_agent "view_reports" (Some 10) = Ok true
  ∧ agent_permissions (state_of res) = [(2, 1)]
  ∧ check_user_permission (state_of res) Sample.u2_agent "view_reports" (Some 10) = Ok false.
Proof.
  assert (Hc : consistent Sample.scenario3) by (apply consistentb_sound; vm_compute; reflexivity).
  assert (Hin : In Sample.u2_row (agents Sample.scenario3)) by (vm_compute; left; reflexivity).
  split; [exact Hc|]. split; [exact Hin|]. split; [vm_compute; reflexivity|].
  destruct (revoked_agent_permissions_lapse Sample.scenario3 Sample.u2_row None
              Sample.u2_agent "view_reports" Hc Hin)
    as (Htbl & _ & _ & Hcheck); [reflexivity | reflexivity | reflexivity | reflexivity |].
  split; [exact Htbl|].
  etransitivity; [apply Hcheck|]. vm_compute. reflexivity.
Defined.

(* ===================================================================== *)
(** * Further properties: permission resolution *)
(* ===================================================================== *)

(** X7.  What [get_user_permissions_for_organisation] lists passes the
    check: every catalog permission of the listing for an organisation
    makes [check_user_permission] return True for its key and that
    organisation.  For a user without an active Agent row (and below
    superadmin) the two agree exactly: the check returns True precisely when
    the listing holds a permission with the key. *)
Theorem listed_permissions_pass_check
    (db : DB) (user : User) (organisation : nat) (listing : PermissionQuerySet) :
  get_user_permissions_for_organisation db user organisation = Ok listing →
  (∀ p, In p (qs_rows db listing) →
        check_user_permission db user (p_key p) (Some organisation) = Ok true)
  ∧ (is_superadmin user = false → is_agent db user = false →
     ∀ key, check_user_permission db user key (Some organisation)
            = Ok (qs_exists db (qs_filter_key key listing))).
Proof.
  unfold get_user_permissions_for_organisation. intros H.
  destruct (is_superadmin user) eqn:Hs.
  { split; [|done]. intros p _. unfold check_user_permission. by rewrite Hs. }
  destruct (is_agent db user) eqn:Hag.
  - split; [|done]. intros p [Hp Hl]%filter_In.
    unfold check_user_permission. rewrite Hs, Hag.
    destruct (get_managed_organisation db user) as [managed|]; [|by injection H as <-].
    destruct (managed =? organisation); [|by injection H as <-].
    unfold has_permission, get_all_permissions. rewrite Hs, H. f_equal.
    apply qs_exists_key. exists p. split; [|done].
    apply filter_In. split; [done|]. unfold qs_or. rewrite Hl. apply orb_true_r.
  - injection H as <-. split.
    + intros p [Hp Hl]%filter_In.
      destruct (check_not_agent db user (p_key p) (Some organisation) Hs Hag) as [-> _].
      f_equal. apply qs_exists_key. exists p. split; [|done]. by apply filter_In.
    + intros _ _ key. by destruct (check_not_agent db user key (Some organisation) Hs Hag).
Qed.

Lemma listed_permissions_pass_check_witness :
  get_user_permissions_for_organisation Sample.scenario3 Sample.u2_agent 10
  = Ok (granted (agent_permissions Sample.scenario3) 2)
  ∧ In (mkPermission 1 "view_reports")
       (qs_rows Sample.scenario3 (granted (agent_permissions Sample.scenario3) 2))
  ∧ check_user_permission Sample.scenario3 Sample.u2_agent "view_reports" (Some 10) = Ok true
  ∧ get_user_permissions_for_organisation Sample2.office Sample.u2 10
    = Ok (get_direct_permissions Sample2.office Sample.u2)
  ∧ is_superadmin Sample.u2 = false
  ∧ is_agent Sample2.office Sample.u2 = false
  ∧ check_user_permission Sample2.office Sample.u2 "view_reports" (Some 10) = Ok true.
Proof.
  assert (H : get_user_permissions_for_organisation Sample.scenario3 Sample.u2_agent 10
              = Ok (granted (agent_permissions Sample.scenario3) 2))
    by (vm_compute; reflexivity).
  assert (Hin : In (mkPermission 1 "view_reports")
                   (qs_rows Sample.scenario3 (granted (agent_permissions Sample.scenario3) 2)))
    by (vm_compute; left; reflexivity).
  split; [exact H|]. split; [exact Hin|].
  destruct (listed_permissions_pass_check _ _ _ _ H) as [Hpass _].
  split; [exact (Hpass _ Hin)|].
  assert (H' : get_user_permissions_for_organisation Sample2.office Sample.u2 10
               = Ok (get_direct_permissions Sample2.office Sample.u2))
    by (vm_compute; reflexivity).
  split; [exact H'|]. split; [reflexivity|]. split; [reflexivity|].
  destruct (listed_permissions_pass_check _ _ _ _ H') as [_ Hsame].
  rewrite (Hsame eq_refl eq_refl "view_reports"%string). vm_compute. reflexivity.
Defined.

(** X8.  Managing an organisation gives access to it exactly when it is
    active: for whoever [can_user_manage_organisation] accepts (a superadmin
    or the organisation's agent), [can_user_access_organisation] returns
    whether the organisation row has [is_active = True]. *)
Theorem manager_accesses_active_organisation (db : DB) (user : User) (organisation : nat) :
  can_user_manage_organisation db user organisation = true →
  can_user_access_organisation db user organisation
  = bool_decide (organisations db !! organisation = Some true).
Proof.
  unfold can_user_manage_organisation, can_user_access_organisation,
    get_user_accessible_organisations.
  intros H. apply bool_decide_ext.
  destruct (is_superadmin user); [apply elem_of_active_organisations|].
  destruct (is_agent db user); [|done].
  destruct (get_managed_organisation db user) as [managed|]; [|done].
  apply Nat.eqb_eq in H as ->.
  rewrite elem_of_intersection, elem_of_singleton, elem_of_active_organisations.
  tauto.
Qed.

Lemma manager_accesses_active_organisation_witness :
  can_user_manage_organisation Sample.manages_disabled Sample.u2_agent 12 = true
  ∧ can_user_access_organisation Sample.manages_disabled Sample.u2_agent 12 = false
  ∧ can_user_manage_organisation Sample.scenario2 Sample.u2_agent 10 = true
  ∧ can_user_access_organisation Sample.scenario2 Sample.u2_agent 10 = true.
Proof.
  split; [vm_compute; reflexivity|]. split.
  { rewrite (manager_accesses_active_organisation Sample.manages_disabled Sample.u2_agent 12)
      by (vm_compute; reflexivity).
    vm_compute. reflexivity. }
  split; [vm_compute; reflexivity|].
  rewrite (manager_accesses_active_organisation Sample.scenario2 Sample.u2_agent 10)
    by (vm_compute; reflexivity).
  vm_compute. reflexivity.
Defined.

(** X9.  Assignment and lookup are a round trip: when [assign_agent]
    returns, [get_agent_for_organisation] and [get_agent_for_user] both give
    the row it returned, [get_organisation_agent] gives the user with role
    'superuser', and the user is the agent of that organisation and of no
    other. *)
Theorem assigned_agent_is_found
    (db : DB) (user : User) (organisation : nat) (assigned_by : option User) :
  consistent db →
  user_exists db (u_id user) = true →
  organisation_exists db organisation = true →
  nullable_user_exists db (u_id <$> assigned_by) = true →
  let res := assign_agent user organisation assigned_by db in
  ∃ new_agent,
    outcome res = Ok new_agent
    ∧ get_agent_for_organisation (state_of res) organisation = Some (fields new_agent)
    ∧ get_agent_for_user (state_of res) user = Some (fields new_agent)
    ∧ get_organisation_agent (state_of res) organisation
      = Ok (Some (with_role role_superuser user))
    ∧ can_user_manage_organisation (state_of res) user organisation = true
    ∧ (∀ O, is_user_agent_of_organisation (state_of res) user O = (organisation =? O)).
Proof.
  intros Hc Hu Ho Hby res. unfold res.
  rewrite (assign_agent_spec db user organisation assigned_by Hc Hu Ho Hby).
  unfold outcome, state_of. cbn [fst snd].
  set (db0 := released_store assigned_by (u_id user)
                (evicted_store assigned_by organisation db)).
  set (row := new_agent_row user organisation assigned_by db0).
  set (db' := assigned_store user organisation assigned_by db).
  pose proof (uniqueness_assigned_store user organisation assigned_by db Hc Hu Ho Hby)
    as [_ Huniq]. fold db' in Huniq.
  assert (Hin : In row (agents db')) by (by left).
  assert (Hfo : get_agent_for_organisation db' organisation = Some row).
  { unfold get_agent_for_organisation, Agent_filter, db'.
    rewrite agents_assigned_store. fold db0. fold row. cbn [List.filter].
    assert (by_org_active organisation row = true) as ->; [|done].
    unfold by_org_active, row, new_agent_row. cbn [a_organisation_id a_is_active].
    by rewrite Nat.eqb_refl. }
  pose proof (active_agent_rows db' user row Huniq Hin eq_refl eq_refl) as Hrows.
  pose proof (active_agent_is_agent db' user row Hin eq_refl eq_refl) as Hag.
  pose proof (active_agent_managed db' user row Huniq Hin eq_refl eq_refl) as Hm.
  exists (mkInst row (Some (with_role role_superuser user))). cbn [fields].
  split; [done|]. split; [done|]. split.
  { unfold get_agent_for_user. by rewrite Hrows. }
  split.
  { unfold get_organisation_agent. rewrite Hfo.
    change (a_user_id row) with (u_id user).
    unfold db'. unfold assigned_store. by rewrite users_created_store_self. }
  split.
  { unfold can_user_manage_organisation. rewrite Hag, Hm.
    change (a_organisation_id row) with organisation. rewrite Nat.eqb_refl.
    by destruct (is_superadmin user). }
  intros O. unfold is_user_agent_of_organisation. by rewrite Hag, Hm.
Qed.

Lemma assigned_agent_is_found_witness :
  let res := assign_agent Sample.u2 10 (Some Sample.admin) Sample.scenario1 in
  consistent Sample.scenario1
  ∧ get_agent_for_organisation Sample.scenario1 10 = Some Sample2.u1_row
  ∧ get_agent_for_organisation (state_of res) 10 = Some Sample.u2_row
  ∧ get_organisation_agent (state_of res) 10 = Ok (Some Sample.u2_agent).
Proof.
  assert (Hc : consistent Sample.scenario1) by (apply consistentb_sound; vm_compute; reflexivity).
  split; [exact Hc|]. split; [vm_compute; reflexivity|].
  destruct (assigned_agent_is_found Sample.scenario1 Sample.u2 10 (Some Sample.admin) Hc)
    as (new_agent & Hout & Hfo & _ & Hoa & _);
    [vm_compute; reflexivity | vm_compute; reflexivity | vm_compute; reflexivity |].
  split; [|exact Hoa].
  rewrite Hfo. f_equal.
  assert (outcome (assign_agent Sample.u2 10 (Some Sample.admin) Sample.scenario1)
          = Ok (mkInst Sample.u2_row (Some Sample.u2_agent))) as Hv
    by (vm_compute; reflexivity).
  rewrite Hv in Hout. by injection Hout as <-.
Defined.

(** X10.  Revocation and lookup: after [revoke_agent] on the active Agent
    row of a user, the organisation has no agent
    ([get_agent_for_organisation] and [get_organisation_agent] give None),
    the user has no assignment and manages nothing, and below superadmin
    [can_user_manage_organisation] refuses them for every organisation. *)
Theorem revoked_agent_is_not_found
    (db : DB) (a : Agent) (revoked_by : option User) (user : User) :
  consistent db → In a (agents db) → a_is_active a = true →
  nullable_user_exists db (u_id <$> revoked_by) = true →
  u_id user = a_user_id a →
  let res := revoke_agent (a_pk a) revoked_by db in
  get_agent_for_organisation (state_of res) (a_organisation_id a) = None
  ∧ get_organisation_agent (state_of res) (a_organisation_id a) = Ok None
  ∧ get_agent_for_user (state_of res) user = None
  ∧ get_managed_organisation (state_of res) user = None
  ∧ (∀ O, is_user_agent_of_organisation (state_of res) user O = false)
  ∧ (is_superadmin user = false →
     ∀ O, can_user_manage_organisation (state_of res) user O = false).
Proof.
  intros Hc Ha Hact Hby Hu res. unfold res.
  destruct (revoke_agent_spec db a revoked_by Hc Ha Hby) as (u & -> & _).
  unfold state_of. cbn [fst].
  pose proof (is_agent_revoked_store db a revoked_by user Hc Ha Hact Hu) as Hag.
  destruct (c_unique _ Hc) as [Ho Hus].
  assert (Hfo : get_agent_for_organisation (revoked_store revoked_by a db)
                  (a_organisation_id a) = None).
  { unfold get_agent_for_organisation, Agent_filter. rewrite agents_revoked_store.
    rewrite (filter_singleton_replace (by_org_active (a_organisation_id a)) (agents db) a);
      [done | apply by_org_active_inactive |].
    apply filter_the_one; [apply Ho | done |].
    unfold by_org_active. by rewrite Nat.eqb_refl, Hact. }
  assert (Hfu : Agent_filter (by_user_active (u_id user)) (revoked_store revoked_by a db)
                = []).
  { unfold Agent_filter. rewrite agents_revoked_store.
    apply (filter_singleton_replace (by_user_active (u_id user)) (agents db) a);
      [apply by_user_active_inactive |].
    apply filter_the_one; [apply Hus | done |].
    unfold by_user_active. by rewrite Hu, Nat.eqb_refl, Hact. }
  split; [done|]. split; [unfold get_organisation_agent; by rewrite Hfo|].
  split; [unfold get_agent_for_user; by rewrite Hfu|].
  split; [unfold get_managed_organisation; by rewrite Hag|].
  split; [intros O; unfold is_user_agent_of_organisation; by rewrite Hag|].
  intros Hs O. unfold can_user_manage_organisation. by rewrite Hs, Hag.
Qed.

Lemma revoked_agent_is_not_found_witness :
  let res := revoke_agent 2 (Some Sample.admin) Sample.scenario2 in
  consistent Sample.scenario2
  ∧ In Sample.u2_row (agents Sample.scenario2)
  ∧ get_organisation_agent Sample.scenario2 10 = Ok (Some Sample.u2_agent)
  ∧ get_organisation_agent (state_of res) 10 = Ok None
  ∧ can_user_manage_organisation (state_of res) Sample.u2 10 = false.
Proof.
  assert (Hc : consistent Sample.scenario2) by (apply consistentb_sound; vm_compute; reflexivity).
  assert (Hin : In Sample.u2_row (agents Sample.scenario2)) by (vm_compute; left; reflexivity).
  split; [exact Hc|]. split; [exact Hin|]. split; [vm_compute; reflexivity|].
  destruct (revoked_agent_is_not_found Sample.scenario2 Sample.u2_row (Some Sample.admin)
              Sample.u2 Hc Hin) as (_ & Hoa & _ & _ & _ & Hman);
    [reflexivity | vm_compute; reflexivity | reflexivity |].
  split; [exact Hoa|]. exact (Hman eq_refl 10).
Defined.

(* ===================================================================== *)
(** * Further properties: the gates *)
(* ===================================================================== *)

(** X11.  [IsAgentOfOrganisation] and [CanManageOrganisation] are one
    check: their [has_object_permission] give the same answer for every
    store, user, view and object.  Below superadmin this answer is
    [is_user_agent_of_organisation] of the organisation resolved from the
    object. *)
Theorem agent_gate_is_manage_gate (db : DB) (user : User) (view : View) (obj : Obj) :
  IsAgentOfOrganisation_has_object_permission db user view obj
  = CanManageOrganisation_has_object_permission db user view obj
  ∧ (is_superadmin user = false →
     ∀ org, resolve_organisation obj = Some (Some org) →
            CanManageOrganisation_has_object_permission db user view obj
            = Ok (is_user_agent_of_organisation db user org)).
Proof.
  unfold IsAgentOfOrganisation_has_object_permission,
    CanManageOrganisation_has_object_permission, can_user_manage_organisation_obj,
    is_user_agent_of_organisation.
  destruct (is_superadmin user); [split; done|].
  split.
  - destruct (resolve_organisation obj) as [org|]; [|done].
    destruct (is_agent db user); [|done].
    by destruct (get_managed_organisation db user).
  - intros _ org ->. destruct (is_agent db user); [|done].
    by destruct (get_managed_organisation db user).
Qed.

Lemma agent_gate_is_manage_gate_witness :
  is_superadmin Sample.u2_agent = false
  ∧ resolve_organisation (ObjOrganisation 10) = Some (Some 10)
  ∧ CanManageOrganisation_has_object_permission Sample.scenario2 Sample.u2_agent
      (mkView None) (ObjOrganisation 10) = Ok true.
Proof.
  split; [reflexivity|]. split; [reflexivity|].
  destruct (agent_gate_is_manage_gate Sample.scenario2 Sample.u2_agent (mkView None)
              (ObjOrganisation 10)) as [_ H].
  rewrite (H eq_refl 10 eq_refl). vm_compute. reflexivity.
Defined.

(** X12.  Direct grants are not scoped to an organisation.  For a user
    below superadmin who holds no active Agent row, the keyed
    organisation gate [HasOrganisationPermission.has_object_permission]
    answers the same for every organisation an object resolves to: whether
    the user's direct grants hold the key.  Membership of the organisation
    and its [is_active] flag play no part. *)
Theorem direct_grants_ignore_organisation
    (db : DB) (user : User) (view : View) (key : string) (obj : Obj) (org : nat) :
  is_superadmin user = false → is_agent db user = false →
  key_of view = Some key → resolve_organisation obj = Some (Some org) →
  HasOrganisationPermission_has_object_permission db user view obj
  = Ok (qs_exists db (qs_filter_key key (get_direct_permissions db user))).
Proof.
  intros Hs Hag Hk Ho. unfold HasOrganisationPermission_has_object_permission.
  rewrite Hs, Ho, Hk. by destruct (check_not_agent db user key (Some org) Hs Hag).
Qed.

Lemma direct_grants_ignore_organisation_witness :
  let view := mkView (Some "view_reports"%string) in
  is_superadmin Sample.u2 = false
  ∧ is_agent Sample2.office Sample.u2 = false
  ∧ key_of view = Some "view_reports"%string
  ∧ can_user_access_organisation Sample2.office Sample.u2 12 = false
  ∧ HasOrganisationPermission_has_object_permission Sample2.office Sample.u2 view
      (ObjOrganisation 12) = Ok true.
Proof.
  split; [reflexivity|]. split; [reflexivity|]. split; [reflexivity|].
  split; [vm_compute; reflexivity|].
  rewrite (direct_grants_ignore_organisation Sample2.office Sample.u2
             (mkView (Some "view_reports"%string)) "view_reports" (ObjOrganisation 12) 12);
    [vm_compute; reflexivity | reflexivity | reflexivity | reflexivity | reflexivity].
Defined.

Lemma in_syncb_sound db : in_syncb db = true → in_sync db.
Proof.
  unfold in_syncb, in_sync. rewrite forallb_forall. intros H uid r Hr Hne.
  assert (In (uid, r) (map_to_list (users db))) as Hin.
  { apply list_elem_of_In. by apply elem_of_map_to_list. }
  specialize (H _ Hin). cbn [fst snd] in H. unfold role_eqb in H.
  rewrite (bool_decide_eq_false_2 _ Hne) in H. cbn [orb] in H.
  apply eqb_prop in H. rewrite <- H. apply symmetry, bool_decide_eq_true.
Qed.

(** X13.  The role gates nest: whoever passes [IsSuperAdmin] passes
    [IsSuperUser] and [IsSuperAdminOrReadOnly], and whoever passes one of
    those passes [IsUser].  On a store whose roles agree with the
    assignments, [IsSuperUser] admits a user loaded from the store exactly
    when they are a superadmin or hold an active Agent row. *)
Theorem role_gates_nest (request : Request) :
  (IsSuperAdmin_has_permission request = true → IsSuperUser_has_permission request = true)
  ∧ (IsSuperAdmin_has_permission request = true →
     IsSuperAdminOrReadOnly_has_permission request = true)
  ∧ (IsSuperUser_has_permission request = true → IsUser_has_permission request = true)
  ∧ (IsSuperAdminOrReadOnly_has_permission request = true →
     IsUser_has_permission request = true)
  ∧ (∀ db u, req_user request = AuthUser u → in_sync db →
             users db !! u_id u = Some (u_role u) →
             IsSuperUser_has_permission request = is_superadmin u || is_agent db u).
Proof.
  unfold IsSuperAdmin_has_permission, IsSuperUser_has_permission, IsUser_has_permission,
    IsSuperAdminOrReadOnly_has_permission.
  destruct request as [ru m]. cbn [req_user req_method].
  split; [|split; [|split; [|split]]].
  - destruct ru as [| |u]; simpl; try done.
    intros H%bool_decide_eq_true%list_elem_of_singleton. apply bool_decide_eq_true.
    rewrite H. apply list_elem_of_here.
  - destruct (bool_decide (m ∈ SAFE_METHODS)); [|done]. by intros [H _]%andb_true_iff.
  - by intros [H _]%andb_true_iff.
  - destruct (bool_decide (m ∈ SAFE_METHODS)); [done|]. by intros [H _]%andb_true_iff.
  - intros db u -> Hsync Hu. simpl. unfold is_superadmin, role_eqb.
    destruct (decide (u_role u = role_superadmin)) as [Hr|Hr].
    + rewrite (bool_decide_eq_true_2 _ Hr). apply bool_decide_eq_true. rewrite Hr.
      apply list_elem_of_here.
    + rewrite (bool_decide_eq_false_2 _ Hr). simpl.
      pose proof (Hsync _ _ Hu Hr) as Hiff. destruct u as [uid r]. simpl in *.
      destruct (is_agent db (mkUser uid r)).
      * apply bool_decide_eq_true. rewrite (proj2 Hiff eq_refl).
        apply list_elem_of_further, list_elem_of_here.
      * apply bool_decide_eq_false. intros Hin.
        assert (r = role_superuser) as Hs.
        { apply elem_of_cons in Hin as [Hin|Hin]; [done|].
          by apply list_elem_of_singleton in Hin. }
        by apply Hiff in Hs.
Qed.

Lemma role_gates_nest_witness :
  let request := mkRequest (AuthUser Sample.u2_agent) "GET" in
  req_user request = AuthUser Sample.u2_agent
  ∧ in_sync Sample.scenario2
  ∧ users Sample.scenario2 !! 3 = Some role_superuser
  ∧ IsSuperUser_has_permission request = true
  ∧ IsUser_has_permission request = true
  ∧ IsSuperAdmin_has_permission (mkRequest (AuthUser Sample.admin) "POST") = true
  ∧ IsSuperAdminOrReadOnly_has_permission (mkRequest (AuthUser Sample.admin) "POST") = true.
Proof.
  assert (Hs : in_sync Sample.scenario2) by (apply in_syncb_sound; vm_compute; reflexivity).
  split; [reflexivity|]. split; [exact Hs|]. split; [vm_compute; reflexivity|].
  destruct (role_gates_nest (mkRequest (AuthUser Sample.u2_agent) "GET"))
    as (_ & _ & H3 & _ & H5).
  assert (IsSuperUser_has_permission (mkRequest (AuthUser Sample.u2_agent) "GET") = true) as H.
  { rewrite (H5 Sample.scenario2 Sample.u2_agent eq_refl Hs) by (vm_compute; reflexivity).
    vm_compute. reflexivity. }
  split; [exact H|]. split; [exact (H3 H)|].
  destruct (role_gates_nest (mkRequest (AuthUser Sample.admin) "POST")) as (_ & H2 & _).
  split; [reflexivity|]. exact (H2 eq_refl).
Defined.

(* ===================================================================== *)
(** * Further properties: assigning and revoking over the API *)
(* ===================================================================== *)

Lemma filter_pk_and tbl a (f : Agent → bool) :
  NoDup (map a_pk tbl) → In a tbl →
  List.filter (λ r, has_pk (a_pk a) r && f r) tbl = if f a then [a] else [].
Proof.
  induction tbl as [|x tbl IH]; [done|].
  intros Hnd Hin. cbn [map] in Hnd. apply NoDup_cons in Hnd as [Hx Hnd].
  cbn [List.filter]. destruct Hin as [->|Hin].
  - unfold has_pk at 1. rewrite Nat.eqb_refl. cbn [andb].
    rewrite (filter_nil (λ r, has_pk (a_pk a) r && f r) tbl).
    { by destruct (f a). }
    intros r Hr. unfold has_pk. destruct (a_pk r =? a_pk a) eqn:E; [|done].
    apply Nat.eqb_eq in E. exfalso. apply Hx. rewrite <- E.
    by apply list_elem_of_In, in_map.
  - assert (has_pk (a_pk a) x = false) as ->.
    { unfold has_pk. apply Nat.eqb_neq. intros E. apply Hx. rewrite E.
      by apply list_elem_of_In, in_map. }
    cbn [andb]. by apply IH.
Qed.

(** The role [revoke_agent] leaves to the user of an active row. *)
Lemma revoked_store_role_active db a by_ r :
  consistent db → In a (agents db) → a_is_active a = true →
  nullable_user_exists db (u_id <$> by_) = true →
  users db !! a_user_id a = Some r →
  users (revoked_store by_ a db) !! a_user_id a
  = Some (if role_eqb r role_superadmin then role_superadmin else role_user).
Proof.
  intros Hc Ha Hact Hby Hr. unfold role_eqb.
  destruct (decide (r = role_superadmin)) as [->|Hne].
  - rewrite bool_decide_eq_true_2 by done.
    unfold revoked_store.
    assert (Hd : downgrades (tick db) a = false).
    { unfold downgrades. cbn [users tick set_clock]. rewrite Hr.
      rewrite (bool_decide_eq_false_2 (Some role_superadmin = Some role_superuser)) by done.
      apply andb_false_r. }
    assert (Hu1 : users (deactivate_row (clock db) by_ a (tick db)) !! a_user_id a
                  = Some role_superadmin).
    { unfold deactivate_row. by rewrite Hd. }
    rewrite Hu1. unfold set_role, set_users. cbn [users]. rewrite lookup_insert_eq.
    unfold resynced.
    assert (is_agent (deactivate_row (clock db) by_ a (tick db))
                     (mkUser (a_user_id a) role_superadmin) = false) as ->; [|done].
    unfold is_agent. rewrite agents_deactivate_row. cbn [agents tick set_clock u_id].
    rewrite existsb_replace_deactivated by apply by_user_active_inactive.
    apply (only_active_row db a); [apply (c_unique _ Hc) | done | done].
  - rewrite bool_decide_eq_false_2 by done.
    rewrite (revoked_store_role db a by_ r Hc Ha Hby Hr Hne).
    by rewrite (is_agent_revoked_store db a by_ (mkUser (a_user_id a) r) Hc Ha Hact).
Qed.

Lemma superadmin_post_view_refused {A} (post : User → M (Response A)) request db :
  IsSuperAdmin_has_permission request = false →
  superadmin_post_view post request db = (db, Ok NotPermitted).
Proof. intros H. unfold superadmin_post_view. by rewrite H. Qed.

Lemma superadmin_post_view_post {A} (post : User → M (Response A)) admin :
  u_role admin = role_superadmin →
  superadmin_post_view post (mkRequest (AuthUser admin) "POST") = post admin.
Proof.
  intros H. unfold superadmin_post_view, IsSuperAdmin_has_permission.
  cbn [req_user req_method is_authenticated role_in andb]. rewrite H.
  rewrite bool_decide_eq_true_2 by apply list_elem_of_here. done.
Qed.

Lemma RevokeAgentView_post_not_found admin agent_id db :
  (∀ r, In r (agents db) → a_pk r = agent_id → a_is_active r = false) →
  RevokeAgentView_post admin agent_id db = (db, Ok HTTP_404_NOT_FOUND).
Proof.
  intros H. unfold RevokeAgentView_post, get_active_agent_or_404.
  unfold bind at 1. unfold bind at 1. unfold query, Agent_filter.
  rewrite filter_nil; [done|].
  intros r Hr. unfold has_pk. destruct (a_pk r =? agent_id) eqn:E; [|done].
  apply Nat.eqb_eq in E. by rewrite (H r Hr E).
Qed.

Lemma RevokeAgentView_post_found admin a r db :
  consistent db → user_exists db (u_id admin) = true →
  In a (agents db) → a_is_active a = true →
  users db !! a_user_id a = Some r →
  RevokeAgentView_post admin (a_pk a) db
  = (revoked_store (Some admin) a db,
     Ok (HTTP_200_OK (if role_eqb r role_superadmin then role_superadmin else role_user))).
Proof.
  intros Hc Hadmin Ha Hact Hr. unfold RevokeAgentView_post.
  rewrite (bind_ok _ _ db db (Some a)); cycle 1.
  { unfold get_active_agent_or_404. unfold bind, query, Agent_filter.
    rewrite (filter_pk_and _ _ a_is_active (c_pk _ Hc) Ha). by rewrite Hact. }
  rewrite (bind_ok _ _ db db (mkUser (a_user_id a) r,
                              mkInst a (Some (mkUser (a_user_id a) r)))); cycle 1.
  { unfold instance_user. cbn [user_cache fields]. unfold bind, User_get. by rewrite Hr. }
  destruct (revoke_agent_spec db a (Some admin) Hc Ha Hadmin) as (u & Hrev & _).
  rewrite (bind_ok _ _ _ _ _ Hrev).
  pose proof (consistent_revoked_store (Some admin) a db Hc Ha Hadmin) as Hc1.
  assert (Hin : In (deactivated (clock db) (Some admin) a)
                   (agents (revoked_store (Some admin) a db))).
  { rewrite agents_revoked_store. by apply In_deactivated. }
  rewrite (bind_ok _ _ _ (revoked_store (Some admin) a db)
             (mkInst (deactivated (clock db) (Some admin) a) None)); cycle 1.
  { unfold Agent_get.
    pose proof (find_has_pk _ (deactivated (clock db) (Some admin) a) (c_pk _ Hc1) Hin)
      as Hfind.
    cbn [a_pk deactivated] in Hfind. by rewrite Hfind. }
  cbn [fields a_user_id deactivated].
  pose proof (revoked_store_role_active db a (Some admin) r Hc Ha Hact Hadmin Hr) as Hrole.
  unfold bind, User_get. rewrite Hrole. done.
Qed.

(** X14.  [RevokeAgentView] (POST /api/agents/{id}/revoke/).  A request
    that [IsSuperAdmin] refuses changes nothing.  For a superadmin: when
    no active Agent row has the id, the answer is 404 and the store is
    untouched; when an active row has it, the answer is 200, the store is
    the one [revoke_agent] leaves, and ['user_role'] is 'user', except for a
    user stored as 'superadmin', whose role stays; a second POST for the same
    id is answered 404 and writes nothing, so the view never re-stamps a
    revoked row. *)
Theorem RevokeAgentView_answers (db : DB) (admin : User) (agent_id : nat) :
  consistent db →
  u_role admin = role_superadmin → user_exists db (u_id admin) = true →
  let request := mkRequest (AuthUser admin) "POST" in
  (∀ request', IsSuperAdmin_has_permission request' = false →
               RevokeAgentView request' agent_id db = (db, Ok NotPermitted))
  ∧ ((∀ r, In r (agents db) → a_pk r = agent_id → a_is_active r = false) →
     RevokeAgentView request agent_id db = (db, Ok HTTP_404_NOT_FOUND))
  ∧ (∀ a r, In a (agents db) → a_pk a = agent_id → a_is_active a = true →
            users db !! a_user_id a = Some r →
            let db' := revoked_store (Some admin) a db in
            RevokeAgentView request agent_id db
            = (db', Ok (HTTP_200_OK (if role_eqb r role_superadmin
                                     then role_superadmin else role_user)))
            ∧ RevokeAgentView request agent_id db' = (db', Ok HTTP_404_NOT_FOUND)).
Proof.
  intros Hc Hrole Hadmin request.
  split; [|split].
  - intros request' H. by apply superadmin_post_view_refused.
  - intros H. unfold RevokeAgentView, request.
    rewrite superadmin_post_view_post by done.
    by apply RevokeAgentView_post_not_found.
  - intros a r Ha <- Hact Hr db'. unfold RevokeAgentView, request.
    rewrite superadmin_post_view_post by done. split.
    + by apply RevokeAgentView_post_found.
    + apply RevokeAgentView_post_not_found. unfold db'. rewrite agents_revoked_store.
      intros x Hx Hpk. apply In_replace_row in Hx as [->|[_ Hne]]; [done|].
      by destruct Hne.
Qed.

Lemma RevokeAgentView_answers_witness :
  let request := mkRequest (AuthUser Sample.admin) "POST" in
  let db' := revoked_store (Some Sample.admin) Sample.u2_row Sample.scenario2 in
  consistent Sample.scenario2
  ∧ In Sample.u2_row (agents Sample.scenario2)
  ∧ users Sample.scenario2 !! 3 = Some role_superuser
  ∧ RevokeAgentView request 2 Sample.scenario2 = (db', Ok (HTTP_200_OK role_user))
  ∧ RevokeAgentView request 2 db' = (db', Ok HTTP_404_NOT_FOUND)
  ∧ RevokeAgentView request 1 Sample.scenario2 = (Sample.scenario2, Ok HTTP_404_NOT_FOUND).
Proof.
  assert (Hc : consistent Sample.scenario2) by (apply consistentb_sound; vm_compute; reflexivity).
  assert (Hin : In Sample.u2_row (agents Sample.scenario2)) by (vm_compute; left; reflexivity).
  assert (Hr : users Sample.scenario2 !! 3 = Some role_superuser) by (vm_compute; reflexivity).
  split; [exact Hc|]. split; [exact Hin|]. split; [exact Hr|].
  destruct (RevokeAgentView_answers Sample.scenario2 Sample.admin 2 Hc eq_refl)
    as (_ & _ & H3); [vm_compute; reflexivity|].
  destruct (H3 Sample.u2_row role_superuser Hin eq_refl eq_refl Hr) as [H200 H404].
  split; [exact H200|]. split; [exact H404|].
  destruct (RevokeAgentView_answers Sample.scenario2 Sample.admin 1 Hc eq_refl)
    as (_ & H2 & _); [vm_compute; reflexivity|].
  apply H2. vm_compute. intros r [<-|[<-|[]]]; [discriminate | reflexivity].
Defined.

Lemma by_user_active_true uid x :
  by_user_active uid x = true ↔ a_user_id x = uid ∧ a_is_active x = true.
Proof. unfold by_user_active. by rewrite andb_true_iff, Nat.eqb_eq. Qed.

Lemma by_org_active_true oid x :
  by_org_active oid x = true ↔ a_organisation_id x = oid ∧ a_is_active x = true.
Proof. unfold by_org_active. by rewrite andb_true_iff, Nat.eqb_eq. Qed.

(** [assign_agent] leaves the rows of other organisations alone when the
    user holds no active assignment elsewhere. *)
Lemma assigned_store_other_organisations db user organisation by_ :
  consistent db → nullable_user_exists db (u_id <$> by_) = true →
  (∀ x, In x (agents db) → by_user_active (u_id user) x = true →
        a_organisation_id x = organisation) →
  ∀ x, In x (agents db) → a_organisation_id x ≠ organisation →
       In x (agents (assigned_store user organisation by_ db)).
Proof.
  intros Hc Hby Hhere x Hx Horg. rewrite agents_assigned_store. right.
  destruct (evicted_store_props db by_ Hc Hby organisation) as (Hc1 & _).
  assert (Hx1 : In x (agents (evicted_store by_ organisation db))).
  { unfold evicted_store. destruct (Agent_filter _ db) as [|a1 rest] eqn:E; [done|].
    destruct (In_filter_head _ _ _ _ E) as [Ha1 [Ho1 _]%by_org_active_true].
    rewrite agents_revoked_store. apply In_replace_row_other; [done|].
    cbn [a_pk deactivated]. intros Hpk.
    apply (pk_injective _ _ _ (c_pk _ Hc) Hx Ha1) in Hpk. congruence. }
  unfold released_store.
  destruct (Agent_filter _ (evicted_store by_ organisation db)) as [|au rest] eqn:E; [done|].
  destruct (In_filter_head _ _ _ _ E) as [Hau Hactive].
  rewrite agents_deactivate_row. cbn [agents tick set_clock].
  apply In_replace_row_other; [done|]. cbn [a_pk deactivated]. intros Hpk.
  apply (pk_injective _ _ _ (c_pk _ Hc1) Hx1 Hau) in Hpk. subst au.
  apply Horg. apply Hhere; [done|done].
Qed.

Lemma validate_accepts db user_id organisation_id r :
  users db !! user_id = Some r → is_Some (organisations db !! organisation_id) →
  (∀ x, In x (agents db) → by_user_active user_id x = true →
        a_organisation_id x = organisation_id) →
  AssignAgentSerializer_validate db user_id organisation_id
  = inr (mkUser user_id r, organisation_id).
Proof.
  intros Hu [b Ho] Hhere. unfold AssignAgentSerializer_validate. rewrite Hu, Ho.
  unfold get_agent_for_user, Agent_filter. cbn [u_id].
  destruct (List.filter _ (agents db)) as [|x rest] eqn:E; [done|]. cbn [head].
  destruct (In_filter_head _ _ _ _ E) as [Hx Hact].
  rewrite (Hhere x Hx Hact), Nat.eqb_refl. by rewrite andb_false_r.
Qed.

Lemma validate_rejects_elsewhere db user_id organisation_id x :
  one_active_agent_per_user (agents db) →
  is_Some (users db !! user_id) → is_Some (organisations db !! organisation_id) →
  In x (agents db) → by_user_active user_id x = true →
  a_organisation_id x ≠ organisation_id →
  AssignAgentSerializer_validate db user_id organisation_id = inl "user_id"%string.
Proof.
  intros Huniq [r Hu] [b Ho] Hx Hact Hne. unfold AssignAgentSerializer_validate.
  rewrite Hu, Ho. unfold get_agent_for_user, Agent_filter. cbn [u_id].
  rewrite (filter_the_one _ _ x (Huniq user_id) Hx Hact). cbn [head].
  apply by_user_active_true in Hact as [_ ->].
  apply Nat.eqb_neq in Hne. by rewrite Hne.
Qed.

Lemma AssignAgentView_post_unfold admin user_id organisation_id db :
  AssignAgentView_post admin user_id organisation_id db
  = match AssignAgentSerializer_validate db user_id organisation_id with
    | inl field => (db, Ok (HTTP_400_BAD_REQUEST field))
    | inr (user, org) =>
        (do agent <- assign_agent user org (Some admin);;
         ret (HTTP_201_CREATED (fields agent))) db
    end.
Proof.
  unfold AssignAgentView_post. unfold bind at 1. unfold query.
  by destruct (AssignAgentSerializer_validate db user_id organisation_id) as [f|[u o]].
Qed.

(** X15.  [AssignAgentView] (POST /api/agents/assign/) with
    [AssignAgentSerializer].  A request that [IsSuperAdmin] refuses
    changes nothing.  For a superadmin: an unknown user or organisation, and
    a user who is the active agent of another organisation, are answered 400
    with the store untouched; otherwise the answer is 201 with the new active
    row of the user for the organisation, the store is the one [assign_agent]
    leaves, and every Agent row of another organisation is still in the
    table as it was: the endpoint never takes a user away from another
    organisation. *)
Theorem AssignAgentView_answers (db : DB) (admin : User) (user_id organisation_id : nat) :
  consistent db →
  u_role admin = role_superadmin → user_exists db (u_id admin) = true →
  let res := AssignAgentView (mkRequest (AuthUser admin) "POST") user_id organisation_id db in
  (∀ request', IsSuperAdmin_has_permission request' = false →
               AssignAgentView request' user_id organisation_id db = (db, Ok NotPermitted))
  ∧ (users db !! user_id = None → res = (db, Ok (HTTP_400_BAD_REQUEST "user_id")))
  ∧ (is_Some (users db !! user_id) → organisations db !! organisation_id = None →
     res = (db, Ok (HTTP_400_BAD_REQUEST "organisation_id")))
  ∧ (∀ x, is_Some (users db !! user_id) → is_Some (organisations db !! organisation_id) →
          In x (agents db) → by_user_active user_id x = true →
          a_organisation_id x ≠ organisation_id →
          res = (db, Ok (HTTP_400_BAD_REQUEST "user_id")))
  ∧ (∀ r, users db !! user_id = Some r → is_Some (organisations db !! organisation_id) →
          (∀ x, In x (agents db) → by_user_active user_id x = true →
                a_organisation_id x = organisation_id) →
          ∃ row,
            res = (assigned_store (mkUser user_id r) organisation_id (Some admin) db,
                   Ok (HTTP_201_CREATED row))
            ∧ In row (agents (state_of res))
            ∧ a_user_id row = user_id ∧ a_organisation_id row = organisation_id
            ∧ a_is_active row = true
            ∧ ∀ x, In x (agents db) → a_organisation_id x ≠ organisation_id →
                   In x (agents (state_of res))).
Proof.
  intros Hc Hrole Hadmin res.
  split; [intros request' H; by apply superadmin_post_view_refused|].
  unfold res, AssignAgentView. rewrite superadmin_post_view_post by done.
  rewrite AssignAgentView_post_unfold.
  split; [|split; [|split]].
  - intros Hu. unfold AssignAgentSerializer_validate. by rewrite Hu.
  - intros [r Hu] Ho. unfold AssignAgentSerializer_validate. by rewrite Hu, Ho.
  - intros x Hu Ho Hx Hact Hne.
    by rewrite (validate_rejects_elsewhere db user_id organisation_id x
                  (proj2 (c_unique _ Hc)) Hu Ho Hx Hact Hne).
  - intros r Hu Ho Hhere.
    rewrite (validate_accepts db user_id organisation_id r Hu Ho Hhere).
    rewrite (bind_ok _ _ _ _ _
               (assign_agent_spec db (mkUser user_id r) organisation_id (Some admin) Hc
                  (lookup_user_exists _ _ _ Hu)
                  (proj2 (bool_decide_eq_true _) Ho) Hadmin)).
    eexists. split; [reflexivity|]. unfold state_of. cbn [fst fields].
    split; [by left|]. split; [done|]. split; [done|]. split; [done|].
    by apply (assigned_store_other_organisations db (mkUser user_id r)).
Qed.

Lemma AssignAgentView_answers_witness :
  let request := mkRequest (AuthUser Sample.admin) "POST" in
  consistent Sample.scenario1
  ∧ AssignAgentView request 2 11 Sample.scenario1
    = (Sample.scenario1, Ok (HTTP_400_BAD_REQUEST "user_id"))
  ∧ (∃ row, AssignAgentView request 3 11 Sample.scenario1
            = (assigned_store Sample.u2 11 (Some Sample.admin) Sample.scenario1,
               Ok (HTTP_201_CREATED row)))
  ∧ In Sample2.u1_row (agents (state_of (AssignAgentView request 3 11 Sample.scenario1))).
Proof.
  assert (Hc : consistent Sample.scenario1) by (apply consistentb_sound; vm_compute; reflexivity).
  split; [exact Hc|].
  destruct (AssignAgentView_answers Sample.scenario1 Sample.admin 2 11 Hc eq_refl)
    as (_ & _ & _ & H4 & _); [vm_compute; reflexivity|].
  split.
  { apply (H4 Sample2.u1_row); [by eexists | by eexists | vm_compute; by left | done |].
    simpl. lia. }
  destruct (AssignAgentView_answers Sample.scenario1 Sample.admin 3 11 Hc eq_refl)
    as (_ & _ & _ & _ & H5); [vm_compute; reflexivity|].
  destruct (H5 role_user) as (row & Hres & _ & _ & _ & _ & Hkeep);
    [vm_compute; reflexivity | by eexists | |].
  { vm_compute. intros x [<-|[]]. discriminate. }
  split; [by exists row|].
  apply Hkeep; [vm_compute; by left | simpl; lia].
Defined.

(* ===================================================================== *)
(** * Further properties: the template views on agents *)
(* ===================================================================== *)

Lemma replace_row_marked_org by_ a tbl O :
  count_active_org O (replace_row (marked_inactive by_ a) tbl) ≤ count_active_org O tbl.
Proof.
  apply filter_map_length_le. intros x. destruct (has_pk _ x); [|done].
  unfold by_org_active. simpl. by rewrite andb_false_r.
Qed.

Lemma replace_row_marked_user by_ a tbl U :
  count_active_user U (replace_row (marked_inactive by_ a) tbl) ≤ count_active_user U tbl.
Proof.
  apply filter_map_length_le. intros x. destruct (has_pk _ x); [|done].
  unfold by_user_active. simpl. by rewrite andb_false_r.
Qed.

(** The pre_save receiver when row [a] is saved with [is_active] cleared and
    [revoked_by] set. *)
Lemma pre_save_marked db a by_ :
  consistent db → In a (agents db) →
  ∃ c, sync_user_role_on_agent_revoke (mkInst (marked_inactive by_ a) None) db
       = (if downgrades db a then set_role (a_user_id a) role_user db else db,
          Ok (mkInst (marked_inactive by_ a) c))
       ∧ cache_fresh (if downgrades db a then set_role (a_user_id a) role_user db else db)
                     (mkInst (marked_inactive by_ a) c).
Proof.
  intros Hc Ha. unfold sync_user_role_on_agent_revoke, downgrades. simpl.
  destruct (c_pk_seq _ Hc a Ha) as [Hpos _].
  destruct (a_pk a =? 0) eqn:E0; [apply Nat.eqb_eq in E0; lia|]. simpl.
  unfold try_except.
  rewrite (bind_ok _ _ db db (mkInst a None)); cycle 1.
  { unfold Agent_get. by rewrite (find_has_pk _ _ (c_pk _ Hc) Ha). }
  simpl. destruct (a_is_active a) eqn:Eact; simpl; cycle 1.
  { exists None. split; [done|]. by intros u Hu. }
  destruct (user_exists_lookup _ _ (c_fk_user _ Hc a Ha)) as [r Hr].
  unfold instance_user. simpl.
  rewrite (bind_ok _ _ db db (mkUser (a_user_id a) r, mkInst (marked_inactive by_ a)
                                (Some (mkUser (a_user_id a) r)))); cycle 1.
  { unfold bind, User_get. by rewrite Hr. }
  simpl. unfold bind at 1, query. fold (other_active_agents db a).
  destruct (other_active_agents db a) eqn:Eo; simpl.
  { exists (Some (mkUser (a_user_id a) r)). split; [done|].
    intros u [= <-]. by simpl. }
  unfold role_eqb. rewrite Hr.
  destruct (decide (r = role_superuser)) as [->|Hne].
  - rewrite !bool_decide_eq_true_2 by done.
    rewrite (bind_ok _ _ db (set_role (a_user_id a) role_user db) tt); cycle 1.
    { apply (User_save_role_ok db (with_role role_user (mkUser (a_user_id a) role_superuser))).
      simpl. by apply (c_fk_user _ Hc). }
    exists (Some (mkUser (a_user_id a) role_user)). split; [done|].
    intros u [= <-]. simpl. by rewrite lookup_insert_eq.
  - rewrite !bool_decide_eq_false_2 by congruence.
    exists (Some (mkUser (a_user_id a) r)). split; [done|].
    intros u [= <-]. by simpl.
Qed.

Lemma sql_update_marked db a by_ :
  consistent db → In a (agents db) → user_exists db (u_id by_) = true →
  sql_update (marked_inactive by_ a) db
  = (set_agents (replace_row (marked_inactive by_ a)) db, Ok true).
Proof.
  intros Hc Ha Hby. unfold sql_update. simpl.
  rewrite (existsb_has_pk _ _ Ha).
  assert (violated db (marked_inactive by_ a)
            (replace_row (marked_inactive by_ a) (agents db)) = None) as ->; [|done].
  unfold violated. simpl.
  rewrite (c_fk_user _ Hc a Ha), (c_fk_org _ Hc a Ha), (c_fk_assigned_by _ Hc a Ha), Hby.
  simpl. destruct (c_unique _ Hc) as [Ho Hu].
  assert (check_unique_active_agent_per_org
            (replace_row (marked_inactive by_ a) (agents db)) = true) as ->.
  { apply check_unique_org_spec. intros O.
    etransitivity; [apply replace_row_marked_org | apply Ho]. }
  assert (check_unique_active_agent_per_user
            (replace_row (marked_inactive by_ a) (agents db)) = true) as ->; [|done].
  apply check_unique_user_spec. intros U.
  etransitivity; [apply replace_row_marked_user | apply Hu].
Qed.

(** [agent.save()] of a row with [is_active] cleared and [revoked_by] set. *)
Lemma Model_save_marked db a by_ :
  consistent db → In a (agents db) → user_exists db (u_id by_) = true →
  let db1 := if downgrades db a then set_role (a_user_id a) role_user db else db in
  ∃ c, Model_save (mkInst (marked_inactive by_ a) None) db
       = (set_agents (replace_row (marked_inactive by_ a)) db1,
          Ok (mkInst (marked_inactive by_ a) c))
       ∧ cache_fresh db1 (mkInst (marked_inactive by_ a) c)
       ∧ consistent db1.
Proof.
  intros Hc Ha Hby db1.
  destruct (pre_save_marked db a by_ Hc Ha) as (c & Hpre & Hfresh).
  exists c. unfold Model_save. rewrite (bind_ok _ _ _ _ _ Hpre). simpl.
  destruct (c_pk_seq _ Hc a Ha) as [Hpos _].
  destruct (a_pk a =? 0) eqn:E0; [apply Nat.eqb_eq in E0; lia|].
  pose proof (c_fk_user _ Hc a Ha) as Hu.
  fold db1. fold db1 in Hfresh.
  assert (Hc1 : consistent db1).
  { unfold db1. destruct (downgrades db a); [by apply consistent_set_role | done]. }
  assert (Ha1 : In a (agents db1)).
  { unfold db1. by destruct (downgrades db a). }
  assert (Hby1 : user_exists db1 (u_id by_) = true).
  { unfold db1. destruct (downgrades db a); [|done].
    by rewrite user_exists_set_role. }
  rewrite (bind_ok _ _ _ _ _ (sql_update_marked db1 a by_ Hc1 Ha1 Hby1)).
  unfold bind at 1, ret at 1. unfold sync_user_role_on_agent_assign. simpl.
  split; [done|]. split; [exact Hfresh | exact Hc1].
Qed.

Lemma downgrades_only_row db a r :
  one_active_agent_per_user (agents db) → In a (agents db) → a_is_active a = true →
  users db !! a_user_id a = Some r →
  downgrades db a = role_eqb r role_superuser.
Proof.
  intros Huniq Ha Hact Hr. unfold downgrades.
  rewrite Hact, (only_active_row db a Huniq Ha Hact), Hr. cbn [andb negb].
  unfold role_eqb. apply bool_decide_ext. split; [by intros [= ->] | by intros ->].
Qed.

(** X16.  [agent_revoke_view] (the template view).  Its [agent_id] is
    matched against the user id of active Agent rows: when no active row
    belongs to that user the answer is 404 and nothing is written.  On a POST
    by a superadmin for a user with an active row, the view redirects to
    'agents_list'; the row is stored inactive with [revoked_by] the requester
    and [revoked_at] left as it was, the clock is not read, and the user's
    role goes from 'superuser' to 'user' through the pre_save receiver alone.
    So a row that was never revoked before ends up inactive without a
    revocation instant. *)
Theorem agent_revoke_view_answers (db : DB) (admin : User) (a : Agent) (r : Role) :
  consistent db →
  u_role admin = role_superadmin → user_exists db (u_id admin) = true →
  In a (agents db) → a_is_active a = true → users db !! a_user_id a = Some r →
  let request := mkRequest (AuthUser admin) "POST" in
  let res := agent_revoke_view request (a_user_id a) db in
  outcome res = Ok (Redirect "agents_list")
  ∧ agents (state_of res) = replace_row (marked_inactive admin a) (agents db)
  ∧ In (marked_inactive admin a) (agents (state_of res))
  ∧ clock (state_of res) = clock db
  ∧ users (state_of res) !! a_user_id a
    = Some (if role_eqb r role_superuser then role_user else r)
  ∧ (a_revoked_at a = None → ¬ all_stamped (state_of res))
  ∧ (∀ id, (∀ x, In x (agents db) → a_user_id x = id → a_is_active x = false) →
           agent_revoke_view request id db = (db, Ok Http404)).
Proof.
  intros Hc Hrole Hadmin Ha Hact Hr request res.
  assert (H404 : ∀ id, (∀ x, In x (agents db) → a_user_id x = id → a_is_active x = false) →
                       agent_revoke_view request id db = (db, Ok Http404)).
  { intros id Hnone. unfold agent_revoke_view, request. cbn [req_user req_method].
    unfold role_eqb. rewrite Hrole. rewrite bool_decide_eq_true_2 by done. cbn [negb].
    unfold get_active_agent_or_404. unfold bind at 1. unfold bind at 1.
    unfold query, Agent_filter. rewrite filter_nil; [done|].
    intros x Hx. destruct (a_user_id x =? id) eqn:E; [|done].
    apply Nat.eqb_eq in E. by rewrite (Hnone x Hx E). }
  destruct (Model_save_marked db a admin Hc Ha Hadmin) as (c & Hsave & Hfresh & Hc1).
  rewrite (downgrades_only_row db a r (proj2 (c_unique _ Hc)) Ha Hact Hr) in Hsave, Hfresh, Hc1.
  set (db1 := if role_eqb r role_superuser then set_role (a_user_id a) role_user db else db)
    in *.
  assert (Hu1 : users db1 !! a_user_id a
                = Some (if role_eqb r role_superuser then role_user else r)).
  { unfold db1. destruct (role_eqb r role_superuser); [|done].
    unfold set_role, set_users. cbn [users]. apply lookup_insert_eq. }
  assert (Hres : res = (set_agents (replace_row (marked_inactive admin a)) db1,
                        Ok (Redirect "agents_list"))).
  { unfold res, agent_revoke_view, request. cbn [req_user req_method].
    unfold role_eqb at 1. rewrite Hrole. rewrite bool_decide_eq_true_2 by done. cbn [negb].
    rewrite (bind_ok _ _ db db (Some a)); cycle 1.
    { unfold get_active_agent_or_404. unfold bind, query.
      change (λ a0, (a_user_id a0 =? a_user_id a) && a_is_active a0)
        with (by_user_active (a_user_id a)).
      pose proof (active_agent_rows db (mkUser (a_user_id a) r) a
                    (proj2 (c_unique _ Hc)) Ha Hact eq_refl) as Hrows.
      cbn [u_id] in Hrows. by rewrite Hrows. }
    rewrite bool_decide_eq_true_2 by done.
    rewrite (bind_ok _ _ _ _ _ Hsave).
    rewrite (bind_ok _ _ _ (set_agents (replace_row (marked_inactive admin a)) db1)
               (mkUser (a_user_id a) (if role_eqb r role_superuser then role_user else r),
                mkInst (marked_inactive admin a)
                  (Some (mkUser (a_user_id a)
                           (if role_eqb r role_superuser then role_user else r)))));
      [done|].
    apply (instance_user_fresh _ (mkInst (marked_inactive admin a) c)); [|exact Hu1].
    intros u Hu. apply (Hfresh u Hu). }
  rewrite Hres. unfold outcome, state_of. cbn [fst snd].
  assert (Hin : In (marked_inactive admin a) (replace_row (marked_inactive admin a) (agents db))).
  { unfold replace_row. apply in_map_iff. exists a. split; [|done].
    unfold has_pk. by rewrite Nat.eqb_refl. }
  split; [done|]. split.
  { unfold db1. by destruct (role_eqb r role_superuser). }
  split.
  { unfold db1. by destruct (role_eqb r role_superuser). }
  split.
  { unfold db1. by destruct (role_eqb r role_superuser). }
  split; [exact Hu1|]. split; [|exact H404].
  intros Hnone Hall.
  assert (In (marked_inactive admin a)
             (agents (set_agents (replace_row (marked_inactive admin a)) db1))) as Hin1.
  { unfold db1. by destruct (role_eqb r role_superuser). }
  destruct (Hall _ Hin1 eq_refl) as [t Ht]. cbn [a_revoked_at marked_inactive] in Ht.
  congruence.
Qed.

Lemma agent_revoke_view_answers_witness :
  let res := agent_revoke_view (mkRequest (AuthUser Sample.admin) "POST") 3 Sample.scenario2 in
  consistent Sample.scenario2
  ∧ In Sample.u2_row (agents Sample.scenario2)
  ∧ users Sample.scenario2 !! 3 = Some role_superuser
  ∧ outcome res = Ok (Redirect "agents_list")
  ∧ In (mkAgent 2 3 10 102 (Some 1) false None (Some 1)) (agents (state_of res))
  ∧ users (state_of res) !! 3 = Some role_user
  ∧ ¬ all_stamped (state_of res).
Proof.
  assert (Hc : consistent Sample.scenario2) by (apply consistentb_sound; vm_compute; reflexivity).
  assert (Hin : In Sample.u2_row (agents Sample.scenario2)) by (vm_compute; left; reflexivity).
  assert (Hr : users Sample.scenario2 !! 3 = Some role_superuser) by (vm_compute; reflexivity).
  split; [exact Hc|]. split; [exact Hin|]. split; [exact Hr|].
  destruct (agent_revoke_view_answers Sample.scenario2 Sample.admin Sample.u2_row
              role_superuser Hc eq_refl)
    as (H1 & _ & H3 & _ & H5 & H6 & _);
    [vm_compute; reflexivity | exact Hin | reflexivity | exact Hr |].
  split; [exact H1|]. split; [exact H3|]. split; [exact H5|]. exact (H6 eq_refl).
Defined.

(** ** The permission packages *)

Lemma filter_key_unique (l : list Permission) key :
  NoDup (map p_key l) → length (List.filter (λ p, bool_decide (p_key p = key)) l) ≤ 1.
Proof.
  induction l as [|x l IH]; simpl; [lia|].
  intros [Hx Hnd]%NoDup_cons. destruct (bool_decide (p_key x = key)) eqn:E.
  - apply bool_decide_eq_true in E. simpl.
    rewrite filter_nil; [simpl; lia|].
    intros y Hy. apply bool_decide_eq_false. intros Hk. apply Hx. rewrite E, <- Hk.
    by apply list_elem_of_In, in_map.
  - by apply IH.
Qed.

Lemma permission_id_injective (l : list Permission) p q :
  NoDup (map p_id l) → In p l → In q l → p_id p = p_id q → p = q.
Proof.
  induction l as [|x l IH]; simpl; [done|].
  intros [Hx Hnd]%NoDup_cons [->|Hp] [->|Hq] Hid; try done.
  - exfalso. apply Hx. rewrite Hid. by apply list_elem_of_In, in_map.
  - exfalso. apply Hx. rewrite <- Hid. by apply list_elem_of_In, in_map.
  - by apply IH.
Qed.

Lemma Permission_get_cases db key :
  unique_keys db →
  (Permission_get db key = GRaise PermissionDoesNotExist
   ∧ ∀ p, In p (permissions db) → p_key p ≠ key)
  ∨ (∃ q, Permission_get db key = GOk q ∧ In q (permissions db) ∧ p_key q = key
          ∧ ∀ p, In p (permissions db) → p_key p = key → p = q).
Proof.
  intros Huk. pose proof (filter_key_unique _ key Huk) as Hlen.
  unfold Permission_get.
  destruct (List.filter _ (permissions db)) as [|q [|q' l]] eqn:E; simpl in Hlen; [| |lia].
  - left. split; [done|]. intros p Hp Hk.
    assert (In p []) as []. rewrite <- E. apply filter_In. split; [done|].
    by apply bool_decide_eq_true.
  - right. exists q. destruct (In_filter_head _ _ _ _ E) as [Hq Hk].
    apply bool_decide_eq_true in Hk. split; [done|]. split; [done|]. split; [done|].
    intros p Hp Hkp.
    assert (In p [q]) as [<-|[]]; [|done]. rewrite <- E. apply filter_In. split; [done|].
    by apply bool_decide_eq_true.
Qed.

Lemma in_package_cons key keys p :
  in_package (key :: keys) p = bool_decide (p_key p = key) || in_package keys p.
Proof.
  unfold in_package. rewrite <- bool_decide_or. apply bool_decide_ext.
  apply elem_of_cons.
Qed.

Lemma existsb_false_filter {A} (f : A → bool) (l : list A) :
  existsb f l = false → List.filter f l = [].
Proof.
  intros H. apply filter_nil. intros x Hx. apply not_true_iff_false. intros Hf.
  assert (existsb f l = true) by (apply existsb_exists; eauto). congruence.
Qed.

Lemma permission_exists_In db p : In p (permissions db) → permission_exists db (p_id p) = true.
Proof.
  intros H. apply existsb_exists. exists p. split; [done|]. apply Nat.eqb_refl.
Qed.

(** The loop of the package functions on a well-formed store. *)
Lemma grant_each_spec keys : ∀ agent db,
  unique_keys db → NoDup (map p_id (permissions db)) →
  agent_exists db (a_pk agent) = true →
  (∀ pid, length (List.filter (same_grant (a_pk agent) pid) (agent_permissions db)) ≤ 1) →
  ∃ db',
    grant_each keys agent db = (db', GOk tt)
    ∧ users db' = users db ∧ organisations db' = organisations db
    ∧ permissions db' = permissions db ∧ agents db' = agents db
    ∧ user_permission_access db' = user_permission_access db
    ∧ (∀ pid, length (List.filter (same_grant (a_pk agent) pid) (agent_permissions db')) ≤ 1)
    ∧ (∀ p, In p (permissions db) →
            granted (agent_permissions db') (a_pk agent) p
            = granted (agent_permissions db) (a_pk agent) p || in_package keys p)
    ∧ (∀ g, fst g ≠ a_pk agent →
            In g (agent_permissions db') ↔ In g (agent_permissions db)).
Proof.
  induction keys as [|key keys IH]; intros agent db Huk Hid Hag Hrows.
  { exists db. repeat (split; [done|]). split; [|done].
    intros p _. unfold in_package. rewrite bool_decide_eq_false_2 by apply not_elem_of_nil.
    by rewrite orb_false_r. }
  cbn [grant_each].
  destruct (Permission_get_cases db key Huk) as [[-> Hnone]|(q & -> & Hq & Hkq & Hone)].
  - destruct (IH agent db Huk Hid Hag Hrows)
      as (db' & Hrun & F1 & F2 & F3 & F4 & F5 & Hrows' & Hgr & Hother).
    exists db'. repeat (split; [done|]). split; [|done].
    intros p Hp. rewrite (Hgr p Hp), in_package_cons.
    by rewrite (bool_decide_eq_false_2 _ (Hnone p Hp)).
  - unfold AgentPermissions_get_or_create.
    destruct (at_most_one _ (Hrows (p_id q))) as [E|[g E]]; rewrite E.
    + unfold AgentPermissions_create.
      change (agent_exists (tick db) (a_pk agent)) with (agent_exists db (a_pk agent)).
      change (permission_exists (tick db) (p_id q)) with (permission_exists db (p_id q)).
      rewrite Hag, (permission_exists_In db q Hq). cbn [negb fmap option_fmap option_map
        nullable_user_exists].
      set (db1 := set_agent_permissions (cons (a_pk agent, p_id q)) (tick db)).
      destruct (IH agent db1) as (db' & Hrun & F1 & F2 & F3 & F4 & F5 & Hrows' & Hgr & Hother);
        [done | done | done | |].
      { intros pid. unfold db1. cbn [agent_permissions set_agent_permissions tick set_clock
          List.filter].
        destruct (same_grant (a_pk agent) pid (a_pk agent, p_id q)) eqn:Es; [|apply Hrows].
        apply same_grant_eq in Es. injection Es as <-. rewrite E. simpl. lia. }
      exists db'. split; [exact Hrun|]. repeat (split; [done|]). split.
      * intros p Hp. rewrite (Hgr p Hp), in_package_cons.
        unfold db1. rewrite !granted_same_grant.
        cbn [agent_permissions set_agent_permissions tick set_clock existsb].
        assert (same_grant (a_pk agent) (p_id p) (a_pk agent, p_id q)
                = bool_decide (p_key p = key)) as ->.
        { unfold same_grant. cbn [fst snd]. rewrite Nat.eqb_refl. cbn [andb].
          destruct (decide (p_key p = key)) as [Hk|Hk].
          - rewrite (Hone p Hp Hk). rewrite Nat.eqb_refl. by rewrite bool_decide_eq_true_2.
          - rewrite bool_decide_eq_false_2 by done. apply Nat.eqb_neq. intros Hpid.
            apply Hk. rewrite <- Hkq. f_equal.
            by apply (permission_id_injective (permissions db)). }
        by destruct (bool_decide (p_key p = key)),
                    (existsb (same_grant (a_pk agent) (p_id p)) (agent_permissions db)),
                    (in_package keys p).
      * intros g Hg. rewrite (Hother g Hg). unfold db1.
        cbn [agent_permissions set_agent_permissions tick set_clock].
        split; [intros [<-|H]; [done|done] | by right].
    + destruct (IH agent db Huk Hid Hag Hrows)
        as (db' & Hrun & F1 & F2 & F3 & F4 & F5 & Hrows' & Hgr & Hother).
      exists db'. repeat (split; [done|]). split; [|done].
      intros p Hp. rewrite (Hgr p Hp), in_package_cons.
      destruct (decide (p_key p = key)) as [Hk|Hk].
      * rewrite (Hone p Hp Hk). rewrite granted_same_grant.
        assert (existsb (same_grant (a_pk agent) (p_id q)) (agent_permissions db) = true) as ->.
        { apply existsb_exists. exists g. apply filter_In. rewrite E. by left. }
        done.
      * by rewrite (bool_decide_eq_false_2 _ Hk).
Qed.

(** The loop writes nothing when the agent holds every permission of the
    package that the catalog has. *)
Lemma grant_each_noop keys : ∀ agent db,
  unique_keys db →
  (∀ pid, length (List.filter (same_grant (a_pk agent) pid) (agent_permissions db)) ≤ 1) →
  (∀ p, In p (permissions db) → in_package keys p = true →
        granted (agent_permissions db) (a_pk agent) p = true) →
  grant_each keys agent db = (db, GOk tt).
Proof.
  induction keys as [|key keys IH]; intros agent db Huk Hrows Hall; [done|].
  assert (Hrest : grant_each keys agent db = (db, GOk tt)).
  { apply IH; [done|done|]. intros p Hp Hin. apply Hall; [done|].
    rewrite in_package_cons, Hin. apply orb_true_r. }
  cbn [grant_each].
  destruct (Permission_get_cases db key Huk) as [[-> Hnone]|(q & -> & Hq & Hkq & Hone)];
    [done|].
  unfold AgentPermissions_get_or_create.
  assert (granted (agent_permissions db) (a_pk agent) q = true) as Hgq.
  { apply Hall; [done|]. rewrite in_package_cons.
    by rewrite (bool_decide_eq_true_2 _ Hkq). }
  rewrite granted_same_grant in Hgq.
  destruct (at_most_one _ (Hrows (p_id q))) as [E|[g E]]; rewrite E; [|done].
  apply existsb_exists in Hgq as (g & Hg & Hs).
  assert (In g []) as []. rewrite <- E. by apply filter_In.
Qed.

(** X17.  The permission packages ([grant_basic_agent_permissions],
    [grant_standard_agent_permissions], [grant_advanced_agent_permissions]
    share one loop).  On a store with unique permission keys and ids, for an
    agent whose row exists, the loop never raises: keys missing from the
    catalog are skipped; afterwards the agent holds, among the catalog
    permissions, exactly those held before and those whose key is in the
    package; the grants of other agents, and the user and Agent rows, are
    as before; and running the package again writes nothing. *)
Theorem permission_package_grants (keys : list string) (agent : Agent) (db : DB) :
  unique_keys db → NoDup (map p_id (permissions db)) →
  agent_exists db (a_pk agent) = true →
  (∀ pid, length (List.filter (same_grant (a_pk agent) pid) (agent_permissions db)) ≤ 1) →
  ∃ db',
    grant_each keys agent db = (db', GOk tt)
    ∧ (∀ p, In p (permissions db) →
            Agent_get_permissions db' agent p
            = Agent_get_permissions db agent p || in_package keys p)
    ∧ (∀ g, fst g ≠ a_pk agent →
            In g (agent_permissions db') ↔ In g (agent_permissions db))
    ∧ users db' = users db ∧ agents db' = agents db
    ∧ grant_each keys agent db' = (db', GOk tt).
Proof.
  intros Huk Hid Hag Hrows.
  destruct (grant_each_spec keys agent db Huk Hid Hag Hrows)
    as (db' & Hrun & F1 & F2 & F3 & F4 & F5 & Hrows' & Hgr & Hother).
  exists db'. split; [done|]. split; [exact Hgr|]. split; [exact Hother|].
  split; [done|]. split; [done|].
  apply grant_each_noop; [unfold unique_keys; by rewrite F3 | done |].
  intros p Hp Hin. rewrite F3 in Hp. rewrite (Hgr p Hp), Hin. apply orb_true_r.
Qed.

Lemma permission_package_grants_witness :
  let db := Sample2.with_catalog Sample.scenario3 in
  unique_keys db
  ∧ NoDup (map p_id (permissions db))
  ∧ agent_exists db 2 = true
  ∧ ∃ db', grant_basic_agent_permissions Sample.u2_row db = (db', GOk tt)
           ∧ agent_permissions db' = [(2, 3); (2, 1)]
           ∧ grant_basic_agent_permissions Sample.u2_row db' = (db', GOk tt).
Proof.
  assert (Huk : unique_keys (Sample2.with_catalog Sample.scenario3)).
  { apply (bool_decide_eq_true_1 _). vm_compute. reflexivity. }
  assert (Hid : NoDup (map p_id (permissions (Sample2.with_catalog Sample.scenario3)))).
  { apply (bool_decide_eq_true_1 _). vm_compute. reflexivity. }
  split; [exact Huk|]. split; [exact Hid|]. split; [vm_compute; reflexivity|].
  destruct (permission_package_grants basic_permissions Sample.u2_row
              (Sample2.with_catalog Sample.scenario3) Huk Hid)
    as (db' & Hrun & _ & _ & _ & _ & Hagain).
  { vm_compute. reflexivity. }
  { intros pid.
    change (agent_permissions (Sample2.with_catalog Sample.scenario3)) with [(2, 1)].
    cbn [List.filter]. destruct (same_grant _ pid (2, 1)); simpl; lia. }
  exists db'. unfold grant_basic_agent_permissions. split; [exact Hrun|].
  split; [|exact Hagain].
  assert (grant_each basic_permissions Sample.u2_row (Sample2.with_catalog Sample.scenario3)
          = (set_agent_permissions (cons (2, 3))
               (tick (Sample2.with_catalog Sample.scenario3)), GOk tt)) as Hv
    by (vm_compute; reflexivity).
  rewrite Hv in Hrun. by injection Hrun as <-.
Defined.

Lemma package_grant_unfold permission_package :
  (if bool_decide (permission_package = "basic"%string)
   then grant_basic_agent_permissions
   else if bool_decide (permission_package = "advanced"%string)
        then grant_advanced_agent_permissions
        else grant_standard_agent_permissions)
  = grant_each (package_keys permission_package).
Proof.
  unfold package_keys.
  destruct (bool_decide (permission_package = "basic"%string)); [done|].
  by destruct (bool_decide (permission_package = "advanced"%string)).
Qed.

(** X18.  [agent_assign_view] (the template view), end to end.  On a
    consistent store with unique permission keys and ids, a POST by a
    superadmin for an existing user and organisation: when the user is the
    active agent of another organisation, the view redirects back to
    'agent_assign' and writes nothing; otherwise it redirects to
    'agents_list', the user's active assignment is a row for that
    organisation, that row holds exactly the catalog permissions of the
    chosen package ('basic', 'advanced', anything else standing for
    'standard') and none that a previous agent or a previous row of the user
    held, and [check_user_permission] passes for each of them on the
    organisation. *)
Theorem agent_assign_view_answers
    (db : DB) (admin : User) (user_id org_id : nat) (permission_package : string) (r : Role) :
  consistent db → grants_reference_agents db →
  unique_keys db → NoDup (map p_id (permissions db)) →
  u_role admin = role_superadmin → user_exists db (u_id admin) = true →
  users db !! user_id = Some r → is_Some (organisations db !! org_id) →
  let res := agent_assign_view (mkRequest (AuthUser admin) "POST") user_id org_id
               permission_package db in
  let user := mkUser user_id role_superuser in
  (∀ x, In x (agents db) → by_user_active user_id x = true →
        a_organisation_id x ≠ org_id → res = (db, Redirect "agent_assign"))
  ∧ ((∀ x, In x (agents db) → by_user_active user_id x = true →
           a_organisation_id x = org_id) →
     ∃ row,
       snd res = Redirect "agents_list"
       ∧ get_agent_for_user (fst res) user = Some row
       ∧ a_organisation_id row = org_id
       ∧ (∀ p, In p (permissions db) →
               Agent_get_permissions (fst res) row p
               = in_package (package_keys permission_package) p)
       ∧ (∀ p, In p (permissions db) →
               in_package (package_keys permission_package) p = true →
               check_user_permission (fst res) user (p_key p) (Some org_id) = Ok true)).
Proof.
  intros Hc Hg Huk Hid Hrole Hadmin Hu [b Ho] res user.
  assert (Hres : res
    = let user0 := mkUser user_id r in
      let elsewhere :=
        match get_agent_for_user db user0 with
        | Some existing_agent =>
            a_is_active existing_agent && negb (a_organisation_id existing_agent =? org_id)
        | None => false
        end in
      if elsewhere then (db, Redirect "agent_assign")
      else match assign_agent user0 org_id (Some admin) db with
           | (db', Ok agent) =>
               match grant_each (package_keys permission_package) (fields agent) db' with
               | (db'', GOk _) => (db'', Redirect "agents_list")
               | (db'', GRaise _) => (db'', Render "user_management/agent_assign.html")
               end
           | (db', Raise _) => (db', Render "user_management/agent_assign.html")
           end).
  { unfold res, agent_assign_view. cbn [req_user req_method].
    unfold role_eqb. rewrite Hrole. rewrite bool_decide_eq_true_2 by done.
    rewrite (bool_decide_eq_true_2 ("POST"%string = "POST"%string)) by done.
    cbn [negb]. rewrite Hu, Ho. by rewrite package_grant_unfold. }
  rewrite Hres. clear Hres. cbn zeta.
  unfold get_agent_for_user, Agent_filter. cbn [u_id].
  split.
  - intros x Hx Hact Hne.
    rewrite (filter_the_one _ _ x (proj2 (c_unique _ Hc) user_id) Hx Hact). cbn [head].
    apply by_user_active_true in Hact as [_ ->].
    apply Nat.eqb_neq in Hne. by rewrite Hne.
  - intros Hhere.
    assert (match head (List.filter (by_user_active user_id) (agents db)) with
            | Some existing_agent =>
                a_is_active existing_agent
                && negb (a_organisation_id existing_agent =? org_id)
            | None => false
            end = false) as ->.
    { destruct (List.filter _ (agents db)) as [|x rest] eqn:E; [done|]. cbn [head].
      destruct (In_filter_head _ _ _ _ E) as [Hx Hact].
      rewrite (Hhere x Hx Hact), Nat.eqb_refl. by rewrite andb_false_r. }
    pose proof (lookup_user_exists _ _ _ Hu) as Hue.
    assert (Hoe : organisation_exists db org_id = true)
      by (apply bool_decide_eq_true; eauto).
    rewrite (assign_agent_spec db (mkUser user_id r) org_id (Some admin) Hc Hue Hoe Hadmin).
    cbn [fields].
    set (db0 := released_store (Some admin) user_id (evicted_store (Some admin) org_id db)).
    change (released_store (Some admin) (u_id (mkUser user_id r))
              (evicted_store (Some admin) org_id db)) with db0.
    set (row := new_agent_row (mkUser user_id r) org_id (Some admin) db0).
    set (db1 := assigned_store (mkUser user_id r) org_id (Some admin) db).
    destruct (assigned_store_frame (mkUser user_id r) org_id (Some admin) db)
      as (F1 & F2 & F3 & F4). fold db1 in F1, F2, F3, F4.
    destruct (evicted_store_frame (Some admin) org_id db) as (_ & _ & _ & E4).
    destruct (released_store_frame (Some admin) user_id
                (evicted_store (Some admin) org_id db)) as (_ & _ & _ & R4).
    assert (Hpk : a_pk row = S (agent_seq db)).
    { unfold row, new_agent_row. cbn [a_pk]. unfold db0. by rewrite R4, E4. }
    assert (Hnone : ∀ p, granted (agent_permissions db1) (a_pk row) p = false).
    { intros p. rewrite F3, Hpk. apply granted_beyond_seq; [done | done | lia]. }
    pose proof (uniqueness_assigned_store (mkUser user_id r) org_id (Some admin) db
                  Hc Hue Hoe Hadmin) as [_ Huniq]. fold db1 in Huniq.
    assert (Hin : In row (agents db1)) by (by left).
    destruct (grant_each_spec (package_keys permission_package) row db1)
      as (db2 & Hrun & G1 & G2 & G3 & G4 & G5 & _ & Hgr & _).
    { unfold unique_keys. by rewrite F1. }
    { by rewrite F1. }
    { unfold agent_exists. by apply existsb_has_pk. }
    { intros pid. pose proof (Hnone (mkPermission pid "")) as Hn.
      rewrite granted_same_grant in Hn. cbn [p_id] in Hn.
      rewrite (existsb_false_filter _ _ Hn). simpl. lia. }
    rewrite Hrun. cbn [fst snd]. exists row.
    rewrite <- G4 in Huniq, Hin.
    split; [done|]. split.
    { pose proof (active_agent_rows db2 user row Huniq Hin eq_refl eq_refl) as Hrows.
      unfold Agent_filter in Hrows. by rewrite Hrows. }
    split; [done|].
    assert (Hhas : ∀ p, In p (permissions db) →
                        granted (agent_permissions db2) (a_pk row) p
                        = in_package (package_keys permission_package) p).
    { intros p Hp. rewrite <- F1 in Hp. by rewrite (Hgr p Hp), (Hnone p). }
    split; [exact Hhas|]. intros p Hp Hpack.
    destruct (check_managed db2 user row (p_key p) eq_refl Huniq Hin eq_refl eq_refl)
      as [Hcheck _].
    change (a_organisation_id row) with org_id in Hcheck. rewrite Hcheck. f_equal.
    apply qs_exists_key. exists p. split; [|done].
    apply filter_In. rewrite G3, F1. split; [done|].
    unfold qs_or. rewrite (Hhas p Hp), Hpack. apply orb_true_r.
Qed.

Lemma agent_assign_view_answers_witness :
  let db := Sample2.with_catalog Sample.scenario3 in
  let res := agent_assign_view (mkRequest (AuthUser Sample.admin) "POST") 2 10 "basic" db in
  consistent db ∧ grants_reference_agents db
  ∧ unique_keys db ∧ NoDup (map p_id (permissions db))
  ∧ users db !! 2 = Some role_user
  ∧ snd res = Redirect "agents_list"
  ∧ check_user_permission (fst res) (mkUser 2 role_superuser) "view_users" (Some 10) = Ok true
  ∧ check_user_permission (fst res) (mkUser 2 role_superuser) "view_contacts" (Some 10)
    = Ok false.
Proof.
  assert (Hc : consistent (Sample2.with_catalog Sample.scenario3))
    by (apply consistentb_sound; vm_compute; reflexivity).
  assert (Hg : grants_reference_agents (Sample2.with_catalog Sample.scenario3))
    by (apply grants_reference_agentsb_sound; vm_compute; reflexivity).
  assert (Huk : unique_keys (Sample2.with_catalog Sample.scenario3)).
  { apply (bool_decide_eq_true_1 _). vm_compute. reflexivity. }
  assert (Hid : NoDup (map p_id (permissions (Sample2.with_catalog Sample.scenario3)))).
  { apply (bool_decide_eq_true_1 _). vm_compute. reflexivity. }
  assert (Hu : users (Sample2.with_catalog Sample.scenario3) !! 2 = Some role_user)
    by (vm_compute; reflexivity).
  split; [exact Hc|]. split; [exact Hg|]. split; [exact Huk|]. split; [exact Hid|].
  split; [exact Hu|].
  destruct (agent_assign_view_answers (Sample2.with_catalog Sample.scenario3) Sample.admin
              2 10 "basic" role_user Hc Hg Huk Hid eq_refl) as [_ H2];
    [vm_compute; reflexivity | exact Hu | by eexists |].
  destruct H2 as (row & Hredirect & _ & _ & _ & Hcheck).
  { vm_compute. intros x [<-|[<-|[]]]; discriminate. }
  split; [exact Hredirect|]. split.
  - apply (Hcheck (mkPermission 3 "view_users")); [vm_compute; tauto | vm_compute; reflexivity].
  - vm_compute. reflexivity.
Defined.

(* ===================================================================== *)
(** * Further properties: invariants of the mutators *)
(* ===================================================================== *)

(** ** The stored role agrees with the assignments *)

Lemma in_sync_at_resynced db uid r :
  users db !! uid = Some r → resynced db (mkUser uid r) = r → in_sync_at db uid.
Proof.
  intros Hu Hres r' Hu' Hne. rewrite Hu in Hu'. injection Hu' as <-.
  unfold resynced in Hres. cbn [u_role] in Hres. unfold role_eqb in Hres.
  destruct (is_agent db (mkUser uid r)); [by split|].
  split; [|done]. intros Hr.
  rewrite (bool_decide_eq_true_2 _ Hr) in Hres. congruence.
Qed.

Lemma in_sync_at_frame db db' uid :
  users db' !! uid = users db !! uid →
  (∀ r, is_agent db' (mkUser uid r) = is_agent db (mkUser uid r)) →
  in_sync_at db uid → in_sync_at db' uid.
Proof.
  intros Hu Hag H r Hr Hne. rewrite Hu in Hr. rewrite Hag. by apply H.
Qed.

Lemma users_revoked_store_other by_ a db U :
  a_user_id a ≠ U → users (revoked_store by_ a db) !! U = users db !! U.
Proof.
  intros Hne. unfold revoked_store.
  pose proof (users_deactivate_row_other (clock db) by_ a (tick db) U Hne) as H.
  destruct (users (deactivate_row (clock db) by_ a (tick db)) !! a_user_id a); [|done].
  unfold set_role, set_users. cbn [users]. by rewrite lookup_insert_ne.
Qed.

Lemma is_agent_revoked_store_other by_ a db u :
  consistent db → In a (agents db) → a_user_id a ≠ u_id u →
  is_agent (revoked_store by_ a db) u = is_agent db u.
Proof.
  intros Hc Ha Hne. unfold is_agent. rewrite agents_revoked_store.
  pose proof (is_agent_deactivate_row_other (clock db) by_ a db u Hc Ha Hne) as H.
  unfold is_agent in H. by rewrite agents_deactivate_row in H.
Qed.

Lemma in_sync_revoked_store db a by_ :
  consistent db → In a (agents db) →
  nullable_user_exists db (u_id <$> by_) = true →
  in_sync db → in_sync (revoked_store by_ a db).
Proof.
  intros Hc Ha Hby Hs uid.
  destruct (decide (uid = a_user_id a)) as [->|Hne].
  - destruct (revoked_store_in_sync db a by_ Hc Ha Hby) as (r & Hr & Hres).
    by apply (in_sync_at_resynced _ _ r).
  - apply (in_sync_at_frame db).
    + apply users_revoked_store_other. congruence.
    + intros r. apply is_agent_revoked_store_other; [done | done | simpl; congruence].
    + exact (Hs uid).
Qed.

Lemma in_sync_evicted_store db by_ organisation :
  consistent db → nullable_user_exists db (u_id <$> by_) = true →
  in_sync db → in_sync (evicted_store by_ organisation db).
Proof.
  intros Hc Hby Hs. unfold evicted_store.
  destruct (Agent_filter _ db) as [|a1 rest] eqn:E; [done|].
  destruct (In_filter_head _ _ _ _ E) as [Ha1 _].
  by apply in_sync_revoked_store.
Qed.

(** The new row and the bumped sequence keep the table well formed. *)
Lemma consistent_assigned_store db user organisation by_ :
  consistent db →
  user_exists db (u_id user) = true →
  organisation_exists db organisation = true →
  nullable_user_exists db (u_id <$> by_) = true →
  consistent (assigned_store user organisation by_ db).
Proof.
  intros Hc Hu Ho Hby.
  pose proof (uniqueness_assigned_store user organisation by_ db Hc Hu Ho Hby) as Huniq.
  destruct (evicted_store_props db by_ Hc Hby organisation) as (Hc1 & Hu1 & Ho1 & _).
  assert (Hby1 : nullable_user_exists (evicted_store by_ organisation db) (u_id <$> by_)
                 = true).
  { by rewrite (nullable_user_exists_same db _ _ Hu1). }
  destruct (released_store_props _ by_ Hc1 Hby1 (u_id user)) as (Hc0 & Hu0 & Ho0 & _).
  set (db0 := released_store by_ (u_id user) (evicted_store by_ organisation db)) in *.
  assert (Hue : ∀ uid, user_exists db0 uid = user_exists db uid).
  { intros uid. by rewrite Hu0, Hu1. }
  assert (Hoe : organisations db0 = organisations db) by (by rewrite Ho0, Ho1).
  set (row := new_agent_row user organisation by_ db0).
  set (db_in := set_agent_seq (S (agent_seq db0)) (set_agents (cons row) (tick db0))).
  assert (Hin : consistent db_in).
  { split.
    - intros a [<-|Ha]; [|by apply (c_fk_user _ Hc0)].
      change (user_exists db0 (u_id user) = true). by rewrite (Hue (u_id user)).
    - intros a [<-|Ha]; [|by apply (c_fk_org _ Hc0)].
      change (organisation_exists db0 organisation = true).
      unfold organisation_exists in *. by rewrite Hoe.
    - intros a [<-|Ha]; [|by apply (c_fk_assigned_by _ Hc0)].
      change (nullable_user_exists db0 (u_id <$> by_) = true).
      by rewrite (nullable_user_exists_same db db0 _ Hue).
    - intros a [<-|Ha]; [done | by apply (c_fk_revoked_by _ Hc0)].
    - change (NoDup (S (agent_seq db0) :: map a_pk (agents db0))).
      apply NoDup_cons. split; [|apply (c_pk _ Hc0)].
      intros (x & Hpk & Hx)%list_elem_of_In%in_map_iff.
      destruct (c_pk_seq _ Hc0 x Hx). lia.
    - intros a [<-|Ha]; cbn; [lia|]. destruct (c_pk_seq _ Hc0 a Ha). lia.
    - exact Huniq. }
  apply (consistent_set_role db_in); [exact Hin|].
  change (user_exists db0 (u_id user) = true). by rewrite Hue.
Qed.

Lemma in_sync_assigned_store db user organisation by_ :
  consistent db →
  nullable_user_exists db (u_id <$> by_) = true →
  in_sync db → in_sync (assigned_store user organisation by_ db).
Proof.
  intros Hc Hby Hs uid.
  destruct (evicted_store_props db by_ Hc Hby organisation) as (Hc1 & Hu1 & _).
  pose proof (in_sync_evicted_store db by_ organisation Hc Hby Hs) as Hs1.
  unfold assigned_store.
  set (db1 := evicted_store by_ organisation db) in *.
  destruct (decide (uid = u_id user)) as [->|Hne].
  - intros r Hr Hnr.
    rewrite users_created_store_self in Hr. injection Hr as <-.
    pose proof (is_agent_created_store_self user organisation by_
                  (released_store by_ (u_id user) db1)) as Hag.
    unfold is_agent in Hag |- *. cbn [u_id]. by rewrite Hag.
  - apply (in_sync_at_frame (released_store by_ (u_id user) db1)).
    { apply users_created_store_other. congruence. }
    { intros r. apply is_agent_created_store_other. simpl. congruence. }
    apply (in_sync_at_frame db1).
    { apply users_released_store_other. congruence. }
    { intros r. apply is_agent_released_store_other; [done | simpl; congruence]. }
    exact (Hs1 uid).
Qed.

(** X19.  The role field stays in line with the assignments.  On a
    consistent store where every user below superadmin has the role
    'superuser' exactly when they hold an active Agent row, a call of
    [assign_agent] for an existing user and organisation, and a call of
    [revoke_agent] for any id, by an existing user or by nobody, leaves the
    store consistent and in that same state. *)
Theorem roles_stay_in_sync (db : DB) :
  consistent db → in_sync db →
  (∀ user organisation assigned_by,
     user_exists db (u_id user) = true →
     organisation_exists db organisation = true →
     nullable_user_exists db (u_id <$> assigned_by) = true →
     let db' := state_of (assign_agent user organisation assigned_by db) in
     consistent db' ∧ in_sync db')
  ∧ (∀ agent_id revoked_by,
       nullable_user_exists db (u_id <$> revoked_by) = true →
       let db' := state_of (revoke_agent agent_id revoked_by db) in
       consistent db' ∧ in_sync db').
Proof.
  intros Hc Hs. split.
  - intros user organisation assigned_by Hu Ho Hby db'. unfold db'.
    rewrite (assign_agent_spec db user organisation assigned_by Hc Hu Ho Hby).
    unfold state_of. cbn [fst]. split.
    + by apply consistent_assigned_store.
    + by apply in_sync_assigned_store.
  - intros agent_id revoked_by Hby db'. unfold db'.
    destruct (find (has_pk agent_id) (agents db)) as [a|] eqn:E.
    + apply find_some in E as [Ha Hpk]. unfold has_pk in Hpk. apply Nat.eqb_eq in Hpk.
      subst agent_id.
      destruct (revoke_agent_spec db a revoked_by Hc Ha Hby) as (u & -> & _).
      unfold state_of. cbn [fst]. split.
      * by apply consistent_revoked_store.
      * by apply in_sync_revoked_store.
    + assert (revoke_agent agent_id revoked_by db = (db, Raise AgentDoesNotExist)) as ->.
      { unfold revoke_agent. unfold bind at 1. unfold Agent_get. by rewrite E. }
      by split.
Qed.

Lemma roles_stay_in_sync_witness :
  consistent Sample.scenario1 ∧ in_sync Sample.scenario1
  ∧ in_sync (state_of (assign_agent Sample.u2 10 (Some Sample.admin) Sample.scenario1))
  ∧ in_sync (state_of (revoke_agent 1 None Sample.scenario1)).
Proof.
  assert (Hc : consistent Sample.scenario1) by (apply consistentb_sound; vm_compute; reflexivity).
  assert (Hs : in_sync Sample.scenario1) by (apply in_syncb_sound; vm_compute; reflexivity).
  split; [exact Hc|]. split; [exact Hs|].
  destruct (roles_stay_in_sync Sample.scenario1 Hc Hs) as [Hassign Hrevoke].
  split.
  - apply (Hassign Sample.u2 10 (Some Sample.admin)); vm_compute; reflexivity.
  - apply (Hrevoke 1 None). reflexivity.
Defined.

(** ** Every revocation is stamped *)

Section Keeps.
Context (P : DB → Prop).

Lemma keeps_ret {A} (Q : A → Prop) (a : A) : Q a → keeps P Q (ret a).
Proof. intros Ha db HP. split; [done|]. by intros a' [= <-]. Qed.

Lemma keeps_bind {A B} (Q : A → Prop) (R : B → Prop) (c : M A) (k : A → M B) :
  keeps P Q c → (∀ a, Q a → keeps P R (k a)) → keeps P R (bind c k).
Proof.
  intros Hc Hk db HP. destruct (Hc db HP) as [HP' HQ]. unfold bind, state_of, outcome in *.
  destruct (c db) as [db' [a|e]]; cbn [fst snd] in *; [|by split].
  by apply (Hk a (HQ a eq_refl)).
Qed.

Lemma keeps_weaken {A} (Q Q' : A → Prop) (c : M A) :
  keeps P Q c → (∀ a, Q a → Q' a) → keeps P Q' c.
Proof.
  intros Hc HQ db HP. destruct (Hc db HP) as [HP' Hout]. split; [done|].
  intros a Ha. by apply HQ, Hout.
Qed.

Lemma keeps_for_each {A} (xs : list A) (body : A → M unit) :
  (∀ x, keeps P (λ _, True) (body x)) → keeps P (λ _, True) (for_each xs body).
Proof.
  intros H. induction xs as [|x xs IH]; simpl; [by apply keeps_ret|].
  apply (keeps_bind (λ _, True)); [apply H | done].
Qed.

Lemma keeps_preserves {A} (Q : A → Prop) (c : M A) : keeps P Q c → preserves P c.
Proof. intros H db HP. by destruct (H db HP). Qed.
End Keeps.

(** A computation that leaves the Agent table alone. *)
Lemma keeps_frame {A} (c : M A) :
  (∀ db, agents (state_of (c db)) = agents db) → keeps all_stamped (λ _, True) c.
Proof.
  intros H db HP. split; [|done]. unfold all_stamped. rewrite H. exact HP.
Qed.

Lemma keeps_frame_result {A} (Q : A → Prop) (c : M A) :
  (∀ db db' o, c db = (db', o) → agents db' = agents db ∧ ∀ a, o = Ok a → Q a) →
  keeps all_stamped Q c.
Proof.
  intros H db HP. unfold state_of, outcome.
  destruct (c db) as [db' o] eqn:E. destruct (H db db' o E) as [Hag HQ].
  cbn [fst snd]. split; [|done]. unfold all_stamped. rewrite Hag. exact HP.
Qed.

Lemma User_save_role_agents u db : agents (state_of (User_save_role u db)) = agents db.
Proof. unfold User_save_role, state_of. by destruct (users db !! u_id u). Qed.

Lemma User_save_role_result u db db' o :
  User_save_role u db = (db', o) → agents db' = agents db.
Proof.
  intros H. pose proof (User_save_role_agents u db) as Hag. by rewrite H in Hag.
Qed.

Lemma instance_user_result i db db' o :
  instance_user i db = (db', o) →
  agents db' = agents db ∧ ∀ r, o = Ok r → fields (snd r) = fields i.
Proof.
  unfold instance_user. destruct (user_cache i) as [u|].
  - intros [= <- <-]. split; [done|]. by intros r [= <-].
  - unfold bind, User_get. destruct (users db !! _).
    + intros [= <- <-]. split; [done|]. by intros r' [= <-].
    + intros [= <- <-]. by split.
Qed.

Lemma instance_user_agents i db : agents (state_of (instance_user i db)) = agents db.
Proof.
  unfold state_of. destruct (instance_user i db) as [db' o] eqn:E.
  by destruct (instance_user_result _ _ _ _ E).
Qed.

Lemma sync_role_agents u db :
  agents (state_of (sync_role_with_agent_status u db)) = agents db.
Proof.
  unfold sync_role_with_agent_status. unfold bind at 1. unfold query.
  destruct (is_agent db u && _).
  { unfold bind, state_of. pose proof (User_save_role_agents (with_role role_superuser u) db) as H.
    unfold state_of in H. by destruct (User_save_role _ db) as [db' [[]|e]]. }
  destruct (negb (is_agent db u) && _); [|done].
  unfold bind, state_of. pose proof (User_save_role_agents (with_role role_user u) db) as H.
  unfold state_of in H. by destruct (User_save_role _ db) as [db' [[]|e]].
Qed.

Lemma pre_save_result i db db' o :
  sync_user_role_on_agent_revoke i db = (db', o) →
  agents db' = agents db ∧ ∀ i', o = Ok i' → fields i' = fields i.
Proof.
  unfold sync_user_role_on_agent_revoke.
  destruct (negb (a_pk (fields i) =? 0));
    [|intros [= <- <-]; split; [done | by intros i' [= <-]]].
  unfold try_except, bind at 1, Agent_get.
  destruct (find _ (agents db)) as [old|]; cycle 1.
  { rewrite bool_decide_eq_true_2 by done.
    intros [= <- <-]. split; [done | by intros i' [= <-]]. }
  cbn beta iota.
  destruct (a_is_active _ && negb (a_is_active (fields i)));
    [|intros [= <- <-]; split; [done | by intros i' [= <-]]].
  unfold bind at 1.
  destruct (instance_user i db) as [db1 [[user i1]|e]] eqn:E;
    destruct (instance_user_result _ _ _ _ E) as [Hag Hres]; cycle 1.
  { destruct (bool_decide (e = AgentDoesNotExist)); intros [= <- <-];
      (split; [done|]); [by intros i' [= <-] | done]. }
  specialize (Hres _ eq_refl). cbn [snd] in Hres.
  unfold bind at 1, query.
  destruct (negb _ && role_eqb (u_role user) role_superuser); cycle 1.
  { intros [= <- <-]. split; [done|]. by intros i' [= <-]. }
  unfold bind.
  destruct (User_save_role (with_role role_user user) db1) as [db2 [[]|e]] eqn:E2;
    pose proof (User_save_role_result _ _ _ _ E2) as Hsave.
  - intros [= <- <-]. split; [congruence|]. by intros i' [= <-].
  - destruct (bool_decide (e = AgentDoesNotExist)); intros [= <- <-];
      (split; [congruence|]); [by intros i' [= <-] | done].
Qed.

Lemma post_save_result i created db db' o :
  sync_user_role_on_agent_assign i created db = (db', o) →
  agents db' = agents db ∧ ∀ i', o = Ok i' → fields i' = fields i.
Proof.
  unfold sync_user_role_on_agent_assign.
  destruct (a_is_active (fields i));
    [|intros [= <- <-]; split; [done | by intros i' [= <-]]].
  unfold bind at 1.
  destruct (instance_user i db) as [db1 [[user i1]|e]] eqn:E;
    destruct (instance_user_result _ _ _ _ E) as [Hag Hres];
    [|intros [= <- <-]; by split].
  specialize (Hres _ eq_refl). cbn [snd] in Hres.
  destruct (negb (role_eqb (u_role user) role_superuser)); cycle 1.
  { intros [= <- <-]. split; [done|]. by intros i' [= <-]. }
  unfold bind.
  destruct (User_save_role (with_role role_superuser user) db1) as [db2 [[]|e]] eqn:E2;
    pose proof (User_save_role_result _ _ _ _ E2) as Hsave.
  - intros [= <- <-]. split; [congruence|]. by intros i' [= <-].
  - intros [= <- <-]. split; [congruence|done].
Qed.

Lemma keeps_sql_update a :
  stamped a → keeps all_stamped (λ _, True) (sql_update a).
Proof.
  intros Ha db HP. split; [|done]. unfold sql_update, state_of.
  destruct (existsb _ (agents db)); [|done].
  destruct (violated db a _); [done|]. cbn [fst].
  intros r [->|[Hr _]]%In_replace_row; [done | by apply HP].
Qed.

Lemma keeps_sql_insert a :
  stamped a → keeps all_stamped stamped (sql_insert a).
Proof.
  intros Ha db HP. unfold sql_insert, state_of, outcome.
  set (a' := if a_pk a =? 0 then set_pk (S (agent_seq db)) a else a).
  assert (Ha' : stamped a') by (unfold a'; by destruct (a_pk a =? 0)).
  destruct (violated db a' _); cbn [fst snd]; [by split|]. split.
  - intros r [<-|Hr]; [done | by apply HP].
  - by intros r [= <-].
Qed.

Lemma keeps_Model_save i :
  stamped (fields i) → keeps all_stamped (λ i', stamped (fields i')) (Model_save i).
Proof.
  intros Hi. unfold Model_save.
  apply (keeps_bind _ (λ i', fields i' = fields i)).
  { apply keeps_frame_result. intros db db' o. apply pre_save_result. }
  intros i1 H1. apply (keeps_bind _ (λ _, True)).
  { destruct (a_pk (fields i1) =? 0); [by apply keeps_ret|].
    apply keeps_sql_update. by rewrite H1. }
  intros updated _. apply (keeps_bind _ stamped).
  { destruct updated; [apply keeps_ret; by rewrite H1|].
    apply (keeps_bind _ (λ _, True)); [by apply keeps_frame|].
    intros now _. apply keeps_sql_insert. unfold stamped. cbn. rewrite H1. exact Hi. }
  intros row Hrow.
  apply (keeps_weaken _ (λ i', fields i' = row)); [|by intros i' ->].
  apply keeps_frame_result. intros db db' o. apply post_save_result.
Qed.

Lemma stamped_deactivated now by_ a : stamped (deactivated now by_ a).
Proof. intros _. by eexists. Qed.

Lemma keeps_assign_agent user organisation assigned_by :
  keeps all_stamped (λ _, True) (assign_agent user organisation assigned_by).
Proof.
  unfold assign_agent.
  apply (keeps_bind _ (λ _, True)); [by apply keeps_frame|]. intros existing _.
  apply (keeps_bind _ (λ _, True)).
  { apply keeps_for_each. intros agent. unfold deactivate_and_sync.
    apply (keeps_bind _ (λ _, True)); [by apply keeps_frame|]. intros now _.
    apply (keeps_bind _ (λ _, True)).
    { eapply keeps_weaken; [apply keeps_Model_save, stamped_deactivated | done]. }
    intros i _. apply (keeps_bind _ (λ _, True)).
    { apply keeps_frame. apply instance_user_agents. }
    intros [u i'] _. apply (keeps_bind _ (λ _, True)).
    { apply keeps_frame. apply sync_role_agents. }
    intros _ _. by apply keeps_ret. }
  intros _ _. apply (keeps_bind _ (λ _, True)); [by apply keeps_frame|]. intros mine _.
  apply (keeps_bind _ (λ _, True)).
  { apply keeps_for_each. intros agent. unfold deactivate_only.
    apply (keeps_bind _ (λ _, True)); [by apply keeps_frame|]. intros now _.
    apply (keeps_bind _ (λ _, True)).
    { eapply keeps_weaken; [apply keeps_Model_save, stamped_deactivated | done]. }
    intros _ _. by apply keeps_ret. }
  intros _ _. apply (keeps_bind _ (λ _, True)).
  { eapply keeps_weaken; [apply keeps_Model_save | done]. by intros [=]. }
  intros new_agent _. apply (keeps_bind _ (λ _, True)).
  { apply keeps_frame. apply User_save_role_agents. }
  intros _ _. by apply keeps_ret.
Qed.

Lemma keeps_revoke_agent agent_id revoked_by :
  keeps all_stamped (λ _, True) (revoke_agent agent_id revoked_by).
Proof.
  unfold revoke_agent.
  apply (keeps_bind _ (λ _, True)).
  { apply keeps_frame. intros db. unfold Agent_get, state_of. by destruct (find _ _). }
  intros agent _. apply (keeps_bind _ (λ _, True)); [by apply keeps_frame|]. intros now _.
  apply (keeps_bind _ (λ _, True)).
  { eapply keeps_weaken; [apply keeps_Model_save, stamped_deactivated | done]. }
  intros i _. apply (keeps_bind _ (λ _, True)).
  { apply keeps_frame. apply instance_user_agents. }
  intros [u i'] _. apply (keeps_bind _ (λ _, True)).
  { apply keeps_frame. apply sync_role_agents. }
  intros u' _. by apply keeps_ret.
Qed.

(** X20.  Every revocation by the mutators is stamped.  From a store in
    which every inactive Agent row has [revoked_at] set, every store reached
    by calls of [assign_agent] and [revoke_agent] (with any arguments,
    returning or raising) has [revoked_at] set on every inactive row: the
    two mutators never clear [is_active] without the instant (the template
    view [agent_revoke_view] does). *)
Theorem revocations_are_stamped (db0 db : DB) :
  all_stamped db0 → reachable db0 db →
  ∀ a, In a (agents db) → a_is_active a = false → ∃ t, a_revoked_at a = Some t.
Proof.
  intros H0 Hreach. unfold reachable in Hreach.
  assert (all_stamped db) as Hall.
  { induction Hreach as [db|db1 db2 db3 Hstep _ IH]; [done|]. apply IH.
    destruct Hstep as [db user organisation assigned_by|db agent_id revoked_by].
    - by apply (keeps_preserves _ _ _ (keeps_assign_agent user organisation assigned_by)).
    - by apply (keeps_preserves _ _ _ (keeps_revoke_agent agent_id revoked_by)). }
  intros a Ha Hact. exact (Hall a Ha Hact).
Qed.

Lemma revocations_are_stamped_witness :
  let db1 := state_of (assign_agent Sample.u1 10 (Some Sample.admin) Sample.empty_store) in
  let db2 := state_of (assign_agent Sample.u2 10 (Some Sample.admin) db1) in
  all_stamped Sample.empty_store
  ∧ reachable Sample.empty_store db2
  ∧ In (mkAgent 1 2 10 100 (Some 1) false (Some 101) (Some 1)) (agents db2)
  ∧ ∃ t, a_revoked_at (mkAgent 1 2 10 100 (Some 1) false (Some 101) (Some 1)) = Some t.
Proof.
  assert (H0 : all_stamped Sample.empty_store) by (intros a []).
  assert (Hr : reachable Sample.empty_store
                 (state_of (assign_agent Sample.u2 10 (Some Sample.admin)
                    (state_of (assign_agent Sample.u1 10 (Some Sample.admin)
                                 Sample.empty_store))))).
  { eapply rtc_l; [apply step_assign_agent|]. eapply rtc_l; [apply step_assign_agent|].
    apply rtc_refl. }
  assert (Hin : In (mkAgent 1 2 10 100 (Some 1) false (Some 101) (Some 1))
                   (agents (state_of (assign_agent Sample.u2 10 (Some Sample.admin)
                      (state_of (assign_agent Sample.u1 10 (Some Sample.admin)
                                   Sample.empty_store)))))).
  { vm_compute. right. left. reflexivity. }
  split; [exact H0|]. split; [exact Hr|]. split; [exact Hin|].
  exact (revocations_are_stamped _ _ H0 Hr _ Hin eq_refl).
Defined.

(* ===================================================================== *)
(** * Further properties: email verification *)
(* ===================================================================== *)

Section EmailVerificationProperties.
Import EmailVerification.

Lemma filter_mark_used token token' tbl :
  List.filter (λ t, bool_decide (t_token t = token')) (mark_used token tbl)
  = mark_used token (List.filter (λ t, bool_decide (t_token t = token')) tbl).
Proof.
  unfold mark_used. induction tbl as [|t tbl IH]; [done|]. cbn [map List.filter].
  assert (t_token (if bool_decide (t_token t = token)
                   then mkToken (t_user_id t) (t_token t) (t_created_at t)
                          (t_expires_at t) true
                   else t) = t_token t) as -> by (by destruct (bool_decide _)).
  destruct (bool_decide (t_token t = token')); cbn [map]; by rewrite IH.
Qed.

(** A successful verification, step by step. *)
Lemma EmailVerifyView_post_ok token s s1 :
  EmailVerifyView_post token s = (s1, inr tt) →
  ∃ evt, List.filter (λ t, bool_decide (t_token t = token)) (tokens s) = [evt]
         ∧ t_is_used evt = false ∧ now s ≤ t_expires_at evt
         ∧ is_Some (user_is_active s !! t_user_id evt)
         ∧ s1 = mkStore (<[t_user_id evt := true]> (user_is_active s))
                        (mark_used token (tokens s)) (S (now s)).
Proof.
  unfold EmailVerifyView_post, EmailVerificationSerializer_validate, is_valid.
  destruct (List.filter _ (tokens s)) as [|evt [|evt' l]] eqn:E; [done| |done].
  destruct (In_filter_head _ _ _ _ E) as [_ Htok]. apply bool_decide_eq_true in Htok.
  destruct (t_is_used evt) eqn:Eu; [done|]. cbn [read_clock].
  destruct (now s <=? t_expires_at evt) eqn:El; [|done].
  cbn [user_is_active tokens now].
  destruct (user_is_active s !! t_user_id evt) eqn:Ea; [|done].
  intros [= <-]. exists evt. apply Nat.leb_le in El. rewrite Htok.
  split; [done|]. split; [done|]. split; [done|]. split; [by eexists | done].
Qed.

(** X21.  A verification token works once.  When [EmailVerifyView.post]
    has accepted a token, the token's user is active, and every later POST
    of the same token, at any time and whatever else changed outside the
    token table, is refused with 'Token expired or already used' and writes
    nothing. *)
Theorem verification_token_is_single_use (token : string) (s s1 : Store) :
  EmailVerifyView_post token s = (s1, inr tt) →
  (∃ evt, In evt (tokens s) ∧ t_token evt = token
          ∧ user_is_active s1 !! t_user_id evt = Some true)
  ∧ ∀ s2, tokens s2 = tokens s1 →
          EmailVerifyView_post token s2 = (s2, inl Token_expired_or_already_used).
Proof.
  intros H. destruct (EmailVerifyView_post_ok _ _ _ H) as (evt & E & Hu & Hle & Ha & ->).
  destruct (In_filter_head _ _ _ _ E) as [Hin Htok]. apply bool_decide_eq_true in Htok.
  split.
  - exists evt. split; [done|]. split; [done|]. cbn [user_is_active].
    apply lookup_insert_eq.
  - intros s2 Htbl. cbn [tokens] in Htbl.
    unfold EmailVerifyView_post, EmailVerificationSerializer_validate.
    rewrite Htbl, filter_mark_used, E. unfold mark_used. cbn [map].
    rewrite (bool_decide_eq_true_2 _ Htok). unfold is_valid. cbn [t_is_used]. done.
Qed.

Lemma create_for_user_ok token user_id ttl s s1 evt :
  create_for_user token user_id ttl s = (s1, inr evt) →
  evt = mkToken user_id token (S (now s)) (now s + hours ttl) false
  ∧ tokens s1 = evt :: tokens s
  ∧ List.filter (λ t, bool_decide (t_token t = token)) (tokens s1) = [evt]
  ∧ is_Some (user_is_active s !! user_id).
Proof.
  unfold create_for_user, read_clock. cbn [user_is_active tokens now].
  destruct (bool_decide (is_Some (user_is_active s !! user_id))) eqn:Eu; [|done].
  destruct (existsb _ (tokens s)) eqn:Ee; [done|]. cbn [andb negb].
  intros [= <- <-]. cbn [tokens]. split; [done|]. split; [done|]. split.
  - cbn [List.filter t_token]. rewrite bool_decide_eq_true_2 by done.
    by rewrite (existsb_false_filter _ _ Ee).
  - by apply bool_decide_eq_true in Eu.
Qed.

(** X22.  The lifetime of a verification token.  A token made by
    [create_for_user] at instant [t0] with [ttl_hours] expires at
    [t0 + ttl_hours] hours and is unused.  While the token table is as
    [create_for_user] left it and the user row exists, [EmailVerifyView.post]
    accepts the token at every instant up to and including the expiry
    instant, activating the user, and refuses it with 'Token expired or
    already used' at every later instant, leaving the user as they were. *)
Theorem verification_token_lifetime
    (token : string) (user_id ttl_hours : nat) (s s1 : Store) (evt : Token) :
  create_for_user token user_id ttl_hours s = (s1, inr evt) →
  t_expires_at evt = now s + hours ttl_hours ∧ t_is_used evt = false
  ∧ ∀ s2, tokens s2 = tokens s1 → is_Some (user_is_active s2 !! user_id) →
          (now s2 ≤ now s + hours ttl_hours →
           ∃ s3, EmailVerifyView_post token s2 = (s3, inr tt)
                 ∧ user_is_active s3 !! user_id = Some true)
          ∧ (now s + hours ttl_hours < now s2 →
             ∃ s3, EmailVerifyView_post token s2 = (s3, inl Token_expired_or_already_used)
                   ∧ user_is_active s3 = user_is_active s2
                   ∧ tokens s3 = tokens s2).
Proof.
  intros H. destruct (create_for_user_ok _ _ _ _ _ _ H) as (-> & Htbl & Hf & Hu).
  split; [done|]. split; [done|]. intros s2 Hs2 [b Hb].
  unfold EmailVerifyView_post, EmailVerificationSerializer_validate, is_valid.
  rewrite Hs2, Hf. cbn [t_is_used t_expires_at read_clock t_user_id t_token].
  split.
  - intros Hle. apply Nat.leb_le in Hle. rewrite Hle.
    cbn [user_is_active tokens now t_user_id t_token].
    rewrite Hb. eexists. split; [reflexivity|]. cbn [user_is_active].
    apply lookup_insert_eq.
  - intros Hlt. apply Nat.leb_gt in Hlt. rewrite Hlt. eexists. split; [reflexivity|].
    by split.
Qed.
End EmailVerificationProperties.

Lemma verification_token_is_single_use_witness :
  let s1 := EmailVerification.mkStore {[7 := true]}
              [EmailVerification.mkToken 7 "tok" 1 3600 true] 3 in
  EmailVerification.EmailVerifyView_post "tok" Sample2.registered = (s1, inr tt)
  ∧ EmailVerification.EmailVerifyView_post "tok" s1
    = (s1, inl EmailVerification.Token_expired_or_already_used).
Proof.
  assert (H : EmailVerification.EmailVerifyView_post "tok" Sample2.registered
              = (EmailVerification.mkStore {[7 := true]}
                   [EmailVerification.mkToken 7 "tok" 1 3600 true] 3,
                 inr tt)) by (vm_compute; reflexivity).
  split; [exact H|].
  destruct (verification_token_is_single_use _ _ _ H) as [_ Hagain].
  by apply Hagain.
Defined.

Lemma verification_token_lifetime_witness :
  let s0 := EmailVerification.mkStore {[7 := false]} [] 0 in
  let at_ (t : nat) := EmailVerification.mkStore {[7 := false]}
                         (EmailVerification.tokens Sample2.registered) t in
  (∃ evt, EmailVerification.create_for_user "tok" 7 1 s0 = (Sample2.registered, inr evt))
  ∧ (∃ s3, EmailVerification.EmailVerifyView_post "tok" (at_ 3600) = (s3, inr tt))
  ∧ (∃ s3, EmailVerification.EmailVerifyView_post "tok" (at_ 3601)
           = (s3, inl EmailVerification.Token_expired_or_already_used)).
Proof.
  assert (H : EmailVerification.create_for_user "tok" 7 1
                (EmailVerification.mkStore {[7 := false]} [] 0)
              = (Sample2.registered,
                 inr (EmailVerification.mkToken 7 "tok" 1 3600 false)))
    by (vm_compute; reflexivity).
  split; [by eexists|].
  destruct (verification_token_lifetime _ _ _ _ _ _ H) as (_ & _ & Hwindow).
  split.
  - destruct (Hwindow (EmailVerification.mkStore {[7 := false]}
                         (EmailVerification.tokens Sample2.registered) 3600)
                eq_refl) as [Hin _]; [by eexists|].
    destruct Hin as (s3 & Hs3 & _); [vm_compute; reflexivity|].
    by exists s3.
  - destruct (Hwindow (EmailVerification.mkStore {[7 := false]}
                         (EmailVerification.tokens Sample2.registered) 3601)
                eq_refl) as [_ Hout]; [by eexists|].
    destruct Hout as (s3 & Hs3 & _); [apply Nat.leb_le; vm_compute; reflexivity|].
    by exists s3.
Defined.
